(** * The Vault entity service: a shallow embedding and its properties

    The development follows the Python sources:
    - [src/device_id.py]            : [DeviceId.compute_device_id];
    - [src/grpc_entity_service.py]  : the helpers [error_response],
      [validate_request_fields], [handle_pow_verification],
      [handle_pow_initialization], [verify_long_lived_token], and the ten
      handlers of [EntityService].

    Python [str] values are held as Rocq strings of their UTF-8 bytes (the
    form protobuf string fields have on the wire), Python [bytes] as lists of
    integers in [0, 256), and 32-bit words as [Z] reduced modulo [2^32]. *)

From Stdlib Require Import ZArith List String Ascii Bool Lia.
Import ListNotations.

Local Open Scope string_scope.
Local Open Scope list_scope.
Local Open Scope Z_scope.

(* ------------------------------------------------------------------ *)
(** ** Bytes and strings *)

Module Bytes.

Definition bytes := list Z.

Definition is_byte (b : Z) : Prop := 0 <= b < 256.

Definition wf (l : bytes) : Prop := Forall is_byte l.

Definition byte_of_ascii (c : ascii) : Z := Z.of_N (N_of_ascii c).

(** [s.encode("utf-8")] on the UTF-8 representation of [s]. *)
Fixpoint encode_utf8 (s : string) : bytes :=
  match s with
  | EmptyString => []
  | String c r => byte_of_ascii c :: encode_utf8 r
  end.

Definition hex_digit (d : Z) : ascii :=
  if d <? 10 then ascii_of_N (Z.to_N (48 + d))
  else ascii_of_N (Z.to_N (87 + d)).

Definition hex_digit_val (c : ascii) : Z :=
  let n := byte_of_ascii c in
  if n <? 58 then n - 48 else n - 87.

(** Two lowercase hexadecimal digits per byte, as [bytes.hex()]. *)
Fixpoint hex (l : bytes) : string :=
  match l with
  | [] => EmptyString
  | b :: r => String (hex_digit (b / 16)) (String (hex_digit (b mod 16)) (hex r))
  end.

Definition is_lower_hex (c : ascii) : bool :=
  let n := byte_of_ascii c in
  ((48 <=? n) && (n <=? 57)) || ((97 <=? n) && (n <=? 102)).

Fixpoint string_forallb (p : ascii -> bool) (s : string) : bool :=
  match s with
  | EmptyString => true
  | String c r => p c && string_forallb p r
  end.

Definition xor_with (k : Z) (l : bytes) : bytes := map (fun b => Z.lxor b k) l.

Fixpoint zeros (n : nat) : bytes :=
  match n with
  | O => []
  | S m => 0 :: zeros m
  end.

End Bytes.

(* ------------------------------------------------------------------ *)
(** ** SHA-256 (hashlib.sha256), after FIPS 180-4 *)

Module Sha256.
Import Bytes.

Definition w32 (x : Z) : Z := x mod 4294967296.

Definition add32 (x y : Z) : Z := w32 (x + y).

Definition rotr (n x : Z) : Z :=
  w32 (Z.lor (Z.shiftr x n) (Z.shiftl x (32 - n))).

Definition shr (n x : Z) : Z := Z.shiftr x n.

Definition not32 (x : Z) : Z := 4294967295 - x.

Definition Ch (x y z : Z) : Z := Z.lxor (Z.land x y) (Z.land (not32 x) z).
Definition Maj (x y z : Z) : Z :=
  Z.lxor (Z.lxor (Z.land x y) (Z.land x z)) (Z.land y z).
Definition Sigma0 (x : Z) : Z := Z.lxor (Z.lxor (rotr 2 x) (rotr 13 x)) (rotr 22 x).
Definition Sigma1 (x : Z) : Z := Z.lxor (Z.lxor (rotr 6 x) (rotr 11 x)) (rotr 25 x).
Definition sigma0 (x : Z) : Z := Z.lxor (Z.lxor (rotr 7 x) (rotr 18 x)) (shr 3 x).
Definition sigma1 (x : Z) : Z := Z.lxor (Z.lxor (rotr 17 x) (rotr 19 x)) (shr 10 x).

Definition primes : list Z :=
  [2; 3; 5; 7; 11; 13; 17; 19; 23; 29; 31; 37; 41; 43; 47; 53; 59; 61; 67; 71; 73; 79;
   83; 89; 97; 101; 103; 107; 109; 113; 127; 131; 137; 139; 149; 151; 157; 163; 167; 173;
   179; 181; 191; 193; 197; 199; 211; 223; 227; 229; 233; 239; 241; 251; 257; 263; 269;
   271; 277; 281; 283; 293; 307; 311].

(** The integer cube root of [n], found bit by bit below bit [bits]. *)
Fixpoint cube_root (bits : nat) (acc n : Z) : Z :=
  match bits with
  | O => acc
  | S b =>
      let c := acc + Z.shiftl 1 (Z.of_nat b) in
      cube_root b (if c * c * c <=? n then c else acc) n
  end.

(** The round constants: the first 32 bits of the fractional parts of the
    cube roots of the first 64 primes. *)
Definition K : list Z :=
  Eval vm_compute in map (fun p => w32 (cube_root 40 0 (Z.shiftl p 96))) primes.

(** The eight working variables, and the running hash value. *)
Record regs := Regs { ra : Z; rb : Z; rc : Z; rd : Z; re : Z; rf : Z; rg : Z; rh : Z }.

(** The first 32 bits of the fractional part of the square root of [p]. *)
Definition frac_sqrt (p : Z) : Z := w32 (Z.sqrt (Z.shiftl p 64)).

(** The initial hash value, from the first eight primes. *)
Definition H0 : regs :=
  Eval vm_compute in
    Regs (frac_sqrt 2) (frac_sqrt 3) (frac_sqrt 5) (frac_sqrt 7)
         (frac_sqrt 11) (frac_sqrt 13) (frac_sqrt 17) (frac_sqrt 19).

Definition be32 (x : Z) : bytes :=
  [ (Z.shiftr x 24) mod 256; (Z.shiftr x 16) mod 256; (Z.shiftr x 8) mod 256; x mod 256 ].

Definition be64 (x : Z) : bytes :=
  be32 (Z.shiftr x 32) ++ be32 x.

Fixpoint words_of_bytes (l : bytes) : list Z :=
  match l with
  | b0 :: b1 :: b2 :: b3 :: r =>
      (Z.shiftl b0 24 + Z.shiftl b1 16 + Z.shiftl b2 8 + b3) :: words_of_bytes r
  | _ => []
  end.

(** Message padding: the bit 1, zeros up to 56 modulo 64, the bit length. *)
Definition pad (m : bytes) : bytes :=
  let n := Z.of_nat (List.length m) in
  m ++ [128] ++ zeros (Z.to_nat ((55 - n) mod 64)) ++ be64 (8 * n).

(** The message schedule, held newest word first: [rev_w] is W[t-1], W[t-2], ... *)
Fixpoint extend (k : nat) (rev_w : list Z) : list Z :=
  match k with
  | O => rev_w
  | S k' =>
      let w := add32 (add32 (sigma1 (nth 1 rev_w 0)) (nth 6 rev_w 0))
                     (add32 (sigma0 (nth 14 rev_w 0)) (nth 15 rev_w 0)) in
      extend k' (w :: rev_w)
  end.

Definition schedule (block : list Z) : list Z := rev (extend 48 (rev block)).

Definition round (r : regs) (kw : Z * Z) : regs :=
  let t1 := add32 (add32 (add32 (rh r) (Sigma1 (re r))) (Ch (re r) (rf r) (rg r)))
                  (add32 (fst kw) (snd kw)) in
  let t2 := add32 (Sigma0 (ra r)) (Maj (ra r) (rb r) (rc r)) in
  Regs (add32 t1 t2) (ra r) (rb r) (rc r) (add32 (rd r) t1) (re r) (rf r) (rg r).

Definition compress (h : regs) (block : list Z) : regs :=
  let r := fold_left round (combine K (schedule block)) h in
  Regs (add32 (ra h) (ra r)) (add32 (rb h) (rb r)) (add32 (rc h) (rc r))
       (add32 (rd h) (rd r)) (add32 (re h) (re r)) (add32 (rf h) (rf r))
       (add32 (rg h) (rg r)) (add32 (rh h) (rh r)).

(** [n] bounds the number of 16-word blocks in [ws]. *)
Fixpoint blocks (n : nat) (h : regs) (ws : list Z) : regs :=
  match n with
  | O => h
  | S n' =>
      match ws with
      | [] => h
      | _ => blocks n' (compress h (firstn 16 ws)) (skipn 16 ws)
      end
  end.

Definition digest_of (h : regs) : bytes :=
  be32 (ra h) ++ be32 (rb h) ++ be32 (rc h) ++ be32 (rd h) ++
  be32 (re h) ++ be32 (rf h) ++ be32 (rg h) ++ be32 (rh h).

Definition sha256 (m : bytes) : bytes :=
  let ws := words_of_bytes (pad m) in
  digest_of (blocks (List.length ws) H0 ws).

Definition block_size : nat := 64.
Definition digest_size : nat := 32.

End Sha256.

(* ------------------------------------------------------------------ *)
(** ** HMAC (hmac.new(key, msg, hashlib.sha256)), after RFC 2104 *)

Module Hmac.
Import Bytes.

(** Keys longer than a block are hashed first; the key is then padded with
    zero bytes to the block size. *)
Definition key_block (key : bytes) : bytes :=
  let k := if Nat.ltb Sha256.block_size (List.length key)
           then Sha256.sha256 key else key in
  k ++ zeros (Sha256.block_size - List.length k).

Definition digest (key msg : bytes) : bytes :=
  let kb := key_block key in
  let inner := Sha256.sha256 (xor_with 54 kb ++ msg) in
  Sha256.sha256 (xor_with 92 kb ++ inner).

Definition hexdigest (key msg : bytes) : string := hex (digest key msg).

End Hmac.

(* ------------------------------------------------------------------ *)
(** ** src/device_id.py *)

Module DeviceId.
Import Bytes.

Definition compute_device_id (secret_key : bytes) (phone_number public_key : string)
  : string :=
  let combined_input := (phone_number ++ public_key)%string in
  Hmac.hexdigest secret_key (encode_utf8 combined_input).

End DeviceId.

(* ------------------------------------------------------------------ *)
(** ** Python built-ins used by the service *)

Module Py.

(** Truth value of a [str]: the empty string is false. *)
Definition truthy (s : string) : bool :=
  match s with
  | EmptyString => false
  | String _ _ => true
  end.

(** Truth value of a [str] or [None]. *)
Definition truthy_opt (o : option string) : bool :=
  match o with
  | None => false
  | Some s => truthy s
  end.

Definition lower_ascii (c : ascii) : ascii :=
  let n := N_of_ascii c in
  if (N.leb 65 n && N.leb n 90)%bool then ascii_of_N (n + 32)%N else c.

(** [s.lower()]. The mapping is the one of the letters A to Z; no code point
    outside ASCII lowercases to an ASCII letter other than k. *)
Fixpoint lower (s : string) : string :=
  match s with
  | EmptyString => EmptyString
  | String c r => String (lower_ascii c) (lower r)
  end.

(** [x in t] for a tuple of strings. *)
Fixpoint str_in (x : string) (t : list string) : bool :=
  match t with
  | [] => false
  | y :: r => String.eqb x y || str_in x r
  end.

(** [sep.join(l)]. *)
Fixpoint join (sep : string) (l : list string) : string :=
  match l with
  | [] => EmptyString
  | [x] => x
  | x :: r => (x ++ sep ++ join sep r)%string
  end.

(** [a, b = s.split(sep, 1)] for a separator of one character: the text
    before its first occurrence and the text after it; [None] stands for
    the [ValueError] of an unpacking that finds one element only. *)
Fixpoint split_once (sep : ascii) (s : string) : option (string * string) :=
  match s with
  | EmptyString => None
  | String c r =>
      if Ascii.eqb c sep then Some (EmptyString, r)
      else match split_once sep r with
           | Some (a, b) => Some (String c a, b)
           | None => None
           end
  end.

Definition split_colon (s : string) : option (string * string) :=
  split_once ":"%char s.

Definition unpack_error : string :=
  "not enough values to unpack (expected 2, got 1)".

Fixpoint contains (c : ascii) (s : string) : bool :=
  match s with
  | EmptyString => false
  | String d r => Ascii.eqb c d || contains c r
  end.

Definition squote : ascii := "'"%char.
Definition dquote : ascii := ascii_of_N 34.
Definition backslash : ascii := ascii_of_N 92.

Definition repr_char (quote c : ascii) : string :=
  let n := Bytes.byte_of_ascii c in
  if Ascii.eqb c quote || Ascii.eqb c backslash then String backslash (String c EmptyString)
  else if n =? 9 then String backslash "t"
  else if n =? 10 then String backslash "n"
  else if n =? 13 then String backslash "r"
  else if (n <? 32) || (n =? 127) then
    String backslash (String "x"%char
      (String (Bytes.hex_digit (n / 16)) (String (Bytes.hex_digit (n mod 16)) EmptyString)))
  else String c EmptyString.

Fixpoint repr_body (quote : ascii) (s : string) : string :=
  match s with
  | EmptyString => EmptyString
  | String c r => (repr_char quote c ++ repr_body quote r)%string
  end.

(** [repr(s)] of a [str]: single quotes unless the text has a single quote
    and no double quote; the quote, the backslash and the control
    characters are escaped. Bytes above 127 are kept as they are: this is
    [repr] for text whose code points above U+007F are printable; Python
    escapes the others (U+00A0 reads [\xa0]), which is not modelled. *)
Definition repr (s : string) : string :=
  let quote := if contains squote s && negb (contains dquote s) then dquote else squote in
  (String quote (repr_body quote s) ++ String quote EmptyString)%string.

(** [repr] of a value that is a [str] or [None]. *)
Definition repr_opt (o : option string) : string :=
  match o with
  | None => "None"
  | Some s => repr s
  end.

(** A dict with string keys, in insertion order. *)
Definition dict (V : Type) := list (string * V).

Fixpoint get {V : Type} (d : dict V) (k : string) : option V :=
  match d with
  | [] => None
  | (k', v) :: r => if String.eqb k k' then Some v else get r k
  end.

(** [d[k] = v]: replaces the value of an existing key in place, appends a
    new key. *)
Fixpoint set {V : Type} (d : dict V) (k : string) (v : V) : dict V :=
  match d with
  | [] => [(k, v)]
  | (k', v') :: r => if String.eqb k k' then (k', v) :: r else (k', v') :: set r k v
  end.

(** [str(d)] of a dict whose values are [str] or [None]. *)
Definition str_dict (d : dict (option string)) : string :=
  ("{" ++ join ", " (map (fun kv => repr (fst kv) ++ ": " ++ repr_opt (snd kv)) d) ++ "}")%string.

(** [posixpath.join(a, b)]. *)
Definition path_join (a b : string) : string :=
  match b with
  | String "/"%char _ => b
  | _ =>
      match a with
      | EmptyString => b
      | _ => if String.eqb (substring (String.length a - 1) 1 a) "/"
             then (a ++ b)%string else (a ++ "/" ++ b)%string
      end
  end.

(** Values of a decoded JSON object. *)
Inductive value :=
| VStr (s : string)
| VInt (n : Z).

(** [v == s] for the result [v] of [dict.get] and a [str] [s]. *)
Definition is_str (v : option value) (s : string) : bool :=
  match v with
  | Some (VStr x) => String.eqb x s
  | _ => false
  end.

End Py.

(* ------------------------------------------------------------------ *)
(** ** gRPC status codes, context, requests and responses *)

Module Grpc.

Inductive StatusCode :=
| OK | INVALID_ARGUMENT | UNAUTHENTICATED | NOT_FOUND | ALREADY_EXISTS
| FAILED_PRECONDITION | UNIMPLEMENTED | INTERNAL.

(** The servicer context of one call: [set_details] and [set_code]. *)
Record Context := mkContext {
  details : option string;
  code : StatusCode
}.

Definition fresh_context : Context := mkContext None OK.

(** The request fields the service reads. The message classes of [vault_pb2]
    are generated code; one record holds the fields of all request
    messages, each with its proto3 default when absent. *)
Record Request := mkRequest {
  phone_number : string;
  country_code : string;
  password : string;
  client_publish_pub_key : string;
  client_device_id_pub_key : string;
  ownership_proof_response : string;
  long_lived_token : string;
  token : string;
  platform : string;
  account_identifier : string;
  device_id : string;
  payload_ciphertext : string;
  payload_plaintext : string
}.

Definition empty_request : Request :=
  mkRequest "" "" "" "" "" "" "" "" "" "" "" "" "".

Inductive Field :=
| F_phone_number | F_country_code | F_password | F_client_publish_pub_key
| F_client_device_id_pub_key | F_ownership_proof_response | F_long_lived_token
| F_token | F_platform | F_account_identifier | F_device_id
| F_payload_ciphertext | F_payload_plaintext.

Definition field_name (f : Field) : string :=
  match f with
  | F_phone_number => "phone_number"
  | F_country_code => "country_code"
  | F_password => "password"
  | F_client_publish_pub_key => "client_publish_pub_key"
  | F_client_device_id_pub_key => "client_device_id_pub_key"
  | F_ownership_proof_response => "ownership_proof_response"
  | F_long_lived_token => "long_lived_token"
  | F_token => "token"
  | F_platform => "platform"
  | F_account_identifier => "account_identifier"
  | F_device_id => "device_id"
  | F_payload_ciphertext => "payload_ciphertext"
  | F_payload_plaintext => "payload_plaintext"
  end.

(** [getattr(request, f, None)]. *)
Definition getattr (r : Request) (f : Field) : string :=
  match f with
  | F_phone_number => phone_number r
  | F_country_code => country_code r
  | F_password => password r
  | F_client_publish_pub_key => client_publish_pub_key r
  | F_client_device_id_pub_key => client_device_id_pub_key r
  | F_ownership_proof_response => ownership_proof_response r
  | F_long_lived_token => long_lived_token r
  | F_token => token r
  | F_platform => platform r
  | F_account_identifier => account_identifier r
  | F_device_id => device_id r
  | F_payload_ciphertext => payload_ciphertext r
  | F_payload_plaintext => payload_plaintext r
  end.

Definition field_eqb (a b : Field) : bool := String.eqb (field_name a) (field_name b).

(** An entry of [required_fields]: a name, or a tuple of alternatives. *)
Inductive Required :=
| One (f : Field)
| AnyOf (fs : list Field).

Inductive ResponseClass :=
| CreateEntityResponse | AuthenticateEntityResponse | ListEntityStoredTokenResponse
| StoreEntityTokenResponse | DecryptPayloadResponse | GetEntityAccessTokenResponse
| EncryptPayloadResponse | UpdateEntityTokenResponse | DeleteEntityTokenResponse
| DeleteEntityResponse.

(** A response message: its class and the fields the service sets, each at
    its proto3 default otherwise. *)
Record Response := mkResponse {
  resp_class : ResponseClass;
  resp_message : string;
  resp_success : bool;
  resp_requires_ownership_proof : bool;
  resp_next_attempt_timestamp : Z;
  resp_long_lived_token : string;
  resp_server_publish_pub_key : string;
  resp_server_device_id_pub_key : string;
  resp_stored_tokens : list (Py.dict string);
  resp_token : string;
  resp_payload_plaintext : string;
  resp_payload_ciphertext : string
}.

(** [response()]. *)
Definition empty_response (c : ResponseClass) : Response :=
  mkResponse c "" false false 0 "" "" "" [] "" "" "".

End Grpc.

(* ------------------------------------------------------------------ *)
(** ** The entity store *)

Module Store.

(** A row of the entity table. [eid] is the primary key, written as the 32
    hexadecimal digits of the UUID ([entity_obj.eid.hex]). *)
Record Entity := mkEntity {
  eid : string;
  phone_number_hash : string;
  password_hash : string;
  country_code : string;
  device_id : option string;
  client_publish_pub_key : string;
  client_device_id_pub_key : string;
  publish_keypair : string;
  device_id_keypair : string;
  server_state : option string
}.

(** A row of the token table; [tok_id] is its primary key and [tok_entity]
    the [eid] of the entity that owns it. *)
Record Token := mkToken {
  tok_id : nat;
  tok_entity : string;
  tok_platform : string;
  tok_account_identifier_hash : string;
  tok_account_identifier : string;
  tok_account_tokens : string
}.

Definition opt_eqb (o : option string) (s : string) : bool :=
  match o with
  | Some x => String.eqb x s
  | None => false
  end.

Inductive EntityKey :=
| by_eid (v : string)
| by_phone_number_hash (v : string)
| by_device_id (v : string).

Definition entity_matches (k : EntityKey) (e : Entity) : bool :=
  match k with
  | by_eid v => String.eqb (eid e) v
  | by_phone_number_hash v => String.eqb (phone_number_hash e) v
  | by_device_id v => opt_eqb (device_id e) v
  end.

(** Modelled from the spec: [find_entity] of [src/entity.py], which is not
    among the sources; section 4.7 gives it as the lookup by [eid],
    [phone_number_hash] or [device_id], yielding the row or nothing. *)
Definition find_entity (rows : list Entity) (k : EntityKey) : option Entity :=
  find (entity_matches k) rows.

(** Modelled from the spec: [create_entity], called with the fields as keywords, adds the row; the
    fields the caller does not pass ([server_state]) are null. *)
Definition create_entity (rows : list Entity) (e : Entity) : list Entity :=
  rows ++ [e].

(** Modelled from the spec: [entity_obj.save()] writes the loaded record
    back over the row with its primary key. *)
Definition save_entity (rows : list Entity) (e : Entity) : list Entity :=
  map (fun r => if String.eqb (eid r) (eid e) then e else r) rows.

(** Modelled from the spec: [entity_obj.delete_instance()]. *)
Definition delete_entity (rows : list Entity) (e : Entity) : list Entity :=
  filter (fun r => negb (String.eqb (eid r) (eid e))) rows.

Definition opt_matches (crit : option string) (v : string) : bool :=
  match crit with
  | None => true
  | Some c => String.eqb v c
  end.

(** Modelled from the spec: [fetch_entity_tokens(entity, platform=,
    account_identifier_hash=, fetch_all=)] of [src/tokens.py]: the rows of
    the entity that agree with each criterion given. *)
Definition fetch_entity_tokens (rows : list Token) (entity : Entity)
    (platform account_identifier_hash : option string) : list Token :=
  filter (fun t => String.eqb (tok_entity t) (eid entity)
                   && opt_matches platform (tok_platform t)
                   && opt_matches account_identifier_hash (tok_account_identifier_hash t))
         rows.

Definition token_column (t : Token) (name : string) : option string :=
  if String.eqb name "platform" then Some (tok_platform t)
  else if String.eqb name "account_identifier_hash" then Some (tok_account_identifier_hash t)
  else if String.eqb name "account_identifier" then Some (tok_account_identifier t)
  else if String.eqb name "account_tokens" then Some (tok_account_tokens t)
  else None.

Fixpoint project (t : Token) (fields : list string) : Py.dict string :=
  match fields with
  | [] => []
  | f :: r =>
      match token_column t f with
      | Some v => (f, v) :: project t r
      | None => project t r
      end
  end.

(** Modelled from the spec: [fetch_entity_tokens(..., fields=,
    return_json=True)]: the same rows, each projected to a dict of the
    columns asked for. *)
Definition fetch_entity_tokens_json (rows : list Token) (entity : Entity)
    (platform account_identifier_hash : option string) (fields : list string)
  : list (Py.dict string) :=
  map (fun t => project t fields)
      (fetch_entity_tokens rows entity platform account_identifier_hash).

(** Modelled from the spec: [create_entity_token], called with the fields as keywords. *)
Definition create_entity_token (rows : list Token) (t : Token) : list Token :=
  rows ++ [t].

(** Modelled from the spec: [token.save()]. *)
Definition save_token (rows : list Token) (t : Token) : list Token :=
  map (fun r => if Nat.eqb (tok_id r) (tok_id t) then t else r) rows.

(** Modelled from the spec: [token.delete_instance()]. *)
Definition delete_token (rows : list Token) (t : Token) : list Token :=
  filter (fun r => negb (Nat.eqb (tok_id r) (tok_id t))) rows.

End Store.

(* ------------------------------------------------------------------ *)
(** ** Collaborators of the service

    The modules the service imports and that are not among the sources
    ([src.crypto], [src.otp_service], [src.utils], [src.long_lived_token],
    [src.relaysms_payload]) and [base64] are taken as parameters. [Ext] is the
    state they keep outside the database: the OTP gateway, the keystore
    files, the clock and the entropy source. Each of them is taken to return;
    an exception out of one of them would end in the catch-all clause of the
    handler, as the exceptions the handlers raise themselves do below.
    [b64encode] stands for [base64.b64encode(b).decode("utf-8")]. *)

Class Collaborators := {
  Ext : Type;
  Keypair : Type;
  Header : Type;
  RatchetState : Type;
  HASHING_KEY : Bytes.bytes;
  KEYSTORE_PATH : string;
  generate_hmac : Bytes.bytes -> string -> string;
  verify_hmac : Bytes.bytes -> string -> string -> bool;
  send_otp : Ext -> string -> (bool * string * Z) * Ext;
  verify_otp : Ext -> string -> string -> (bool * string) * Ext;
  encrypt_and_encode : Ext -> string -> string * Ext;
  decrypt_and_decode : string -> string;
  generate_keypair_and_public_key : Ext -> string -> (Keypair * Bytes.bytes) * Ext;
  generate_eid : string -> string;
  is_valid_x25519_public_key : string -> bool * string;
  load_keypair_object : string -> Keypair;
  agree : Keypair -> Bytes.bytes -> Bytes.bytes;
  serialize : Keypair -> string;
  get_public_key : Keypair -> Bytes.bytes;
  generate_llt : Ext -> string -> Bytes.bytes -> string * Ext;
  verify_llt : Ext -> string -> Bytes.bytes -> option (Py.dict Py.value) * string;
  decode_relay_sms_payload : string -> Header * Bytes.bytes * option string;
  decrypt_payload :
    Ext -> option string -> Bytes.bytes -> Keypair -> Header -> Bytes.bytes -> Bytes.bytes ->
    (string * RatchetState * option string) * Ext;
  state_serialize : RatchetState -> string;
  b64decode : string -> Bytes.bytes;
  b64encode : Bytes.bytes -> string
}.

(* ------------------------------------------------------------------ *)
(** ** State, effects and exceptions *)

Module Effects.
Import Grpc.

Inductive Level := ERROR | EXCEPTION | INFO.

(** A call of [logger.error], [logger.exception] or [logger.info]: the
    message (or format string) and the arguments of the format. *)
Record LogRecord := mkLog {
  log_level : Level;
  log_msg : string;
  log_args : list string
}.

(** Calls that leave the process: the OTP gateway and the database writes,
    in the order the handlers make them. *)
Inductive Event :=
| SendOtp (phone : string)
| VerifyOtp (phone code : string)
| EntityCreated (e : Store.Entity)
| EntitySaved (e : Store.Entity)
| EntityDeleted (e : Store.Entity)
| TokenCreated (t : Store.Token)
| TokenSaved (t : Store.Token)
| TokenDeleted (t : Store.Token).

Inductive Exn :=
| NotImplementedError (msg : string)
| UnboundLocalError (msg : string)
| KeyError (msg : string).

Definition exn_str (e : Exn) : string :=
  match e with
  | NotImplementedError m => m
  | UnboundLocalError m => m
  | KeyError m => m
  end.

Inductive Outcome (A : Type) :=
| Return (a : A)
| Raise (e : Exn).
Arguments Return {A} a.
Arguments Raise {A} e.

Section WithCollaborators.
Context {C : Collaborators}.

Record State := mkState {
  entities : list Store.Entity;
  tokens : list Store.Token;
  next_token_id : nat;
  ext : Ext;
  context : Context;
  log : list LogRecord;
  trace : list Event
}.

Definition M (A : Type) : Type := State -> Outcome A * State.

Definition ret {A} (a : A) : M A := fun s => (Return a, s).

Definition bind {A B} (m : M A) (f : A -> M B) : M B :=
  fun s =>
    match m s with
    | (Return a, s') => f a s'
    | (Raise e, s') => (Raise e, s')
    end.

Definition raise {A} (e : Exn) : M A := fun s => (Raise e, s).

(** [try: body except ...: handler]. *)
Definition try_except {A} (body : M A) (handler : Exn -> M A) : M A :=
  fun s =>
    match body s with
    | (Return a, s') => (Return a, s')
    | (Raise e, s') => handler e s'
    end.

Definition gets {A} (f : State -> A) : M A := fun s => (Return (f s), s).

Definition modify (f : State -> State) : M unit := fun s => (Return tt, f s).

Definition with_entities (s : State) (v : list Store.Entity) : State :=
  mkState v (tokens s) (next_token_id s) (ext s) (context s) (log s) (trace s).
Definition with_tokens (s : State) (v : list Store.Token) : State :=
  mkState (entities s) v (next_token_id s) (ext s) (context s) (log s) (trace s).
Definition with_next_token_id (s : State) (v : nat) : State :=
  mkState (entities s) (tokens s) v (ext s) (context s) (log s) (trace s).
Definition with_ext (s : State) (v : Ext) : State :=
  mkState (entities s) (tokens s) (next_token_id s) v (context s) (log s) (trace s).
Definition with_context (s : State) (v : Context) : State :=
  mkState (entities s) (tokens s) (next_token_id s) (ext s) v (log s) (trace s).
Definition with_log (s : State) (v : list LogRecord) : State :=
  mkState (entities s) (tokens s) (next_token_id s) (ext s) (context s) v (trace s).
Definition with_trace (s : State) (v : list Event) : State :=
  mkState (entities s) (tokens s) (next_token_id s) (ext s) (context s) (log s) v.

Definition emit (e : Event) : M unit :=
  modify (fun s => with_trace s (trace s ++ [e])).

Definition logger (l : Level) (msg : string) (args : list string) : M unit :=
  modify (fun s => with_log s (log s ++ [mkLog l msg args])).

Definition set_details (msg : string) : M unit :=
  modify (fun s => with_context s (mkContext (Some msg) (code (context s)))).

Definition set_code (c : StatusCode) : M unit :=
  modify (fun s => with_context s (mkContext (details (context s)) c)).

(** A call of a collaborator that reads and writes [Ext]. *)
Definition call {A} (f : Ext -> A * Ext) : M A :=
  fun s => let '(a, x) := f (ext s) in (Return a, with_ext s x).

End WithCollaborators.

End Effects.

(* ------------------------------------------------------------------ *)
(** ** src/grpc_entity_service.py *)

Module Service.
Import Grpc Effects.

Notation "x <- c1 ;; c2" := (bind c1 (fun x => c2))
  (at level 61, c1 at next level, right associativity).
Notation "c1 ;; c2" := (bind c1 (fun _ => c2))
  (at level 61, right associativity).

Definition SUPPORTED_PLATFORMS : list string := ["gmail"].

Definition generic_error : string :=
  "Oops! Something went wrong. Please try again later.".

Definition session_expired : string :=
  "Your session has expired or the token is invalid. " ++
  "Please log in again to generate a new token.".

Definition incorrect_credentials : string :=
  "Incorrect credentials. Please double-check " ++
  "your details and try again.".

Definition unsupported_platform (platform : string) : string :=
  "The platform '" ++ platform ++ "' is currently not supported. " ++
  "Please contact the developers for more information on when " ++
  "this platform will be implemented.".

Definition invalid_device_id (device_id : string) : string :=
  "Invalid device ID '" ++ device_id ++ "'. " ++
  "Please log in again to obtain a valid device ID.".

Definition no_token_found (account_identifier platform : string) : string :=
  "No token found with account " ++
  "identifier " ++ account_identifier ++ " for " ++ platform.

Definition x25519_fields : list Field :=
  [F_client_publish_pub_key; F_client_device_id_pub_key].

Definition is_required (f : Field) (required_fields : list Required) : bool :=
  existsb (fun r => match r with One g => field_eqb f g | AnyOf _ => false end)
          required_fields.

Definition set_entity_device_id (e : Store.Entity) (v : option string) : Store.Entity :=
  Store.mkEntity (Store.eid e) (Store.phone_number_hash e) (Store.password_hash e)
    (Store.country_code e) v (Store.client_publish_pub_key e)
    (Store.client_device_id_pub_key e) (Store.publish_keypair e)
    (Store.device_id_keypair e) (Store.server_state e).

Definition set_entity_server_state (e : Store.Entity) (v : option string) : Store.Entity :=
  Store.mkEntity (Store.eid e) (Store.phone_number_hash e) (Store.password_hash e)
    (Store.country_code e) (Store.device_id e) (Store.client_publish_pub_key e)
    (Store.client_device_id_pub_key e) (Store.publish_keypair e)
    (Store.device_id_keypair e) v.

Definition set_entity_keys (e : Store.Entity)
    (client_publish client_device_id publish_kp device_id_kp : string) : Store.Entity :=
  Store.mkEntity (Store.eid e) (Store.phone_number_hash e) (Store.password_hash e)
    (Store.country_code e) (Store.device_id e) client_publish client_device_id
    publish_kp device_id_kp (Store.server_state e).

Definition set_token_account_tokens (t : Store.Token) (v : string) : Store.Token :=
  Store.mkToken (Store.tok_id t) (Store.tok_entity t) (Store.tok_platform t)
    (Store.tok_account_identifier_hash t) (Store.tok_account_identifier t) v.

Section WithCollaborators.
Context {C : Collaborators}.

(** *** Database and gateway calls, with the events they leave *)

Definition find_entity (k : Store.EntityKey) : M (option Store.Entity) :=
  gets (fun s => Store.find_entity (entities s) k).

Definition create_entity (e : Store.Entity) : M unit :=
  modify (fun s => with_entities s (Store.create_entity (entities s) e)) ;;
  emit (EntityCreated e).

Definition save (e : Store.Entity) : M unit :=
  modify (fun s => with_entities s (Store.save_entity (entities s) e)) ;;
  emit (EntitySaved e).

Definition delete_instance (e : Store.Entity) : M unit :=
  modify (fun s => with_entities s (Store.delete_entity (entities s) e)) ;;
  emit (EntityDeleted e).

Definition fetch_entity_tokens (entity : Store.Entity)
    (platform account_identifier_hash : option string) : M (list Store.Token) :=
  gets (fun s => Store.fetch_entity_tokens (tokens s) entity platform account_identifier_hash).

Definition fetch_entity_tokens_json (entity : Store.Entity)
    (platform account_identifier_hash : option string) (fields : list string)
  : M (list (Py.dict string)) :=
  gets (fun s => Store.fetch_entity_tokens_json (tokens s) entity platform
                   account_identifier_hash fields).

Definition create_entity_token (entity : Store.Entity)
    (platform account_identifier_hash account_identifier account_tokens : string)
  : M unit :=
  n <- gets next_token_id ;;
  let t := Store.mkToken n (Store.eid entity) platform account_identifier_hash
             account_identifier account_tokens in
  modify (fun s => with_next_token_id
                     (with_tokens s (Store.create_entity_token (tokens s) t)) (S n)) ;;
  emit (TokenCreated t).

Definition save_token (t : Store.Token) : M unit :=
  modify (fun s => with_tokens s (Store.save_token (tokens s) t)) ;;
  emit (TokenSaved t).

Definition delete_token_instance (t : Store.Token) : M unit :=
  modify (fun s => with_tokens s (Store.delete_token (tokens s) t)) ;;
  emit (TokenDeleted t).

Definition call_send_otp (phone : string) : M (bool * string * Z) :=
  emit (SendOtp phone) ;;
  call (fun x => send_otp x phone).

Definition call_verify_otp (phone code : string) : M (bool * string) :=
  emit (VerifyOtp phone code) ;;
  call (fun x => verify_otp x phone code).

(** *** Module-level helpers *)

(** [if not user_msg: user_msg = sys_msg]. *)
Definition shown_message (user_msg : option string) (sys_msg : string) : string :=
  match user_msg with
  | Some m => if Py.truthy m then m else sys_msg
  | None => sys_msg
  end.

Definition error_response (response : ResponseClass) (sys_msg : string)
    (status_code : StatusCode) (user_msg _type : option string) : M Response :=
  let user_msg := shown_message user_msg sys_msg in
  (match _type with
   | Some t => if String.eqb t "UNKNOWN" then logger EXCEPTION sys_msg []
               else logger ERROR sys_msg []
   | None => logger ERROR sys_msg []
   end) ;;
  set_details user_msg ;;
  set_code status_code ;;
  ret (empty_response response).

Definition missing_of (request : Request) (field : Required) : list string :=
  match field with
  | AnyOf fs =>
      if negb (existsb (fun f => Py.truthy (getattr request f)) fs)
      then ["(" ++ Py.join " or " (map field_name fs) ++ ")"]%string
      else []
  | One f =>
      if negb (Py.truthy (getattr request f)) then [field_name f] else []
  end.

Definition invalid_of (request : Request) (field : Field) : Py.dict (option string) :=
  let '(is_valid, error) := is_valid_x25519_public_key (getattr request field) in
  if negb is_valid then [(field_name field, Some error)] else [].

(** The intersection [set(x25519_fields) & set(required_fields)] is
    walked in the order of [x25519_fields]; Python leaves the order of a
    set open, and it shows only in the order of the keys of the message
    for two invalid keys. *)
Definition validate_request_fields (request : Request) (response : ResponseClass)
    (required_fields : list Required) : M (option Response) :=
  let missing_fields := flat_map (missing_of request) required_fields in
  match missing_fields with
  | _ :: _ =>
      r <- error_response response
             ("Missing required fields: " ++ Py.join ", " missing_fields)%string
             INVALID_ARGUMENT None None ;;
      ret (Some r)
  | [] =>
      let invalid_fields :=
        flat_map (invalid_of request)
                 (filter (fun f => is_required f required_fields) x25519_fields) in
      match invalid_fields with
      | _ :: _ =>
          r <- error_response response
                 ("Invalid fields: " ++ Py.str_dict invalid_fields)%string
                 INVALID_ARGUMENT None None ;;
          ret (Some r)
      | [] => ret None
      end
  end.

(** The pair [(success, x)] of the source is held as a sum: [inl] is
    [(False, error response)], [inr] is [(True, message)]. *)
Definition handle_pow_verification (request : Request) (response : ResponseClass)
  : M (Response + string) :=
  r <- call_verify_otp (phone_number request) (ownership_proof_response request) ;;
  let '(success, message) := r in
  if negb success then
    e <- error_response response
           ("Ownership proof verification failed. Reason: " ++ message)%string
           UNAUTHENTICATED None None ;;
    ret (inl e)
  else ret (inr message).

(** [inl] is [(False, error response)], [inr] is [(True, (message, expires))]. *)
Definition handle_pow_initialization (request : Request) (response : ResponseClass)
  : M (Response + (string * Z)) :=
  r <- call_send_otp (phone_number request) ;;
  let '(success, message, expires) := r in
  if negb success then
    e <- error_response response
           ("Ownership proof initialization failed. Reason: " ++ message)%string
           INVALID_ARGUMENT None None ;;
    ret (inl e)
  else ret (inr (message, expires)).

(** The pair the source returns is held as a sum: [inl] is
    [(None, error response)], [inr] is [(entity_obj, None)]. *)
Definition verify_long_lived_token (request : Request) (response : ResponseClass)
  : M (Response + Store.Entity) :=
  let create_error_response (error_msg : string) : M Response :=
    error_response response error_msg UNAUTHENTICATED (Some session_expired) None in
  match Py.split_colon (long_lived_token request) with
  | None =>
      r <- create_error_response Py.unpack_error ;;
      ret (inl r)
  | Some (eid, llt) =>
      entity_obj <- find_entity (Store.by_eid eid) ;;
      match entity_obj with
      | None =>
          r <- create_error_response
                 ("Possible token tampering detected. Entity not found with eid: " ++ eid)%string ;;
          ret (inl r)
      | Some entity_obj =>
          let entity_device_id_keypair :=
            load_keypair_object (Store.device_id_keypair entity_obj) in
          let entity_device_id_shared_key :=
            agree entity_device_id_keypair
                  (b64decode (Store.client_device_id_pub_key entity_obj)) in
          r <- gets (fun s => verify_llt (ext s) llt entity_device_id_shared_key) ;;
          let '(llt_payload, llt_error) := r in
          match llt_payload with
          | None | Some [] =>
              r <- create_error_response llt_error ;;
              ret (inl r)
          | Some llt_payload =>
              if negb (Py.is_str (Py.get llt_payload "eid") eid) then
                r <- create_error_response
                       ("Possible token tampering detected. EID mismatch: " ++ eid)%string ;;
                ret (inl r)
              else ret (inr entity_obj)
          end
      end
  end.

(** *** EntityService.CreateEntity *)

Definition complete_creation (request : Request) : M Response :=
  let response := CreateEntityResponse in
  pow_response <- handle_pow_verification request response ;;
  match pow_response with
  | inl pow_response => ret pow_response
  | inr _ =>
      let phone_number_hash := generate_hmac HASHING_KEY (phone_number request) in
      let eid := generate_eid phone_number_hash in
      let password_hash := generate_hmac HASHING_KEY (password request) in
      country_code_ciphertext_b64 <-
        call (fun x => encrypt_and_encode x (country_code request)) ;;
      kp1 <- call (fun x => generate_keypair_and_public_key x
                     (Py.path_join KEYSTORE_PATH (eid ++ "_publish.db"))) ;;
      let '(entity_publish_keypair, entity_publish_pub_key) := kp1 in
      kp2 <- call (fun x => generate_keypair_and_public_key x
                     (Py.path_join KEYSTORE_PATH (eid ++ "_device_id.db"))) ;;
      let '(entity_device_id_keypair, entity_device_id_pub_key) := kp2 in
      let device_id_shared_key :=
        agree entity_device_id_keypair (b64decode (client_device_id_pub_key request)) in
      long_lived_token <- call (fun x => generate_llt x eid device_id_shared_key) ;;
      create_entity
        (Store.mkEntity eid phone_number_hash password_hash country_code_ciphertext_b64
           (Some (DeviceId.compute_device_id device_id_shared_key
                    (phone_number request) (client_device_id_pub_key request)))
           (client_publish_pub_key request) (client_device_id_pub_key request)
           (serialize entity_publish_keypair) (serialize entity_device_id_keypair)
           None) ;;
      logger INFO "Entity created successfully" [] ;;
      ret (mkResponse response "Entity created successfully" false false 0
             long_lived_token (b64encode entity_publish_pub_key)
             (b64encode entity_device_id_pub_key) [] "" "" "")
  end.

Definition initiate_creation (request : Request) : M Response :=
  let response := CreateEntityResponse in
  pow_response <- handle_pow_initialization request response ;;
  match pow_response with
  | inl pow_response => ret pow_response
  | inr (message, expires) =>
      ret (mkResponse response message false true expires "" "" "" [] "" "" "")
  end.

Definition internal_error (response : ResponseClass) (e : Exn) : M Response :=
  error_response response (exn_str e) INTERNAL (Some generic_error) (Some "UNKNOWN").

Definition CreateEntity (request : Request) : M Response :=
  let response := CreateEntityResponse in
  try_except
    (invalid_fields_response <-
       validate_request_fields request response [One F_phone_number] ;;
     match invalid_fields_response with
     | Some r => ret r
     | None =>
         let phone_number_hash := generate_hmac HASHING_KEY (phone_number request) in
         entity_obj <- find_entity (Store.by_phone_number_hash phone_number_hash) ;;
         match entity_obj with
         | Some _ =>
             error_response response
               ("Entity with phone number `" ++ phone_number request ++ "` already exists.")%string
               ALREADY_EXISTS None None
         | None =>
             if Py.truthy (ownership_proof_response request) then
               invalid_fields_response <-
                 validate_request_fields request response
                   [One F_country_code; One F_password; One F_client_publish_pub_key;
                    One F_client_device_id_pub_key] ;;
               match invalid_fields_response with
               | Some r => ret r
               | None => complete_creation request
               end
             else initiate_creation request
         end
     end)
    (internal_error response).

(** *** EntityService.AuthenticateEntity *)

Definition initiate_authentication (request : Request) (entity_obj : Store.Entity)
  : M Response :=
  let response := AuthenticateEntityResponse in
  invalid_fields_response <- validate_request_fields request response [One F_password] ;;
  match invalid_fields_response with
  | Some r => ret r
  | None =>
      if negb (verify_hmac HASHING_KEY (password request) (Store.password_hash entity_obj))
      then
        error_response response
          ("Incorrect Password provided for phone number " ++ phone_number request)%string
          UNAUTHENTICATED (Some incorrect_credentials) None
      else
        pow_response <- handle_pow_initialization request response ;;
        match pow_response with
        | inl pow_response => ret pow_response
        | inr (message, expires) =>
            let entity_obj := set_entity_device_id entity_obj None in
            let entity_obj := set_entity_server_state entity_obj None in
            save entity_obj ;;
            ret (mkResponse response message false true expires "" "" "" [] "" "" "")
        end
  end.

Definition complete_authentication (request : Request) (entity_obj : Store.Entity)
  : M Response :=
  let response := AuthenticateEntityResponse in
  invalid_fields_response <-
    validate_request_fields request response
      [One F_client_publish_pub_key; One F_client_device_id_pub_key] ;;
  match invalid_fields_response with
  | Some r => ret r
  | None =>
      pow_response <- handle_pow_verification request response ;;
      match pow_response with
      | inl pow_response => ret pow_response
      | inr _ =>
          let eid := Store.eid entity_obj in
          kp1 <- call (fun x => generate_keypair_and_public_key x
                         (Py.path_join KEYSTORE_PATH (eid ++ "_publish.db"))) ;;
          let '(entity_publish_keypair, entity_publish_pub_key) := kp1 in
          kp2 <- call (fun x => generate_keypair_and_public_key x
                         (Py.path_join KEYSTORE_PATH (eid ++ "_device_id.db"))) ;;
          let '(entity_device_id_keypair, entity_device_id_pub_key) := kp2 in
          let device_id_shared_key :=
            agree entity_device_id_keypair (b64decode (client_device_id_pub_key request)) in
          long_lived_token <- call (fun x => generate_llt x eid device_id_shared_key) ;;
          let entity_obj :=
            set_entity_device_id entity_obj
              (Some (DeviceId.compute_device_id device_id_shared_key
                       (phone_number request) (client_device_id_pub_key request))) in
          let entity_obj :=
            set_entity_keys entity_obj
              (client_publish_pub_key request) (client_device_id_pub_key request)
              (serialize entity_publish_keypair) (serialize entity_device_id_keypair) in
          save entity_obj ;;
          ret (mkResponse response "Entity authenticated successfully!" false false 0
                 long_lived_token (b64encode entity_publish_pub_key)
                 (b64encode entity_device_id_pub_key) [] "" "" "")
      end
  end.

Definition AuthenticateEntity (request : Request) : M Response :=
  let response := AuthenticateEntityResponse in
  try_except
    (invalid_fields_response <-
       validate_request_fields request response [One F_phone_number] ;;
     match invalid_fields_response with
     | Some r => ret r
     | None =>
         let phone_number_hash := generate_hmac HASHING_KEY (phone_number request) in
         entity_obj <- find_entity (Store.by_phone_number_hash phone_number_hash) ;;
         match entity_obj with
         | None =>
             error_response response
               ("Entity with phone number `" ++ phone_number request ++ "` not found.")%string
               NOT_FOUND None None
         | Some entity_obj =>
             if Py.truthy (ownership_proof_response request)
             then complete_authentication request entity_obj
             else initiate_authentication request entity_obj
         end
     end)
    (internal_error response).

(** *** EntityService.ListEntityStoredTokens *)

(** [for field in fields: if field in token: token[field] =
    decrypt_and_decode(token[field])]. *)
Definition decrypt_fields (fields : list string) (token : Py.dict string) : Py.dict string :=
  fold_left (fun tok field =>
               match Py.get tok field with
               | Some v => Py.set tok field (decrypt_and_decode v)
               | None => tok
               end) fields token.

Definition ListEntityStoredTokens (request : Request) : M Response :=
  let response := ListEntityStoredTokenResponse in
  try_except
    (invalid_fields_response <-
       validate_request_fields request response [One F_long_lived_token] ;;
     match invalid_fields_response with
     | Some r => ret r
     | None =>
         v <- verify_long_lived_token request response ;;
         match v with
         | inl llt_error_response => ret llt_error_response
         | inr entity_obj =>
             tokens <- fetch_entity_tokens_json entity_obj None None
                         ["account_identifier"; "platform"] ;;
             let tokens := map (decrypt_fields ["account_identifier"]) tokens in
             logger INFO "Successfully retrieved tokens for %s" [Store.eid entity_obj] ;;
             ret (mkResponse response "Tokens retrieved successfully." false false 0
                    "" "" "" tokens "" "" "")
         end
     end)
    (internal_error response).

Definition platform_supported (request : Request) : bool :=
  Py.str_in (Py.lower (platform request)) SUPPORTED_PLATFORMS.

Definition handle_exceptions (response : ResponseClass) (e : Exn) : M Response :=
  match e with
  | NotImplementedError msg => error_response response msg UNIMPLEMENTED None None
  | _ => internal_error response e
  end.

(** *** EntityService.StoreEntityToken *)

Definition StoreEntityToken (request : Request) : M Response :=
  let response := StoreEntityTokenResponse in
  try_except
    (invalid_fields_response <-
       validate_request_fields request response
         [One F_long_lived_token; One F_token; One F_platform; One F_account_identifier] ;;
     match invalid_fields_response with
     | Some r => ret r
     | None =>
         v <- verify_long_lived_token request response ;;
         match v with
         | inl llt_error_response => ret llt_error_response
         | inr entity_obj =>
             if negb (platform_supported request) then
               raise (NotImplementedError (unsupported_platform (platform request)))
             else
               let account_identifier_hash :=
                 generate_hmac HASHING_KEY (account_identifier request) in
               existing_tokens <-
                 fetch_entity_tokens entity_obj (Some (platform request))
                   (Some account_identifier_hash) ;;
               match existing_tokens with
               | _ :: _ =>
                   error_response response
                     ("Entity already has a token associated with account " ++
                      "identifier " ++ account_identifier request ++ " for " ++
                      platform request)%string
                     ALREADY_EXISTS None None
               | [] =>
                   account_identifier_ct <-
                     call (fun x => encrypt_and_encode x (account_identifier request)) ;;
                   account_tokens_ct <-
                     call (fun x => encrypt_and_encode x (token request)) ;;
                   create_entity_token entity_obj (platform request)
                     account_identifier_hash account_identifier_ct account_tokens_ct ;;
                   logger INFO "Successfully stored tokens for %s" [Store.eid entity_obj] ;;
                   ret (mkResponse response "Token stored successfully." true false 0
                          "" "" "" [] "" "" "")
               end
         end
     end)
    (handle_exceptions response).

(** *** EntityService.DecryptPayload *)

Definition decode_message (request : Request)
  : M (Response + (Header * Bytes.bytes)) :=
  let response := DecryptPayloadResponse in
  let '(header, content_ciphertext, decode_error) :=
    decode_relay_sms_payload (payload_ciphertext request) in
  match decode_error with
  | Some decode_error =>
      r <- error_response response decode_error INVALID_ARGUMENT
             (Some "Invalid content format.") (Some "UNKNOWN") ;;
      ret (inl r)
  | None => ret (inr (header, content_ciphertext))
  end.

Definition decrypt_message (entity_obj : Store.Entity) (header : Header)
    (content_ciphertext : Bytes.bytes) : M Response :=
  let response := DecryptPayloadResponse in
  let publish_keypair := load_keypair_object (Store.publish_keypair entity_obj) in
  let publish_shared_key :=
    agree publish_keypair (b64decode (Store.client_publish_pub_key entity_obj)) in
  r <- call (fun x => decrypt_payload x (Store.server_state entity_obj)
                        publish_shared_key publish_keypair header content_ciphertext
                        (get_public_key publish_keypair)) ;;
  let '(content_plaintext, state, decrypt_error) := r in
  match decrypt_error with
  | Some decrypt_error =>
      error_response response decrypt_error INVALID_ARGUMENT
        (Some "Invalid content format.") (Some "UNKNOWN")
  | None =>
      let entity_obj := set_entity_server_state entity_obj (Some (state_serialize state)) in
      save entity_obj ;;
      logger INFO "Successfully decrypted payload for %s" [Store.eid entity_obj] ;;
      ret (mkResponse response "Successfully decrypted payload" true false 0
             "" "" "" [] "" content_plaintext "")
  end.

Definition DecryptPayload (request : Request) : M Response :=
  let response := DecryptPayloadResponse in
  try_except
    (invalid_fields_response <-
       validate_request_fields request response
         [One F_device_id; One F_payload_ciphertext] ;;
     match invalid_fields_response with
     | Some r => ret r
     | None =>
         entity_obj <- find_entity (Store.by_device_id (device_id request)) ;;
         match entity_obj with
         | None =>
             error_response response (invalid_device_id (device_id request))
               UNAUTHENTICATED None None
         | Some entity_obj =>
             decoded <- decode_message request ;;
             match decoded with
             | inl decoding_error => ret decoding_error
             | inr (header, content_ciphertext) =>
                 decrypt_message entity_obj header content_ciphertext
             end
         end
     end)
    (internal_error response).

(** *** EntityService.GetEntityAccessToken *)

Definition fetch_tokens (request : Request) (entity_obj : Store.Entity)
    (account_identifier_hash : string) : M Response :=
  let response := GetEntityAccessTokenResponse in
  tokens <- fetch_entity_tokens_json entity_obj (Some (platform request))
              (Some account_identifier_hash) ["account_tokens"] ;;
  let tokens := map (decrypt_fields ["account_tokens"]) tokens in
  logger INFO "Successfully fetched tokens for %s" [Store.eid entity_obj] ;;
  match tokens with
  | [] =>
      error_response response
        (no_token_found (account_identifier request) (platform request))
        NOT_FOUND None None
  | t :: _ =>
      match Py.get t "account_tokens" with
      | Some v =>
          ret (mkResponse response "Successfully fetched tokens." true false 0
                 "" "" "" [] v "" "")
      | None => raise (KeyError "'account_tokens'")
      end
  end.

Definition GetEntityAccessToken (request : Request) : M Response :=
  let response := GetEntityAccessTokenResponse in
  try_except
    (invalid_fields_response <-
       validate_request_fields request response
         [AnyOf [F_device_id; F_long_lived_token]; One F_platform;
          One F_account_identifier] ;;
     match invalid_fields_response with
     | Some r => ret r
     | None =>
         (* inl is an early return; inr holds entity_obj when one of the
            branches bound it. *)
         auth <-
           (if Py.truthy (long_lived_token request) then
              v <- verify_long_lived_token request response ;;
              match v with
              | inl llt_error_response => ret (inl llt_error_response)
              | inr entity_obj => ret (inr (Some entity_obj))
              end
            else if Py.truthy (device_id request) then
              entity_obj <- find_entity (Store.by_device_id (device_id request)) ;;
              match entity_obj with
              | None =>
                  r <- error_response response (invalid_device_id (device_id request))
                         UNAUTHENTICATED None None ;;
                  ret (inl r)
              | Some entity_obj => ret (inr (Some entity_obj))
              end
            else ret (inr None)) ;;
         match auth with
         | inl r => ret r
         | inr entity_obj =>
             if negb (platform_supported request) then
               raise (NotImplementedError (unsupported_platform (platform request)))
             else
               let account_identifier_hash :=
                 generate_hmac HASHING_KEY (account_identifier request) in
               match entity_obj with
               | Some entity_obj => fetch_tokens request entity_obj account_identifier_hash
               | None => raise (UnboundLocalError "entity_obj")
               end
         end
     end)
    (handle_exceptions response).

(** *** EntityService.EncryptPayload *)

Definition EncryptPayload (request : Request) : M Response :=
  let response := EncryptPayloadResponse in
  try_except
    (invalid_fields_response <-
       validate_request_fields request response
         [One F_device_id; One F_payload_plaintext] ;;
     match invalid_fields_response with
     | Some r => ret r
     | None =>
         entity_obj <- find_entity (Store.by_device_id (device_id request)) ;;
         match entity_obj with
         | None =>
             error_response response (invalid_device_id (device_id request))
               UNAUTHENTICATED None None
         | Some entity_obj =>
             let b64_encoded_content := payload_plaintext request in
             ret (mkResponse response "Successfully encrypted payload." true false 0
                    "" "" "" [] "" "" b64_encoded_content)
         end
     end)
    (internal_error response).

(** *** EntityService.UpdateEntityToken *)

Definition UpdateEntityToken (request : Request) : M Response :=
  let response := UpdateEntityTokenResponse in
  try_except
    (invalid_fields_response <-
       validate_request_fields request response
         [One F_device_id; One F_token; One F_platform; One F_account_identifier] ;;
     match invalid_fields_response with
     | Some r => ret r
     | None =>
         entity_obj <- find_entity (Store.by_device_id (device_id request)) ;;
         match entity_obj with
         | None =>
             error_response response (invalid_device_id (device_id request))
               UNAUTHENTICATED None None
         | Some entity_obj =>
             let account_identifier_hash :=
               generate_hmac HASHING_KEY (account_identifier request) in
             existing_tokens <-
               fetch_entity_tokens entity_obj (Some (platform request))
                 (Some account_identifier_hash) ;;
             match existing_tokens with
             | [] =>
                 error_response response
                   (no_token_found (account_identifier request) (platform request))
                   NOT_FOUND None None
             | t :: _ =>
                 account_tokens <- call (fun x => encrypt_and_encode x (token request)) ;;
                 save_token (set_token_account_tokens t account_tokens) ;;
                 logger INFO "Successfully updated token for %s" [Store.eid entity_obj] ;;
                 ret (mkResponse response "Token updated successfully." true false 0
                        "" "" "" [] "" "" "")
             end
         end
     end)
    (internal_error response).

(** *** EntityService.DeleteEntityToken *)

Definition DeleteEntityToken (request : Request) : M Response :=
  let response := DeleteEntityTokenResponse in
  try_except
    (invalid_fields_response <-
       validate_request_fields request response
         [One F_long_lived_token; One F_platform; One F_account_identifier] ;;
     match invalid_fields_response with
     | Some r => ret r
     | None =>
         v <- verify_long_lived_token request response ;;
         match v with
         | inl llt_error_response => ret llt_error_response
         | inr entity_obj =>
             if negb (platform_supported request) then
               raise (NotImplementedError (unsupported_platform (platform request)))
             else
               let account_identifier_hash :=
                 generate_hmac HASHING_KEY (account_identifier request) in
               existing_tokens <-
                 fetch_entity_tokens entity_obj (Some (platform request))
                   (Some account_identifier_hash) ;;
               match existing_tokens with
               | [] =>
                   error_response response
                     (no_token_found (account_identifier request) (platform request))
                     NOT_FOUND None None
               | t :: _ =>
                   delete_token_instance t ;;
                   logger INFO "Successfully deleted token for %s" [Store.eid entity_obj] ;;
                   ret (mkResponse response "Token deleted successfully." true false 0
                          "" "" "" [] "" "" "")
               end
         end
     end)
    (handle_exceptions response).

(** *** EntityService.DeleteEntity *)

(** [{"account_identifier": token.get("account_identifier"),
     "platform": token.get("platform")}]. *)
Definition token_info_of (token : Py.dict string) : Py.dict (option string) :=
  [("account_identifier", Py.get token "account_identifier");
   ("platform", Py.get token "platform")].

(** [d[k]] on a dict of [token_info], which has the key. *)
Definition getitem (d : Py.dict (option string)) (k : string) : option string :=
  match Py.get d k with
  | Some v => v
  | None => None
  end.

Definition token_details_of (token_info : list (Py.dict (option string))) : string :=
  Py.join "; "
    (map (fun token =>
            Py.str_dict [("account_identifier", getitem token "account_identifier");
                         ("platform", getitem token "platform")])
         token_info).

Definition cannot_delete (token_details : string) : string :=
  "You cannot delete entity because it still has stored tokens. " ++
  "Revoke stored tokens with the following platforms and try again: " ++
  token_details ++ ".".

Definition fetch_stored_tokens (entity_obj : Store.Entity) : M (option Response) :=
  let response := DeleteEntityResponse in
  stored_tokens <- fetch_entity_tokens_json entity_obj None None
                     ["account_identifier"; "platform"] ;;
  let stored_tokens := map (decrypt_fields ["account_identifier"]) stored_tokens in
  match stored_tokens with
  | _ :: _ =>
      let token_info := map token_info_of stored_tokens in
      let token_details := token_details_of token_info in
      r <- error_response response (cannot_delete token_details)
             FAILED_PRECONDITION None None ;;
      ret (Some r)
  | [] => ret None
  end.

Definition DeleteEntity (request : Request) : M Response :=
  let response := DeleteEntityResponse in
  try_except
    (invalid_fields_response <-
       validate_request_fields request response [One F_long_lived_token] ;;
     match invalid_fields_response with
     | Some r => ret r
     | None =>
         v <- verify_long_lived_token request response ;;
         match v with
         | inl llt_error_response => ret llt_error_response
         | inr entity_obj =>
             stored_tokens <- fetch_stored_tokens entity_obj ;;
             match stored_tokens with
             | Some r => ret r
             | None =>
                 delete_instance entity_obj ;;
                 logger INFO "Successfully deleted entity %s" [Store.eid entity_obj] ;;
                 ret (mkResponse response "Entity deleted successfully." true false 0
                        "" "" "" [] "" "" "")
             end
         end
     end)
    (internal_error response).

(** *** The servicer: one call of an RPC *)

Inductive Rpc :=
| RpcCreateEntity | RpcAuthenticateEntity | RpcListEntityStoredTokens
| RpcStoreEntityToken | RpcDecryptPayload | RpcGetEntityAccessToken
| RpcEncryptPayload | RpcUpdateEntityToken | RpcDeleteEntityToken
| RpcDeleteEntity.

Definition handler (m : Rpc) : Request -> M Response :=
  match m with
  | RpcCreateEntity => CreateEntity
  | RpcAuthenticateEntity => AuthenticateEntity
  | RpcListEntityStoredTokens => ListEntityStoredTokens
  | RpcStoreEntityToken => StoreEntityToken
  | RpcDecryptPayload => DecryptPayload
  | RpcGetEntityAccessToken => GetEntityAccessToken
  | RpcEncryptPayload => EncryptPayload
  | RpcUpdateEntityToken => UpdateEntityToken
  | RpcDeleteEntityToken => DeleteEntityToken
  | RpcDeleteEntity => DeleteEntity
  end.

(** gRPC gives every call a context of its own. *)
Definition serve (m : Rpc) (request : Request) (s : State) : Outcome Response * State :=
  handler m request (with_context s fresh_context).

(** The state after a sequence of calls. *)
Fixpoint run (calls : list (Rpc * Request)) (s : State) : State :=
  match calls with
  | [] => s
  | (m, request) :: rest => run rest (snd (serve m request s))
  end.

(** The service starts on an empty database. *)
Definition initial (x : Ext) : State :=
  mkState [] [] 0 x fresh_context [] [].

End WithCollaborators.
End Service.


(* ------------------------------------------------------------------ *)
(** ** src/grpc_server.py: the logging interceptor *)

Module Server.
Import Grpc Effects Service.

(** [str(context.code()).split(".")[1]]: the name of the status code. *)
Definition status_name (c : StatusCode) : string :=
  match c with
  | OK => "OK"
  | INVALID_ARGUMENT => "INVALID_ARGUMENT"
  | UNAUTHENTICATED => "UNAUTHENTICATED"
  | NOT_FOUND => "NOT_FOUND"
  | ALREADY_EXISTS => "ALREADY_EXISTS"
  | FAILED_PRECONDITION => "FAILED_PRECONDITION"
  | UNIMPLEMENTED => "UNIMPLEMENTED"
  | INTERNAL => "INTERNAL"
  end.

Definition server_protocol : string := "HTTP/2.0".

Definition access_format : string :=
  String.concat "" ["%s - - [%s] "; String Py.dquote "%s %s"; String Py.dquote " %s -"].

Section WithCollaborators.
Context {C : Collaborators}.

(** [LoggingInterceptor.intercept]. [peer] is [context.peer()] and [now]
    the formatted [datetime.now()]; the status of a context that no
    handler touched reads OK. *)
Definition intercept (method : Request -> M Response) (request : Request)
    (method_name peer now : string) : M Response :=
  response <- method request ;;
  ctx <- gets context ;;
  (if Py.truthy_opt (details ctx) then
     logger ERROR access_format
       [peer; now; method_name; server_protocol; status_name (code ctx)]
   else
     logger INFO access_format [peer; now; method_name; server_protocol; "OK"]) ;;
  ret response.

(** One call as the server makes it: a context of its own, the handler
    under the interceptor. *)
Definition intercepted (m : Rpc) (request : Request) (method_name peer now : string)
    (s : State) : Outcome Response * State :=
  intercept (handler m) request method_name peer now (with_context s fresh_context).

End WithCollaborators.
End Server.
(* ------------------------------------------------------------------ *)
(** ** A small instance of the collaborators

    A gateway that accepts the code 123456 for a phone number it sent to,
    tagged strings for HMAC and encryption, and tokens of the wire form
    [eid:payload.signature] whose payload is the eid and whose signature is
    the hexadecimal text of the shared key. It serves to run the service on
    concrete requests. *)

Module Demo.
Import Grpc Effects Service.

Fixpoint string_of_bytes (l : Bytes.bytes) : string :=
  match l with
  | [] => EmptyString
  | b :: r => String (ascii_of_N (Z.to_N b)) (string_of_bytes r)
  end.

Definition demo_send_otp (x : list string) (phone : string)
  : (bool * string * Z) * list string :=
  match phone with
  | String "+"%char _ => ((true, "OTP sent", 1700000600), phone :: x)
  | _ => ((false, "Invalid phone number", 0), x)
  end.

Definition demo_verify_otp (x : list string) (phone code : string)
  : (bool * string) * list string :=
  if Py.str_in phone x && String.eqb code "123456"
  then ((true, "OTP verified"), filter (fun p => negb (String.eqb p phone)) x)
  else ((false, "Incorrect OTP"), x).

Definition demo_hmac (key : Bytes.bytes) (msg : string) : string :=
  "hmac(" ++ msg ++ ")".

Definition demo_verify_llt (x : list string) (llt : string) (key : Bytes.bytes)
  : option (Py.dict Py.value) * string :=
  match Py.split_once "."%char llt with
  | Some (payload, signature) =>
      if String.eqb signature (Bytes.hex key)
      then (Some [("eid", Py.VStr payload)], "")
      else (None, "Invalid signature")
  | None => (None, "Malformed token")
  end.

Definition collaborators : Collaborators := {|
  Ext := list string;
  Keypair := string;
  Header := unit;
  RatchetState := nat;
  HASHING_KEY := [1; 2; 3];
  KEYSTORE_PATH := "/keystore";
  generate_hmac := demo_hmac;
  verify_hmac := fun key msg expected => String.eqb (demo_hmac key msg) expected;
  send_otp := demo_send_otp;
  verify_otp := demo_verify_otp;
  encrypt_and_encode := fun x s => (("enc(" ++ s ++ ")")%string, x);
  decrypt_and_decode := fun s => substring 4 (String.length s - 5) s;
  generate_keypair_and_public_key := fun x path => ((path, Bytes.encode_utf8 path), x);
  generate_eid := fun h => Bytes.hex (Bytes.encode_utf8 h);
  is_valid_x25519_public_key := fun s => (Nat.eqb (String.length s) 44, "must be 32 bytes");
  load_keypair_object := fun blob => blob;
  agree := fun kp pub => Bytes.encode_utf8 kp ++ pub;
  serialize := fun kp => kp;
  get_public_key := fun kp => Bytes.encode_utf8 kp;
  generate_llt := fun x eid key => ((eid ++ ":" ++ eid ++ "." ++ Bytes.hex key)%string, x);
  verify_llt := demo_verify_llt;
  decode_relay_sms_payload := fun s =>
    (tt, Bytes.encode_utf8 s, if Py.truthy s then None else Some "empty payload");
  decrypt_payload := fun x st key kp h ct pub => ((string_of_bytes ct, 1%nat, None), x);
  state_serialize := fun n => "state";
  b64decode := Bytes.encode_utf8;
  b64encode := string_of_bytes
|}.

End Demo.


(* ------------------------------------------------------------------ *)
(** ** What a call is observed to do *)

Module Observations.
Import Grpc Effects Service.

Section WithCollaborators.
Context {C : Collaborators}.

(** The database is as it was. *)
Definition same_store (s s' : State) : Prop :=
  entities s' = entities s /\ tokens s' = tokens s /\
  next_token_id s' = next_token_id s.

(** No database write and no call of a collaborator that keeps state. *)
Definition quiet (s s' : State) : Prop :=
  same_store s s' /\ ext s' = ext s /\ trace s' = trace s.

(** A call from [s] that ends in the empty response of its class with
    the given status and user message, and leaves no other mark. *)
Definition rejected_with (o : Outcome Response * State) (response : ResponseClass)
    (status : StatusCode) (msg : string) (s : State) : Prop :=
  fst o = Return (empty_response response) /\
  context (snd o) = mkContext (Some msg) status /\
  quiet s (snd o).

(** The events a call added to the trace. *)
Definition new_events (s s' : State) : list Event :=
  skipn (List.length (trace s)) (trace s').

(** The fields every token handler requires are present. *)
Definition present (request : Request) (fields : list Field) : Prop :=
  Forall (fun f => Py.truthy (getattr request f) = true) fields.

(** The long-lived token of the request verifies, for entity [e]. *)
Definition llt_authenticates (request : Request) (response : ResponseClass)
    (s : State) (e : Store.Entity) : Prop :=
  verify_long_lived_token request response s = (Return (inr e), s).

(** The long-lived token of the request is refused: the empty response,
    UNAUTHENTICATED and the generic message, and no other mark. *)
Definition llt_rejected (request : Request) (response : ResponseClass) (s : State)
  : Prop :=
  exists s', verify_long_lived_token request response s
             = (Return (inl (empty_response response)), s') /\
             context s' = mkContext (Some session_expired) UNAUTHENTICATED /\
             quiet s s'.

(** The device id of the request is the one of entity [e]. *)
Definition device_authenticates (request : Request) (s : State) (e : Store.Entity)
  : Prop :=
  Store.find_entity (entities s) (Store.by_device_id (device_id request)) = Some e.

(** The shared key the service derives for the device-id channel. *)
Definition device_id_shared_key (e : Store.Entity) : Bytes.bytes :=
  agree (load_keypair_object (Store.device_id_keypair e))
        (b64decode (Store.client_device_id_pub_key e)).

(** Every stored token has a platform of the whitelist. *)
Definition tokens_supported (s : State) : Prop :=
  Forall (fun t => Py.str_in (Py.lower (Store.tok_platform t)) SUPPORTED_PLATFORMS = true)
         (tokens s).

(** A step that keeps a property of the state, however it ends. *)
Definition preserves {A : Type} (P : State -> Prop) (m : M A) : Prop :=
  forall s, P s -> P (snd (m s)).

(** A property of the token table alone. *)
Definition token_only (P : State -> Prop) : Prop :=
  forall s s', tokens s' = tokens s -> P s -> P s'.

(** The states the service reaches from an empty database. *)
Definition reachable (s : State) : Prop :=
  exists x calls, s = run calls (initial x).

(** The text of one stored token in the message of [DeleteEntity]. *)
Definition token_text (t : Store.Token) : string :=
  "{'account_identifier': " ++ Py.repr (decrypt_and_decode (Store.tok_account_identifier t))
  ++ ", 'platform': " ++ Py.repr (Store.tok_platform t) ++ "}".

(** The request with its [device_id] field left out. *)
Definition without_device_id (r : Request) : Request :=
  mkRequest (phone_number r) (country_code r) (password r) (client_publish_pub_key r)
    (client_device_id_pub_key r) (ownership_proof_response r) (long_lived_token r)
    (token r) (platform r) (account_identifier r) "" (payload_ciphertext r)
    (payload_plaintext r).

End WithCollaborators.
End Observations.

(* ------------------------------------------------------------------ *)
(** ** Three statements of the specification, as it words them *)

Module AsStated.
Import Grpc Effects Service Observations.

Section WithCollaborators.
Context {C : Collaborators}.

(** "[device_id] and [server_state] are cleared before the OTP send call
    is made": when the call sends the OTP, the record of the entity is
    already cleared; it was so before the call, or a save that clears it
    has come first. *)
Definition cleared_before_otp_send (before : Store.Entity) (evs : list Event) : Prop :=
  forall pre p post, evs = pre ++ SendOtp p :: post ->
    (Store.device_id before = None /\ Store.server_state before = None)
    \/ exists e, In (EntitySaved e) pre /\ Store.eid e = Store.eid before /\
                 Store.device_id e = None /\ Store.server_state e = None.

(** "A request must supply exactly one of the two authenticators (not
    both) to proceed": with both, [GetEntityAccessToken] stops at
    INVALID_ARGUMENT. *)
Definition exactly_one_authenticator (request : Request) (s : State) : Prop :=
  Py.truthy (device_id request) = true ->
  Py.truthy (long_lived_token request) = true ->
  code (context (snd (serve RpcGetEntityAccessToken request s))) = INVALID_ARGUMENT.

(** "The user-visible error message does not reveal which of the two
    classes of failure occurred": the two failing calls leave the same
    status and the same details. *)
Definition indistinguishable (o1 o2 : Outcome Response * State) : Prop :=
  context (snd o1) = context (snd o2).

End WithCollaborators.
End AsStated.

(* ------------------------------------------------------------------ *)
(** ** Runs of the service on the small instance *)

Module Scenario.
Import Grpc Effects Service Observations.

#[local] Existing Instance Demo.collaborators.

Definition phone : string := "+237600000001".
Definition pub_a : string := "AAAAAAAAAAAAAAAAAAAAAAAAAAAAAAAAAAAAAAAAAAA=".
Definition pub_b : string := "BBBBBBBBBBBBBBBBBBBBBBBBBBBBBBBBBBBBBBBBBBB=".

Definition St : Type := State.
Definition Result : Type := Outcome Response * St.

Definition call (m : Rpc) (r : Request) (s : St) : Result :=
  serve m r s.

Definition response_of (o : Result) : Response :=
  match fst o with
  | Return r => r
  | Raise _ => empty_response CreateEntityResponse
  end.

(** S1 of the spec: creation, first without and then with the proof. *)
Definition create1 : Request :=
  mkRequest phone "" "" "" "" "" "" "" "" "" "" "" "".
Definition create2 : Request :=
  mkRequest phone "CM" "hunter2" pub_a pub_b "123456" "" "" "" "" "" "" "".

Definition s0 : St := initial [].
Definition s1 : St := Eval vm_compute in snd (call RpcCreateEntity create1 s0).
Definition created : Result := Eval vm_compute in call RpcCreateEntity create2 s1.
Definition s2 : St := Eval vm_compute in snd created.

Definition llt_a : string := Eval vm_compute in resp_long_lived_token (response_of created).
Definition entity_a : Store.Entity :=
  Eval vm_compute in hd (Store.mkEntity "" "" "" "" None "" "" "" "" None) (entities s2).
Definition eid_a : string := Eval vm_compute in Store.eid entity_a.
Definition device_id_a : string :=
  Eval vm_compute in match Store.device_id entity_a with Some d => d | None => "" end.

Definition with_llt (llt : string) : Request :=
  mkRequest "" "" "" "" "" "" llt "" "" "" "" "" "".

(** A token whose wire prefix is the eid of the entity and whose payload,
    signed with the key of that entity, names another eid. *)
Definition cross_body : string :=
  "0123456789abcdef0123456789abcdef" ++ "." ++ Bytes.hex (device_id_shared_key entity_a).
Definition cross_pasted : Request := with_llt (eid_a ++ ":" ++ cross_body).

(** S4 of the spec: a token for gmail is stored. *)
Definition store_gmail : Request :=
  mkRequest "" "" "" "" "" "" llt_a "T" "gmail" "a@x" "" "" "".
Definition s3 : St := Eval vm_compute in snd (call RpcStoreEntityToken store_gmail s2).

Definition history : list (Rpc * Request) :=
  [(RpcCreateEntity, create1); (RpcCreateEntity, create2);
   (RpcStoreEntityToken, store_gmail)].

(** Requests for a platform outside the whitelist. *)
Definition store_twitter : Request :=
  mkRequest "" "" "" "" "" "" llt_a "T" "twitter" "a@x" "" "" "".
Definition update_twitter : Request :=
  mkRequest "" "" "" "" "" "" "" "T2" "twitter" "a@x" device_id_a "" "".

(** S5 of the spec: deletion of the entity, with and without a token. *)
Definition delete_a : Request := with_llt llt_a.
Definition token_gmail : Store.Token :=
  Eval vm_compute in hd (Store.mkToken 0 "" "" "" "" "") (tokens s3).

(** A request for the stored token that carries both authenticators. *)
Definition get_both : Request :=
  mkRequest "" "" "" "" "" "" llt_a "" "gmail" "a@x" device_id_a "" "".

(** S6 and S3 of the spec: a payload is decrypted, which stores a ratchet
    state; then the entity authenticates again, in two calls. *)
Definition decrypt_a : Request :=
  mkRequest "" "" "" "" "" "" "" "" "" "" device_id_a "aGVsbG8=" "".
Definition s4 : St := Eval vm_compute in snd (call RpcDecryptPayload decrypt_a s2).
Definition entity_a4 : Store.Entity :=
  Eval vm_compute in hd entity_a (entities s4).

Definition auth1 : Request :=
  mkRequest phone "" "hunter2" "" "" "" "" "" "" "" "" "" "".
Definition s5 : St := Eval vm_compute in snd (call RpcAuthenticateEntity auth1 s4).
Definition cleared_a : Store.Entity :=
  Eval vm_compute in hd entity_a (entities s5).

Definition auth2 : Request :=
  mkRequest phone "" "hunter2" pub_b pub_a "123456" "" "" "" "" "" "" "".
Definition s6 : St := Eval vm_compute in snd (call RpcAuthenticateEntity auth2 s5).

(** The same request before the entity exists and with a wrong password. *)
Definition auth_wrong : Request :=
  mkRequest phone "" "letmein" "" "" "" "" "" "" "" "" "" "".

(** A payload to encrypt. *)
Definition encrypt_a : Request :=
  mkRequest "" "" "" "" "" "" "" "" "" "" device_id_a "" "hello".

(** A token stored and updated under a platform name in capitals. *)
Definition store_capital : Request :=
  mkRequest "" "" "" "" "" "" llt_a "T" "Gmail" "b@x" "" "" "".
Definition s7 : St := Eval vm_compute in snd (call RpcStoreEntityToken store_capital s2).
Definition update_capital : Request :=
  mkRequest "" "" "" "" "" "" "" "T2" "Gmail" "b@x" device_id_a "" "".

End Scenario.

(* ------------------------------------------------------------------ *)
(** ** Further observations *)

Module Outcomes.
Import Grpc Effects Service Observations.

(** The response class of each RPC. *)
Definition response_class (m : Rpc) : ResponseClass :=
  match m with
  | RpcCreateEntity => CreateEntityResponse
  | RpcAuthenticateEntity => AuthenticateEntityResponse
  | RpcListEntityStoredTokens => ListEntityStoredTokenResponse
  | RpcStoreEntityToken => StoreEntityTokenResponse
  | RpcDecryptPayload => DecryptPayloadResponse
  | RpcGetEntityAccessToken => GetEntityAccessTokenResponse
  | RpcEncryptPayload => EncryptPayloadResponse
  | RpcUpdateEntityToken => UpdateEntityTokenResponse
  | RpcDeleteEntityToken => DeleteEntityTokenResponse
  | RpcDeleteEntity => DeleteEntityResponse
  end.

Section WithCollaborators.
Context {C : Collaborators}.

(** How a call from [s] ends: with a response of the class of the RPC,
    and either a context no one touched, or a status other than OK set
    together with non-empty details, the empty response, and a database
    left as it was. *)
Definition ends_well (m : Rpc) (s : State) (o : Outcome Response * State) : Prop :=
  exists r,
    fst o = Return r /\ resp_class r = response_class m /\
    (context (snd o) = fresh_context
     \/ (r = empty_response (response_class m) /\
         code (context (snd o)) <> OK /\
         (exists msg, details (context (snd o)) = Some msg /\ Py.truthy msg = true) /\
         same_store s (snd o))).

(** The RPCs that work on the token table, and those that work on the
    entity table. *)
Definition token_rpc (m : Rpc) : bool :=
  match m with
  | RpcListEntityStoredTokens | RpcStoreEntityToken | RpcGetEntityAccessToken
  | RpcUpdateEntityToken | RpcDeleteEntityToken => true
  | _ => false
  end.

Definition reading_rpc (m : Rpc) : bool :=
  match m with
  | RpcListEntityStoredTokens | RpcGetEntityAccessToken | RpcEncryptPayload => true
  | _ => false
  end.

(** The access line of the interceptor for a call that ended in [s']. *)
Definition access_line (method_name peer now : string) (s' : State) : LogRecord :=
  mkLog (match code (context s') with OK => INFO | _ => ERROR end)
        Server.access_format
        [peer; now; method_name; Server.server_protocol;
         Server.status_name (code (context s'))].

(** *** Validation of the request *)

(** An entry of [required_fields] is supplied: the field is not empty,
    or one of the alternatives is not. *)
Definition supplied (request : Request) (r : Required) : bool :=
  match r with
  | One f => Py.truthy (getattr request f)
  | AnyOf fs => existsb (fun f => Py.truthy (getattr request f)) fs
  end.

Definition all_supplied (request : Request) (required : list Required) : bool :=
  forallb (supplied request) required.

(** Each X25519 key that is required by name is a valid key. *)
Definition keys_valid (request : Request) (required : list Required) : bool :=
  forallb (fun f => negb (is_required f required)
                    || fst (is_valid_x25519_public_key (getattr request f)))
          x25519_fields.

(** *** Events of a call *)

Definition is_gateway (ev : Event) : bool :=
  match ev with
  | SendOtp _ | VerifyOtp _ _ => true
  | _ => false
  end.

Definition is_write (ev : Event) : bool := negb (is_gateway ev).

(** The call from [s] to [s'] added the events [evs], and nothing else,
    to the trace. *)
Definition added (s s' : State) (evs : list Event) : Prop :=
  trace s' = trace s ++ evs.

(** The events a call of each RPC may leave: the gateway call of the two
    phases, and the one kind of write the handler makes. *)
Definition allowed_event (m : Rpc) (request : Request) (ev : Event) : bool :=
  match m, ev with
  | (RpcCreateEntity | RpcAuthenticateEntity), SendOtp p =>
      String.eqb p (phone_number request)
  | (RpcCreateEntity | RpcAuthenticateEntity), VerifyOtp p c =>
      String.eqb p (phone_number request)
      && String.eqb c (ownership_proof_response request)
  | RpcCreateEntity, EntityCreated _ => true
  | (RpcAuthenticateEntity | RpcDecryptPayload), EntitySaved _ => true
  | RpcStoreEntityToken, TokenCreated _ => true
  | RpcUpdateEntityToken, TokenSaved _ => true
  | RpcDeleteEntityToken, TokenDeleted _ => true
  | RpcDeleteEntity, EntityDeleted _ => true
  | _, _ => false
  end.

(** Nothing, one allowed event, or a gateway call and then a write. *)
Definition footprint (m : Rpc) (request : Request) (evs : list Event) : bool :=
  match evs with
  | [] => true
  | [ev] => allowed_event m request ev
  | [g; w] =>
      is_gateway g && allowed_event m request g
      && is_write w && allowed_event m request w
  | _ => false
  end.

(** The request with another password. *)
Definition with_password (r : Request) (pw : string) : Request :=
  mkRequest (phone_number r) (country_code r) pw (client_publish_pub_key r)
    (client_device_id_pub_key r) (ownership_proof_response r) (long_lived_token r)
    (token r) (platform r) (account_identifier r) (device_id r) (payload_ciphertext r)
    (payload_plaintext r).

(** *** The token table *)

(** What [StoreEntityToken] takes a token to be stored under. *)
Definition token_key (t : Store.Token) : string * string * string :=
  (Store.tok_entity t, Store.tok_platform t, Store.tok_account_identifier_hash t).

(** The ids of the rows are distinct and below the next id. *)
Definition token_ids_fresh (s : State) : Prop :=
  Forall (fun t => (Store.tok_id t < next_token_id s)%nat) (tokens s)
  /\ NoDup (map Store.tok_id (tokens s)).

Definition one_token_per_account (s : State) : Prop :=
  NoDup (map token_key (tokens s)).

(** Every token belongs to an entity of the entity table. *)
Definition tokens_owned (s : State) : Prop :=
  Forall (fun t => exists e, In e (entities s) /\ Store.eid e = Store.tok_entity t)
         (tokens s).

Definition store_consistent (s : State) : Prop :=
  token_ids_fresh s /\ one_token_per_account s /\ tokens_owned s.

(** The key under which the request names a token of [e]. *)
Definition requested_key (request : Request) (e : Store.Entity)
  : string * string * string :=
  (Store.eid e, platform request, generate_hmac HASHING_KEY (account_identifier request)).

End WithCollaborators.
End Outcomes.

(* ------------------------------------------------------------------ *)
(** ** The device id as the specification words it *)

Module DeviceIdSpec.
Import Bytes.

(** HMAC over SHA-256 as RFC 2104 words it: with [B] the block length of
    the hash, [ipad] the byte 0x36 and [opad] the byte 0x5C repeated [B]
    times, a key longer than [B] is hashed first, zeros are appended to make
    it [B] bytes long, and the result is
    [H(K XOR opad, H(K XOR ipad, text))]. *)
Definition B : nat := 64.

Definition ipad : bytes := repeat 54 B.
Definition opad : bytes := repeat 92 B.

Fixpoint xor_bytes (a b : bytes) : bytes :=
  match a, b with
  | x :: a', y :: b' => Z.lxor x y :: xor_bytes a' b'
  | _, _ => []
  end.

Definition padded_key (K : bytes) : bytes :=
  let K0 := if Nat.ltb B (List.length K) then Sha256.sha256 K else K in
  K0 ++ repeat 0 (B - List.length K0).

Definition hmac_sha256 (K text : bytes) : bytes :=
  Sha256.sha256 (xor_bytes (padded_key K) opad
                 ++ Sha256.sha256 (xor_bytes (padded_key K) ipad ++ text)).

(** "Changing any input changes the result": two calls that differ in the
    secret key, the phone number or the public key give different ids. *)
Definition input_sensitive : Prop :=
  forall (sk : bytes) (p pub : string) (sk' : bytes) (p' pub' : string),
    sk <> sk' \/ p <> p' \/ pub <> pub' ->
    DeviceId.compute_device_id sk p pub <> DeviceId.compute_device_id sk' p' pub'.

End DeviceIdSpec.

(* ================================================================== *)
(** * Properties *)

(** Closes an equation between closed terms by evaluation in the virtual
    machine, without building the normal form as a term. *)
Ltac vm_refl :=
  lazymatch goal with
  | |- ?a = ?b => vm_cast_no_check (@eq_refl _ b)
  | _ => red; vm_refl
  end.

(* ------------------------------------------------------------------ *)
(** ** Hexadecimal text and digests *)

Module BytesFacts.
Import Bytes.

Lemma nibble_cases (d : Z) :
  0 <= d < 16 -> In d [0; 1; 2; 3; 4; 5; 6; 7; 8; 9; 10; 11; 12; 13; 14; 15].
Proof. intros H. simpl. lia. Qed.

Ltac each_nibble d H :=
  apply nibble_cases in H; simpl in H;
  repeat (destruct H as [H | H]; [subst d; reflexivity |]);
  contradiction.

Lemma hex_digit_val_hex_digit (d : Z) :
  0 <= d < 16 -> hex_digit_val (hex_digit d) = d.
Proof. intros H. each_nibble d H. Qed.

Lemma hex_digit_lower (d : Z) :
  0 <= d < 16 -> is_lower_hex (hex_digit d) = true.
Proof. intros H. each_nibble d H. Qed.

Lemma nibbles_of_byte (b : Z) :
  is_byte b -> 0 <= b / 16 < 16 /\ 0 <= b mod 16 < 16.
Proof.
  unfold is_byte. intros H. split.
  - split; [apply Z.div_pos; lia | apply Z.div_lt_upper_bound; lia].
  - apply Z.mod_pos_bound. lia.
Qed.

Lemma hex_length (l : bytes) : String.length (hex l) = (2 * List.length l)%nat.
Proof. induction l as [| b r IH]; simpl; [reflexivity | rewrite IH; lia]. Qed.

Lemma hex_lower (l : bytes) :
  wf l -> string_forallb is_lower_hex (hex l) = true.
Proof.
  induction 1 as [| b r Hb _ IH]; simpl; [reflexivity |].
  destruct (nibbles_of_byte b Hb) as [Hh Hl].
  now rewrite (hex_digit_lower _ Hh), (hex_digit_lower _ Hl), IH.
Qed.

Lemma hex_inj (l1 l2 : bytes) : wf l1 -> wf l2 -> hex l1 = hex l2 -> l1 = l2.
Proof.
  intros W1. revert l2.
  induction W1 as [| a r Ha _ IH]; intros l2 W2 E; destruct W2 as [| b r2 Hb W2];
    simpl in E; try discriminate; [reflexivity |].
  injection E as Eh El Er.
  destruct (nibbles_of_byte a Ha) as [Ha1 Ha2].
  destruct (nibbles_of_byte b Hb) as [Hb1 Hb2].
  apply (f_equal hex_digit_val) in Eh, El.
  rewrite !hex_digit_val_hex_digit in Eh, El by assumption.
  f_equal; [| now apply IH].
  rewrite (Z.div_mod a 16), (Z.div_mod b 16) by lia. now rewrite Eh, El.
Qed.

Lemma byte_of_ascii_inj (c d : ascii) : byte_of_ascii c = byte_of_ascii d -> c = d.
Proof.
  unfold byte_of_ascii. intros E. apply N2Z.inj in E.
  rewrite <- (ascii_N_embedding c), <- (ascii_N_embedding d). now rewrite E.
Qed.

Lemma encode_utf8_app (a b : string) :
  encode_utf8 (a ++ b) = encode_utf8 a ++ encode_utf8 b.
Proof. induction a as [| c a IH]; simpl; [reflexivity | now rewrite IH]. Qed.

Lemma encode_utf8_inj (a b : string) : encode_utf8 a = encode_utf8 b -> a = b.
Proof.
  revert b. induction a as [| c a IH]; intros [| d b] E; simpl in E;
    try discriminate; [reflexivity |].
  injection E as Ec Er. apply byte_of_ascii_inj in Ec. subst d. f_equal. now apply IH.
Qed.

Lemma zeros_length (n : nat) : List.length (zeros n) = n.
Proof. induction n; simpl; congruence. Qed.

End BytesFacts.

Module Sha256Facts.
Import Bytes Sha256.

Lemma be32_wf (x : Z) : wf (be32 x).
Proof.
  unfold be32, wf. repeat constructor; unfold is_byte; apply Z.mod_pos_bound; lia.
Qed.

Lemma digest_of_wf (h : regs) : wf (digest_of h).
Proof.
  unfold digest_of, wf. repeat (apply Forall_app; split); apply be32_wf.
Qed.

Lemma sha256_wf (m : bytes) : wf (sha256 m).
Proof. apply digest_of_wf. Qed.

Lemma sha256_length (m : bytes) : List.length (sha256 m) = digest_size.
Proof. reflexivity. Qed.

(** FIPS 180-4, appendix B.1: the digest of "abc". *)
Example sha256_abc :
  hex (sha256 (encode_utf8 "abc"))
  = "ba7816bf8f01cfea414140de5dae2223b00361a396177a9cb410ff61f20015ad".
Proof. vm_compute. reflexivity. Qed.

End Sha256Facts.

Module HmacFacts.
Import Bytes Hmac.

Lemma digest_wf (key msg : bytes) : wf (digest key msg).
Proof. apply Sha256Facts.sha256_wf. Qed.

Lemma digest_length (key msg : bytes) : List.length (digest key msg) = 32%nat.
Proof. reflexivity. Qed.

(** RFC 4231, test case 2. *)
Example hmac_rfc4231_2 :
  hexdigest (encode_utf8 "Jefe") (encode_utf8 "what do ya want for nothing?")
  = "5bdcc146bf60754e6a042426089575c75a003f089d2739839dec58b964ec3843".
Proof. vm_compute. reflexivity. Qed.

(** Keys of one length, at most a block, have distinct key blocks. *)
Lemma key_block_inj (k1 k2 : bytes) :
  List.length k1 = List.length k2 -> (List.length k1 <= Sha256.block_size)%nat ->
  key_block k1 = key_block k2 -> k1 = k2.
Proof.
  intros El Hl. unfold key_block. rewrite <- El.
  destruct (Nat.ltb_spec Sha256.block_size (List.length k1)) as [Hlt | _]; [lia |].
  cbv zeta. rewrite <- El. intros E. now apply app_inv_tail in E.
Qed.

Lemma zeros_repeat (n : nat) : zeros n = repeat 0 n.
Proof. induction n as [| n IH]; cbn [zeros repeat]; congruence. Qed.

Lemma zeros_app (a b : nat) : zeros a ++ zeros b = zeros (a + b).
Proof. induction a as [| a IH]; cbn [zeros app Nat.add]; congruence. Qed.

Lemma xor_bytes_repeat (c : Z) (l : bytes) :
  DeviceIdSpec.xor_bytes l (repeat c (List.length l)) = xor_with c l.
Proof.
  unfold xor_with. induction l as [| x l IH]; [reflexivity |].
  cbn [List.length repeat DeviceIdSpec.xor_bytes map]. now rewrite IH.
Qed.

Lemma key_block_length (key : bytes) : List.length (key_block key) = Sha256.block_size.
Proof.
  unfold key_block. destruct (Nat.ltb_spec Sha256.block_size (List.length key)) as [H | H];
    cbv zeta; rewrite length_app, BytesFacts.zeros_length.
  - rewrite Sha256Facts.sha256_length. reflexivity.
  - lia.
Qed.

Lemma padded_key_is_key_block (key : bytes) :
  DeviceIdSpec.padded_key key = key_block key.
Proof.
  unfold DeviceIdSpec.padded_key, key_block, DeviceIdSpec.B, Sha256.block_size.
  cbv zeta. now rewrite zeros_repeat.
Qed.

(** The model of [hmac.new(key, msg, hashlib.sha256).digest()] computes
    HMAC-SHA256 as RFC 2104 words it. *)
Lemma digest_is_hmac_sha256 (key msg : bytes) :
  digest key msg = DeviceIdSpec.hmac_sha256 key msg.
Proof.
  unfold digest, DeviceIdSpec.hmac_sha256, DeviceIdSpec.ipad, DeviceIdSpec.opad,
    DeviceIdSpec.B.
  cbv zeta. rewrite padded_key_is_key_block.
  change 64%nat with Sha256.block_size. rewrite <- (key_block_length key).
  now rewrite !xor_bytes_repeat.
Qed.

(** Zero bytes after a key that still fits a block do not show in the
    key block. *)
Lemma key_block_zeros (key : bytes) (n : nat) :
  (List.length key + n <= Sha256.block_size)%nat ->
  key_block (key ++ zeros n) = key_block key.
Proof.
  intros H. unfold key_block. rewrite length_app, BytesFacts.zeros_length.
  destruct (Nat.ltb_spec Sha256.block_size (List.length key + n)) as [Hl | _]; [lia |].
  destruct (Nat.ltb_spec Sha256.block_size (List.length key)) as [Hl | _]; [lia |].
  cbv zeta. rewrite length_app, BytesFacts.zeros_length, <- app_assoc, zeros_app.
  f_equal. f_equal. lia.
Qed.

End HmacFacts.

(* ------------------------------------------------------------------ *)
(** ** src/device_id.py *)

Module DeviceIdFacts.
Import Bytes DeviceId.

Example compute_device_id_sample :
  compute_device_id (encode_utf8 "key") "+2376000" "AAAA"
  = "d3ec53264bf8479f01c837a4d230318598aae93e2b0b77efd938ba8c187257b8".
Proof. vm_compute. reflexivity. Qed.

Lemma same_digest_same_id (sk sk' : bytes) (p pub p' pub' : string) :
  compute_device_id sk p pub = compute_device_id sk' p' pub'
  <-> Hmac.digest sk (encode_utf8 (p ++ pub)) = Hmac.digest sk' (encode_utf8 (p' ++ pub')).
Proof.
  unfold compute_device_id, Hmac.hexdigest. split.
  - apply BytesFacts.hex_inj; apply HmacFacts.digest_wf.
  - intros E. now rewrite E.
Qed.

Lemma message_changes_with_phone (p p' pub : string) :
  encode_utf8 (p' ++ pub) = encode_utf8 (p ++ pub) <-> p' = p.
Proof.
  split; [| now intros ->].
  rewrite !BytesFacts.encode_utf8_app. intros E.
  apply app_inv_tail in E. now apply BytesFacts.encode_utf8_inj.
Qed.

Lemma message_changes_with_public_key (p pub pub' : string) :
  encode_utf8 (p ++ pub') = encode_utf8 (p ++ pub) <-> pub' = pub.
Proof.
  split; [| now intros ->].
  rewrite !BytesFacts.encode_utf8_app. intros E.
  apply app_inv_head in E. now apply BytesFacts.encode_utf8_inj.
Qed.

Lemma padded_key_same_id (sk : bytes) (n : nat) (p pub : string) :
  (List.length sk + n <= 64)%nat ->
  compute_device_id (sk ++ zeros n) p pub = compute_device_id sk p pub.
Proof.
  intros H. unfold compute_device_id, Hmac.hexdigest, Hmac.digest. cbv zeta.
  now rewrite (HmacFacts.key_block_zeros sk n H).
Qed.

Lemma padded_key_of_length (sk sk' : bytes) :
  List.length sk' = List.length sk -> (List.length sk <= 64)%nat ->
  DeviceIdSpec.padded_key sk' = DeviceIdSpec.padded_key sk <-> sk' = sk.
Proof.
  intros El Hl. split; [| now intros ->].
  rewrite !HmacFacts.padded_key_is_key_block.
  apply HmacFacts.key_block_inj; [exact El | now rewrite El].
Qed.

(** C8. [compute_device_id sk p pub] is the lowercase hexadecimal text (64
    digits) of HMAC-SHA256, as RFC 2104 words it, keyed on [sk], of the
    UTF-8 bytes of [p] followed, with no separator, by those of [pub]. It is
    a function of its inputs, and two calls give the same identifier
    exactly when their HMAC-SHA256 digests coincide. A change of [p] alone,
    or of [pub] alone, always changes the message that is hashed, and a
    change of [sk] among keys of one length of at most 64 bytes always
    changes the padded key. Zero bytes added to a key that still fits the
    block of 64 bytes change the key and not the identifier. *)
Theorem compute_device_id_is_hex_hmac (sk : bytes) (p pub : string) :
  compute_device_id sk p pub
    = hex (DeviceIdSpec.hmac_sha256 sk (encode_utf8 p ++ encode_utf8 pub))
  /\ String.length (compute_device_id sk p pub) = 64%nat
  /\ string_forallb is_lower_hex (compute_device_id sk p pub) = true
  /\ (forall sk' p' pub',
        compute_device_id sk p pub = compute_device_id sk' p' pub'
        <-> DeviceIdSpec.hmac_sha256 sk (encode_utf8 (p ++ pub))
            = DeviceIdSpec.hmac_sha256 sk' (encode_utf8 (p' ++ pub')))
  /\ (forall p', encode_utf8 (p' ++ pub) = encode_utf8 (p ++ pub) <-> p' = p)
  /\ (forall pub', encode_utf8 (p ++ pub') = encode_utf8 (p ++ pub) <-> pub' = pub)
  /\ (forall sk',
        List.length sk' = List.length sk -> (List.length sk <= 64)%nat ->
        DeviceIdSpec.padded_key sk' = DeviceIdSpec.padded_key sk <-> sk' = sk)
  /\ (forall n,
        (List.length sk + n <= 64)%nat ->
        sk ++ zeros n <> sk \/ n = 0%nat)
  /\ (forall n,
        (List.length sk + n <= 64)%nat ->
        compute_device_id (sk ++ zeros n) p pub = compute_device_id sk p pub).
Proof.
  split; [| split; [| split; [| split; [| split; [| split; [| split; [| split]]]]]]].
  - unfold compute_device_id, Hmac.hexdigest.
    now rewrite BytesFacts.encode_utf8_app, HmacFacts.digest_is_hmac_sha256.
  - unfold compute_device_id, Hmac.hexdigest.
    now rewrite BytesFacts.hex_length, HmacFacts.digest_length.
  - apply BytesFacts.hex_lower, HmacFacts.digest_wf.
  - intros sk' p' pub'. rewrite <- !HmacFacts.digest_is_hmac_sha256.
    apply same_digest_same_id.
  - intros p'. apply message_changes_with_phone.
  - intros pub'. apply message_changes_with_public_key.
  - intros sk'. apply padded_key_of_length.
  - intros n _. destruct n as [| n]; [now right | left].
    intros E. apply (f_equal (@List.length Z)) in E.
    rewrite length_app, BytesFacts.zeros_length in E. lia.
  - intros n. apply padded_key_same_id.
Qed.

Lemma compute_device_id_is_hex_hmac_witness :
  compute_device_id (encode_utf8 "key" ++ zeros 1) "+2376000" "AAAA"
  = compute_device_id (encode_utf8 "key") "+2376000" "AAAA".
Proof.
  apply (compute_device_id_is_hex_hmac (encode_utf8 "key") "+2376000" "AAAA").
  cbn. lia.
Defined.

(** C8 as the specification words it fails: the key "key" and the same
    key followed by a zero byte are two secret keys, and they give one
    identifier for every phone number and public key. *)
Lemma zero_padded_key_same_id : ~ DeviceIdSpec.input_sensitive.
Proof.
  intros H.
  apply (H (encode_utf8 "key") "+2376000" "AAAA"
           (encode_utf8 "key" ++ zeros 1) "+2376000" "AAAA").
  - left. discriminate.
  - symmetry. apply padded_key_same_id. cbn. lia.
Qed.

End DeviceIdFacts.

(* ------------------------------------------------------------------ *)
(** ** The helpers of the service *)

Module ServiceFacts.
Import Grpc Effects Service Observations.

(** Runs the [error_response] that stands in the goal. *)
Ltac error_step_with lem s' E Hc Hq :=
  match goal with
  | |- context [Service.error_response ?a ?b ?c ?d ?e ?s] =>
      destruct (lem a b c d e s) as (s' & E & Hc & Hq); rewrite E
  end.

(** Runs the monadic steps that stand in the goal, as far as their
    arguments allow. *)
Ltac mrun :=
  cbv beta iota zeta delta
      [bind ret gets modify emit logger set_details set_code call raise try_except
       Service.find_entity Service.create_entity save delete_instance
       Service.fetch_entity_tokens Service.fetch_entity_tokens_json
       Service.create_entity_token Service.save_token delete_token_instance
       call_send_otp call_verify_otp
       error_response shown_message internal_error handle_exceptions exn_str negb];
  cbn [entities tokens next_token_id ext context log trace
       with_entities with_tokens with_next_token_id with_ext with_context with_log
       with_trace fst snd details code].

Lemma field_eqb_eq (f g : Field) : field_eqb f g = true -> f = g.
Proof. destruct f, g; intros E; try reflexivity; discriminate E. Qed.

Section WithCollaborators.
Context {C : Collaborators}.

Lemma bind_gets {A B} (f : State -> A) (k : A -> M B) (s : State) :
  bind (gets f) k s = k (f s) s.
Proof. reflexivity. Qed.

Lemma bind_ret {A B} (a : A) (k : A -> M B) (s : State) :
  bind (ret a) k s = k a s.
Proof. reflexivity. Qed.

Lemma bind_run {A B} (m : M A) (k : A -> M B) (s s' : State) (a : A) :
  m s = (Return a, s') -> bind m k s = k a s'.
Proof. unfold bind. now intros ->. Qed.

Lemma try_except_run {A} (m : M A) (h : Exn -> M A) (s s' : State) (a : A) :
  m s = (Return a, s') -> try_except m h s = (Return a, s').
Proof. unfold try_except. now intros ->. Qed.

Lemma same_store_refl (s : State) : same_store s s.
Proof. repeat split. Qed.

Lemma quiet_refl (s : State) : quiet s s.
Proof. repeat split. Qed.

Lemma quiet_trans (s1 s2 s3 : State) : quiet s1 s2 -> quiet s2 s3 -> quiet s1 s3.
Proof.
  unfold quiet, same_store. intros ((A & B & D) & E & F) ((A' & B' & D') & E' & F').
  repeat split; congruence.
Qed.

(** [error_response] answers with the empty response, sets the status
    and the shown message, and touches nothing but the context and the
    log. *)
Lemma error_response_run (response : ResponseClass) (sys_msg : string)
    (status : StatusCode) (user_msg _type : option string) (s : State) :
  exists s',
    error_response response sys_msg status user_msg _type s
    = (Return (empty_response response), s') /\
    context s' = mkContext (Some (shown_message user_msg sys_msg)) status /\
    quiet s s'.
Proof.
  unfold error_response, bind, logger, set_details, set_code, modify, ret.
  destruct _type as [t |]; [destruct (String.eqb t "UNKNOWN") |];
    (eexists; split; [reflexivity | split; [reflexivity | repeat split]]).
Qed.

Ltac error_step s' E Hc Hq := error_step_with error_response_run s' E Hc Hq.

Lemma error_response_rejected (response : ResponseClass) (sys_msg : string)
    (status : StatusCode) (user_msg _type : option string) (s : State) :
  rejected_with (error_response response sys_msg status user_msg _type s)
    response status (shown_message user_msg sys_msg) s.
Proof.
  destruct (error_response_run response sys_msg status user_msg _type s)
    as (s' & E & Hc & Hq).
  unfold rejected_with. rewrite E. simpl. intuition auto.
Qed.

Lemma validate_passes (request : Request) (response : ResponseClass)
    (required : list Required) (s : State) :
  flat_map (missing_of request) required = [] ->
  flat_map (invalid_of request)
           (filter (fun f => is_required f required) x25519_fields) = [] ->
  validate_request_fields request response required s = (Return None, s).
Proof.
  intros H1 H2. unfold validate_request_fields. rewrite H1, H2. reflexivity.
Qed.

Lemma validate_missing (request : Request) (response : ResponseClass)
    (required : list Required) (s : State) (m : string) (ms : list string) :
  flat_map (missing_of request) required = m :: ms ->
  exists s',
    validate_request_fields request response required s
    = (Return (Some (empty_response response)), s') /\
    context s'
    = mkContext (Some ("Missing required fields: " ++ Py.join ", " (m :: ms))%string)
                INVALID_ARGUMENT /\
    quiet s s'.
Proof.
  intros H. unfold validate_request_fields. rewrite H. unfold bind.
  destruct (error_response_run response
              ("Missing required fields: " ++ Py.join ", " (m :: ms))%string
              INVALID_ARGUMENT None None s) as (s' & E & Hc & Hq).
  rewrite E. exists s'. intuition auto.
Qed.

Lemma missing_none (request : Request) (fields : list Field) :
  present request fields -> flat_map (missing_of request) (map One fields) = [].
Proof.
  induction 1 as [| f fs Hf _ IH]; [reflexivity |].
  cbn [map flat_map missing_of]. now rewrite Hf, IH.
Qed.

Lemma is_required_One (f : Field) (fields : list Field) :
  is_required f (map One fields) = existsb (field_eqb f) fields.
Proof.
  unfold is_required. induction fields as [| g gs IH]; [reflexivity |].
  cbn [map existsb]. now rewrite IH.
Qed.

(** Validation passes when the required fields are present and none of
    them is an X25519 key. *)
Lemma validate_present (request : Request) (response : ResponseClass)
    (fields : list Field) (s : State) :
  present request fields ->
  existsb (fun f => existsb (field_eqb f) fields) x25519_fields = false ->
  validate_request_fields request response (map One fields) s = (Return None, s).
Proof.
  intros Hp Hx. apply validate_passes; [now apply missing_none |].
  unfold x25519_fields in *. cbn [existsb filter] in *.
  rewrite !is_required_One.
  destruct (existsb (field_eqb F_client_publish_pub_key) fields); [discriminate |].
  destruct (existsb (field_eqb F_client_device_id_pub_key) fields); [discriminate |].
  reflexivity.
Qed.

(** Whatever it answers, validation leaves the database, the
    collaborators and the trace alone. *)
Lemma validate_quiet (request : Request) (response : ResponseClass)
    (required : list Required) (s : State) :
  exists o s', validate_request_fields request response required s = (Return o, s') /\
               quiet s s' /\
               (o = None -> s' = s) /\
               (forall r, o = Some r ->
                  r = empty_response response /\ code (context s') = INVALID_ARGUMENT).
Proof.
  unfold validate_request_fields.
  destruct (flat_map (missing_of request) required) as [| m ms].
  - destruct (flat_map (invalid_of request) _) as [| i irest].
    + exists None, s. repeat split; try discriminate.
    + unfold bind.
      error_step s' E Hc Hq.
      exists (Some (empty_response response)), s'. split; [reflexivity |].
      split; [assumption |]. split; [discriminate |].
      intros r [= <-]. split; [reflexivity | now rewrite Hc].
  - unfold bind.
    error_step s' E Hc Hq.
    exists (Some (empty_response response)), s'. split; [reflexivity |].
    split; [assumption |]. split; [discriminate |].
    intros r [= <-]. split; [reflexivity | now rewrite Hc].
Qed.

(** The two outcomes of [verify_long_lived_token]: the token is
    accepted, without a mark on the state, for the entity whose [eid]
    is both the prefix of the wire form and the [eid] of the verified
    payload; or it is refused with UNAUTHENTICATED and the generic
    message. *)
Lemma verify_long_lived_token_cases (request : Request) (response : ResponseClass)
    (s : State) :
  (exists e eid llt p err,
      verify_long_lived_token request response s = (Return (inr e), s) /\
      Py.split_colon (long_lived_token request) = Some (eid, llt) /\
      Store.find_entity (entities s) (Store.by_eid eid) = Some e /\
      verify_llt (ext s) llt (device_id_shared_key e) = (Some p, err) /\
      Py.is_str (Py.get p "eid") eid = true)
  \/ llt_rejected request response s.
Proof.
  unfold llt_rejected, verify_long_lived_token.
  destruct (Py.split_colon (long_lived_token request)) as [[eid llt] |] eqn:Es.
  2:{ right. unfold bind.
      error_step s' E Hc Hq.
      exists s'. intuition auto. }
  unfold find_entity. rewrite bind_gets.
  destruct (Store.find_entity (entities s) (Store.by_eid eid)) as [e |] eqn:Ef.
  2:{ right. unfold bind.
      error_step s' E Hc Hq.
      exists s'. intuition auto. }
  rewrite bind_gets. fold (device_id_shared_key e).
  destruct (verify_llt (ext s) llt (device_id_shared_key e)) as [payload err] eqn:Ev.
  destruct payload as [[| kv p] |].
  1,3: right; unfold bind;
      error_step s' E Hc Hq;
      exists s'; intuition auto.
  destruct (Py.is_str (Py.get (kv :: p) "eid") eid) eqn:Ei; cbv beta iota delta [negb].
  - left. exists e, eid, llt, (kv :: p), err. intuition auto.
  - right. unfold bind.
    error_step s' E Hc Hq.
    exists s'. intuition auto.
Qed.

(** A token that verifies is not the empty string. *)
Lemma llt_authenticates_present (request : Request) (response : ResponseClass)
    (s : State) (e : Store.Entity) :
  llt_authenticates request response s e ->
  Py.truthy (long_lived_token request) = true.
Proof.
  unfold llt_authenticates. intros Ha.
  destruct (verify_long_lived_token_cases request response s)
    as [(e' & eid & llt & p & err & _ & Hs & _) | (s' & E & _)].
  - destruct (long_lived_token request); [discriminate Hs | reflexivity].
  - rewrite E in Ha. discriminate.
Qed.

End WithCollaborators.
End ServiceFacts.

(* ------------------------------------------------------------------ *)
(** ** Long-lived tokens *)

Module LongLivedToken.
Import Grpc Effects Service Observations.

Section WithCollaborators.
Context {C : Collaborators}.

Lemma find_entity_by_eid (rows : list Store.Entity) (eid : string) (e : Store.Entity) :
  Store.find_entity rows (Store.by_eid eid) = Some e -> Store.eid e = eid /\ In e rows.
Proof.
  unfold Store.find_entity. intros H. apply find_some in H as [Hin Hm].
  simpl in Hm. now apply String.eqb_eq in Hm.
Qed.

(** A token that is accepted is accepted for the entity that its
    verified payload names. *)
Lemma llt_binds_entity (request : Request) (response : ResponseClass) (s : State)
    (e : Store.Entity) :
  llt_authenticates request response s e ->
  exists llt p err,
    Py.split_colon (long_lived_token request) = Some (Store.eid e, llt) /\
    In e (entities s) /\
    verify_llt (ext s) llt (device_id_shared_key e) = (Some p, err) /\
    Py.get p "eid" = Some (Py.VStr (Store.eid e)).
Proof.
  unfold llt_authenticates. intros Ha.
  destruct (ServiceFacts.verify_long_lived_token_cases request response s)
    as [(e' & eid & llt & p & err & Hv & Hs & Hf & Hl & Hi) | (s' & E & _)].
  - rewrite Hv in Ha. injection Ha as <-.
    apply find_entity_by_eid in Hf as [<- Hin].
    exists llt, p, err. repeat split; try assumption.
    unfold Py.is_str in Hi.
    destruct (Py.get p "eid") as [[x | n] |]; try discriminate.
    apply String.eqb_eq in Hi. now subst x.
  - rewrite E in Ha. discriminate.
Qed.

(** C3. When the eid inside the verified payload of a long-lived token
    is not the eid before the first colon of its wire form, the
    verification answers UNAUTHENTICATED with the generic session-expired
    message, whatever the handler; the token then authenticates as no
    entity at all. *)
Theorem llt_eid_mismatch_rejected (request : Request) (response : ResponseClass)
    (s : State) (eid llt : string) :
  Py.split_colon (long_lived_token request) = Some (eid, llt) ->
  (forall e p err,
      Store.find_entity (entities s) (Store.by_eid eid) = Some e ->
      verify_llt (ext s) llt (device_id_shared_key e) = (Some p, err) ->
      Py.is_str (Py.get p "eid") eid = false) ->
  llt_rejected request response s /\
  forall e, ~ llt_authenticates request response s e.
Proof.
  intros Hs Hp.
  destruct (ServiceFacts.verify_long_lived_token_cases request response s)
    as [(e' & eid' & llt' & p & err & Hv & Hs' & Hf & Hl & Hi) | Hr].
  - rewrite Hs in Hs'. injection Hs' as <- <-.
    rewrite (Hp e' p err Hf Hl) in Hi. discriminate.
  - split; [assumption |].
    destruct Hr as (s' & E & _). unfold llt_authenticates.
    intros e He. rewrite E in He. discriminate.
Qed.

End WithCollaborators.

Lemma llt_eid_mismatch_rejected_witness :
  llt_rejected (C := Demo.collaborators) Scenario.cross_pasted DeleteEntityResponse
    Scenario.s2 /\
  forall e, ~ llt_authenticates (C := Demo.collaborators) Scenario.cross_pasted
                DeleteEntityResponse Scenario.s2 e.
Proof.
  apply (llt_eid_mismatch_rejected (C := Demo.collaborators) Scenario.cross_pasted
           DeleteEntityResponse Scenario.s2 Scenario.eid_a Scenario.cross_body).
  - vm_refl.
  - intros e p err Hf Hv.
    vm_compute in Hf. injection Hf as <-.
    vm_compute in Hv. injection Hv as <- _.
    vm_refl.
Defined.

End LongLivedToken.

(* ------------------------------------------------------------------ *)
(** ** CreateEntity *)

Module CreateEntityFacts.
Import Grpc Effects Service Observations.

Section WithCollaborators.
Context {C : Collaborators}.

Lemma quiet_fresh_context (s : State) (c : Context) : quiet s (with_context s c).
Proof. repeat split. Qed.

Lemma rejected_after_reset (o : Outcome Response * State) (response : ResponseClass)
    (status : StatusCode) (msg : string) (s : State) (c : Context) :
  rejected_with o response status msg (with_context s c) ->
  rejected_with o response status msg s.
Proof.
  unfold rejected_with. intros (A & B & D). repeat split; try assumption;
    destruct D as ((D1 & D2 & D3) & D4 & D5); assumption.
Qed.

(** C5. A [CreateEntity] request without [ownership_proof_response]:
    without [phone_number] it fails INVALID_ARGUMENT; when an entity
    with the HMAC of the phone number exists it fails ALREADY_EXISTS and
    no OTP is sent; otherwise [send_otp] is called once, nothing is
    written to the database, and when the gateway reports success the
    response has [requires_ownership_proof] set with the message and the
    next-attempt timestamp of the gateway. *)
Theorem create_entity_phase1 (request : Request) (s : State) :
  Py.truthy (ownership_proof_response request) = false ->
  let o := serve RpcCreateEntity request s in
  let h := generate_hmac HASHING_KEY (phone_number request) in
  (Py.truthy (phone_number request) = false ->
   rejected_with o CreateEntityResponse INVALID_ARGUMENT
     "Missing required fields: phone_number" s)
  /\ (Py.truthy (phone_number request) = true ->
      forall e, Store.find_entity (entities s) (Store.by_phone_number_hash h) = Some e ->
      rejected_with o CreateEntityResponse ALREADY_EXISTS
        ("Entity with phone number `" ++ phone_number request ++ "` already exists.") s)
  /\ (Py.truthy (phone_number request) = true ->
      Store.find_entity (entities s) (Store.by_phone_number_hash h) = None ->
      trace (snd o) = trace s ++ [SendOtp (phone_number request)]
      /\ same_store s (snd o)
      /\ forall msg expires x',
           send_otp (ext s) (phone_number request) = ((true, msg, expires), x') ->
           fst o = Return (mkResponse CreateEntityResponse msg false true expires
                             "" "" "" [] "" "" "")
           /\ context (snd o) = fresh_context
           /\ ext (snd o) = x').
Proof.
  intros Hp o h. subst o h. unfold serve, handler, CreateEntity.
  set (s0 := with_context s fresh_context).
  assert (Hv : Py.truthy (phone_number request) = true ->
               validate_request_fields request CreateEntityResponse
                 [One F_phone_number] s0 = (Return None, s0)).
  { intros Hph. apply ServiceFacts.validate_passes; simpl;
      [now rewrite Hph | reflexivity]. }
  split; [| split].
  - intros Hph. apply (rejected_after_reset _ _ _ _ s fresh_context). fold s0.
    destruct (ServiceFacts.validate_missing request CreateEntityResponse
                [One F_phone_number] s0 "phone_number" [])
      as (s' & E & Hc & Hq).
    { simpl. now rewrite Hph. }
    ServiceFacts.mrun. rewrite E. ServiceFacts.mrun.
    unfold rejected_with. simpl. intuition auto.
  - intros Hph e Hf. apply (rejected_after_reset _ _ _ _ s fresh_context). fold s0.
    ServiceFacts.mrun. rewrite (Hv Hph). ServiceFacts.mrun.
    subst s0. ServiceFacts.mrun. rewrite Hf. ServiceFacts.mrun.
    unfold rejected_with. simpl. repeat split.
  - intros Hph Hf.
    ServiceFacts.mrun. rewrite (Hv Hph). ServiceFacts.mrun.
    subst s0. ServiceFacts.mrun. rewrite Hf, Hp.
    unfold initiate_creation, handle_pow_initialization. ServiceFacts.mrun.
    destruct (send_otp (ext s) (phone_number request)) as [[[ok msg] expires] x'] eqn:Eo.
    destruct ok; ServiceFacts.mrun.
    + split; [reflexivity | split; [repeat split |]].
      intros msg' expires' x'' [= <- <- <-]. repeat split.
    + split; [reflexivity | split; [repeat split |]].
      intros msg' expires' x'' [=].
Qed.

End WithCollaborators.

Lemma create_entity_phase1_witness :
  Py.truthy (ownership_proof_response Scenario.create1) = false /\
  trace (snd (Scenario.call RpcCreateEntity Scenario.create1 Scenario.s0))
  = [SendOtp Scenario.phone].
Proof.
  split; [reflexivity |].
  destruct (create_entity_phase1 (C := Demo.collaborators) Scenario.create1 Scenario.s0
              eq_refl) as (_ & _ & H).
  destruct H as (Ht & _); [reflexivity | reflexivity | exact Ht].
Defined.

End CreateEntityFacts.

(* ------------------------------------------------------------------ *)
(** ** The platform whitelist *)

Module PlatformFacts.
Import Grpc Effects Service Observations.

Section WithCollaborators.
Context {C : Collaborators}.

Lemma store_unsupported (request : Request) (s : State) (e : Store.Entity) :
  platform_supported request = false ->
  present request [F_token; F_platform; F_account_identifier] ->
  llt_authenticates request StoreEntityTokenResponse s e ->
  rejected_with (StoreEntityToken request s) StoreEntityTokenResponse UNIMPLEMENTED
    (unsupported_platform (platform request)) s.
Proof.
  intros Hu Hp Ha.
  apply (Forall_cons F_long_lived_token
           (ServiceFacts.llt_authenticates_present _ _ _ _ Ha)) in Hp.
  unfold StoreEntityToken. ServiceFacts.mrun.
  pose proof (ServiceFacts.validate_present request StoreEntityTokenResponse
                [F_long_lived_token; F_token; F_platform; F_account_identifier] s Hp eq_refl) as Hv.
  cbn [map] in Hv. rewrite Hv.
  ServiceFacts.mrun. rewrite Ha. ServiceFacts.mrun. rewrite Hu. ServiceFacts.mrun.
  unfold rejected_with. cbn [fst snd]. repeat split.
Qed.

Lemma delete_token_unsupported (request : Request) (s : State) (e : Store.Entity) :
  platform_supported request = false ->
  present request [F_platform; F_account_identifier] ->
  llt_authenticates request DeleteEntityTokenResponse s e ->
  rejected_with (DeleteEntityToken request s) DeleteEntityTokenResponse UNIMPLEMENTED
    (unsupported_platform (platform request)) s.
Proof.
  intros Hu Hp Ha.
  apply (Forall_cons F_long_lived_token
           (ServiceFacts.llt_authenticates_present _ _ _ _ Ha)) in Hp.
  unfold DeleteEntityToken. ServiceFacts.mrun.
  pose proof (ServiceFacts.validate_present request DeleteEntityTokenResponse
                [F_long_lived_token; F_platform; F_account_identifier] s Hp eq_refl) as Hv.
  cbn [map] in Hv. rewrite Hv.
  ServiceFacts.mrun. rewrite Ha. ServiceFacts.mrun. rewrite Hu. ServiceFacts.mrun.
  unfold rejected_with. cbn [fst snd]. repeat split.
Qed.

Lemma get_validates (request : Request) (s : State) :
  Py.truthy (long_lived_token request) = true \/ Py.truthy (device_id request) = true ->
  present request [F_platform; F_account_identifier] ->
  validate_request_fields request GetEntityAccessTokenResponse
    [AnyOf [F_device_id; F_long_lived_token]; One F_platform; One F_account_identifier] s
  = (Return None, s).
Proof.
  intros Hany Hp. apply ServiceFacts.validate_passes; [| reflexivity].
  change [AnyOf [F_device_id; F_long_lived_token]; One F_platform; One F_account_identifier]
    with (AnyOf [F_device_id; F_long_lived_token]
            :: map One [F_platform; F_account_identifier]).
  cbn [flat_map]. rewrite (ServiceFacts.missing_none _ _ Hp), app_nil_r.
  cbn [missing_of existsb getattr].
  destruct Hany as [-> | ->]; [now rewrite orb_true_r | reflexivity].
Qed.

Lemma get_unsupported (request : Request) (s : State) (e : Store.Entity) :
  platform_supported request = false ->
  present request [F_platform; F_account_identifier] ->
  (Py.truthy (long_lived_token request) = true /\
   llt_authenticates request GetEntityAccessTokenResponse s e)
  \/ (Py.truthy (long_lived_token request) = false /\
      Py.truthy (device_id request) = true /\
      device_authenticates request s e) ->
  rejected_with (GetEntityAccessToken request s) GetEntityAccessTokenResponse
    UNIMPLEMENTED (unsupported_platform (platform request)) s.
Proof.
  intros Hu Hp Ha. unfold GetEntityAccessToken. ServiceFacts.mrun.
  rewrite get_validates; [| tauto | assumption].
  ServiceFacts.mrun.
  destruct Ha as [(Hl & Ha) | (Hl & Hd & Ha)]; rewrite Hl.
  - rewrite Ha. ServiceFacts.mrun. rewrite Hu. ServiceFacts.mrun.
    unfold rejected_with. cbn [fst snd]. repeat split.
  - rewrite Hd. unfold device_authenticates in Ha. rewrite Ha.
    ServiceFacts.mrun. rewrite Hu. ServiceFacts.mrun.
    unfold rejected_with. cbn [fst snd]. repeat split.
Qed.

(** C4. A request that its handler authenticated, which it does once
    the required fields are found present, and whose platform,
    lowercased, is not in [SUPPORTED_PLATFORMS]: [StoreEntityToken],
    [GetEntityAccessToken] and [DeleteEntityToken] each answer
    UNIMPLEMENTED, and neither the database nor the state of the
    collaborators nor the trace of writes changes. *)
Theorem unsupported_platform_unimplemented (request : Request) (s : State)
    (e : Store.Entity) :
  platform_supported request = false ->
  (present request [F_token; F_platform; F_account_identifier] ->
   llt_authenticates request StoreEntityTokenResponse s e ->
   rejected_with (StoreEntityToken request s) StoreEntityTokenResponse UNIMPLEMENTED
     (unsupported_platform (platform request)) s)
  /\ (present request [F_platform; F_account_identifier] ->
      (Py.truthy (long_lived_token request) = true /\
       llt_authenticates request GetEntityAccessTokenResponse s e)
      \/ (Py.truthy (long_lived_token request) = false /\
          Py.truthy (device_id request) = true /\
          device_authenticates request s e) ->
      rejected_with (GetEntityAccessToken request s) GetEntityAccessTokenResponse
        UNIMPLEMENTED (unsupported_platform (platform request)) s)
  /\ (present request [F_platform; F_account_identifier] ->
      llt_authenticates request DeleteEntityTokenResponse s e ->
      rejected_with (DeleteEntityToken request s) DeleteEntityTokenResponse UNIMPLEMENTED
        (unsupported_platform (platform request)) s).
Proof.
  intros Hu. split; [| split].
  - now apply store_unsupported.
  - now apply get_unsupported.
  - now apply delete_token_unsupported.
Qed.

End WithCollaborators.

Lemma unsupported_platform_unimplemented_witness :
  rejected_with (C := Demo.collaborators)
    (StoreEntityToken Scenario.store_twitter Scenario.s2) StoreEntityTokenResponse
    UNIMPLEMENTED (unsupported_platform "twitter") Scenario.s2
  /\ rejected_with (C := Demo.collaborators)
       (GetEntityAccessToken Scenario.store_twitter Scenario.s2)
       GetEntityAccessTokenResponse UNIMPLEMENTED (unsupported_platform "twitter")
       Scenario.s2
  /\ rejected_with (C := Demo.collaborators)
       (DeleteEntityToken Scenario.store_twitter Scenario.s2) DeleteEntityTokenResponse
       UNIMPLEMENTED (unsupported_platform "twitter") Scenario.s2.
Proof.
  destruct (unsupported_platform_unimplemented (C := Demo.collaborators)
              Scenario.store_twitter Scenario.s2 Scenario.entity_a eq_refl)
    as (H1 & H2 & H3).
  split; [| split].
  - apply H1; [repeat constructor | vm_refl].
  - apply H2; [repeat constructor |].
    left. split; [reflexivity | vm_refl].
  - apply H3; [repeat constructor | vm_refl].
Defined.

End PlatformFacts.

(* ------------------------------------------------------------------ *)
(** ** What the handlers keep *)

Module Invariants.
Import Grpc Effects Service Observations.

Section WithCollaborators.
Context {C : Collaborators}.

Section Rules.
Variable P : State -> Prop.

Lemma preserves_ret {A} (a : A) : preserves P (ret a).
Proof. intros s H. exact H. Qed.

Lemma preserves_raise {A} (e : Exn) : preserves P (@raise _ A e).
Proof. intros s H. exact H. Qed.

Lemma preserves_gets {A} (f : State -> A) : preserves P (gets f).
Proof. intros s H. exact H. Qed.

Lemma preserves_bind {A B} (m : M A) (k : A -> M B) :
  preserves P m -> (forall a, preserves P (k a)) -> preserves P (bind m k).
Proof.
  intros Hm Hk s H. unfold bind. specialize (Hm s H).
  destruct (m s) as [[a | e] s']; cbn [snd] in *; [now apply Hk | assumption].
Qed.

(** The continuation may use what the value read says of the state. *)
Lemma preserves_bind_gets {A B} (f : State -> A) (k : A -> M B) :
  (forall s, P s -> P (snd (k (f s) s))) -> preserves P (bind (gets f) k).
Proof. intros Hk s H. rewrite ServiceFacts.bind_gets. now apply Hk. Qed.

Lemma preserves_try {A} (m : M A) (h : Exn -> M A) :
  preserves P m -> (forall e, preserves P (h e)) -> preserves P (try_except m h).
Proof.
  intros Hm Hh s H. unfold try_except. specialize (Hm s H).
  destruct (m s) as [[a | e] s']; cbn [snd] in *; [assumption | now apply Hh].
Qed.

Hypothesis Ptok : token_only P.

Lemma preserves_modify (f : State -> State) :
  (forall s, tokens (f s) = tokens s) -> preserves P (modify f).
Proof. intros Hf s H. cbn. apply (Ptok s); [apply Hf | assumption]. Qed.

Lemma preserves_emit (e : Event) : preserves P (emit e).
Proof. apply preserves_modify. reflexivity. Qed.

Lemma preserves_logger (l : Level) (msg : string) (args : list string) :
  preserves P (logger l msg args).
Proof. apply preserves_modify. reflexivity. Qed.

Lemma preserves_set_details (msg : string) : preserves P (set_details msg).
Proof. apply preserves_modify. reflexivity. Qed.

Lemma preserves_set_code (c : StatusCode) : preserves P (set_code c).
Proof. apply preserves_modify. reflexivity. Qed.

Lemma preserves_call {A} (f : Ext -> A * Ext) : preserves P (call f).
Proof.
  intros s H. unfold call. destruct (f (ext s)) as [a x]. cbn [snd].
  apply (Ptok s); [reflexivity | assumption].
Qed.

Lemma preserves_create_entity (e : Store.Entity) : preserves P (create_entity e).
Proof.
  apply preserves_bind; [apply preserves_modify; reflexivity | intros _; apply preserves_emit].
Qed.

Lemma preserves_save (e : Store.Entity) : preserves P (save e).
Proof.
  apply preserves_bind; [apply preserves_modify; reflexivity | intros _; apply preserves_emit].
Qed.

Lemma preserves_delete_instance (e : Store.Entity) : preserves P (delete_instance e).
Proof.
  apply preserves_bind; [apply preserves_modify; reflexivity | intros _; apply preserves_emit].
Qed.

Lemma preserves_error_response (response : ResponseClass) (sys_msg : string)
    (status : StatusCode) (user_msg _type : option string) :
  preserves P (error_response response sys_msg status user_msg _type).
Proof.
  intros s H.
  destruct (ServiceFacts.error_response_run response sys_msg status user_msg _type s)
    as (s' & E & _ & (_ & Ht & _) & _).
  rewrite E. cbn [snd]. now apply (Ptok s).
Qed.

End Rules.

(** Solves [preserves P m] for a step [m] that does not write tokens. *)
Ltac keep Ptok :=
  repeat first
    [ apply preserves_ret
    | apply preserves_raise
    | apply preserves_gets
    | apply (preserves_emit _ Ptok)
    | apply (preserves_logger _ Ptok)
    | apply (preserves_set_details _ Ptok)
    | apply (preserves_set_code _ Ptok)
    | apply (preserves_call _ Ptok)
    | apply (preserves_create_entity _ Ptok)
    | apply (preserves_save _ Ptok)
    | apply (preserves_delete_instance _ Ptok)
    | apply (preserves_error_response _ Ptok)
    | apply preserves_bind; [| intros ?]
    | apply preserves_try; [| intros ?]
    | match goal with
      | |- preserves _ (match ?x with _ => _ end) => destruct x
      end ].

Section TokenFree.
Variable P : State -> Prop.
Hypothesis Ptok : token_only P.

Lemma preserves_validate (request : Request) (response : ResponseClass)
    (required : list Required) :
  preserves P (validate_request_fields request response required).
Proof. unfold validate_request_fields. cbv zeta. keep Ptok. Qed.

Lemma preserves_pow_verification (request : Request) (response : ResponseClass) :
  preserves P (handle_pow_verification request response).
Proof. unfold handle_pow_verification, call_verify_otp. keep Ptok. Qed.

Lemma preserves_pow_initialization (request : Request) (response : ResponseClass) :
  preserves P (handle_pow_initialization request response).
Proof. unfold handle_pow_initialization, call_send_otp. keep Ptok. Qed.

Lemma preserves_verify_llt (request : Request) (response : ResponseClass) :
  preserves P (verify_long_lived_token request response).
Proof. unfold verify_long_lived_token, find_entity. cbv zeta. keep Ptok. Qed.

Lemma preserves_internal_error (response : ResponseClass) (e : Exn) :
  preserves P (internal_error response e).
Proof. unfold internal_error. keep Ptok. Qed.

Lemma preserves_handle_exceptions (response : ResponseClass) (e : Exn) :
  preserves P (handle_exceptions response e).
Proof. unfold handle_exceptions, internal_error. keep Ptok. Qed.

(** Steps made of the helpers above, and of nothing that writes tokens. *)
Ltac keep_all :=
  repeat first
    [ apply preserves_validate
    | apply preserves_pow_verification
    | apply preserves_pow_initialization
    | apply preserves_verify_llt
    | apply preserves_internal_error
    | apply preserves_handle_exceptions
    | progress keep Ptok ].

Lemma preserves_CreateEntity (request : Request) : preserves P (CreateEntity request).
Proof.
  unfold CreateEntity, complete_creation, initiate_creation, find_entity.
  cbv zeta. keep_all.
Qed.

Lemma preserves_AuthenticateEntity (request : Request) :
  preserves P (AuthenticateEntity request).
Proof.
  unfold AuthenticateEntity, complete_authentication, initiate_authentication,
    find_entity.
  cbv zeta. keep_all.
Qed.

Lemma preserves_ListEntityStoredTokens (request : Request) :
  preserves P (ListEntityStoredTokens request).
Proof.
  unfold ListEntityStoredTokens, fetch_entity_tokens_json. cbv zeta. keep_all.
Qed.

Lemma preserves_DecryptPayload (request : Request) :
  preserves P (DecryptPayload request).
Proof.
  unfold DecryptPayload, decode_message, decrypt_message, find_entity.
  cbv zeta. keep_all.
Qed.

Lemma preserves_GetEntityAccessToken (request : Request) :
  preserves P (GetEntityAccessToken request).
Proof.
  unfold GetEntityAccessToken, fetch_tokens, fetch_entity_tokens_json, find_entity.
  cbv zeta. keep_all.
Qed.

Lemma preserves_EncryptPayload (request : Request) :
  preserves P (EncryptPayload request).
Proof. unfold EncryptPayload, find_entity. cbv zeta. keep_all. Qed.

Lemma preserves_DeleteEntity (request : Request) :
  preserves P (DeleteEntity request).
Proof.
  unfold DeleteEntity, fetch_stored_tokens, fetch_entity_tokens_json. cbv zeta.
  keep_all.
Qed.

End TokenFree.

(** *** Every stored token has a whitelisted platform *)

Lemma tokens_supported_token_only : token_only tokens_supported.
Proof. unfold token_only, tokens_supported. now intros s s' ->. Qed.

Lemma fetch_supported (rows : list Store.Token) (e : Store.Entity)
    (p h : option string) (t : Store.Token) (ts : list Store.Token) :
  Forall (fun t => Py.str_in (Py.lower (Store.tok_platform t)) SUPPORTED_PLATFORMS = true)
         rows ->
  Store.fetch_entity_tokens rows e p h = t :: ts ->
  Py.str_in (Py.lower (Store.tok_platform t)) SUPPORTED_PLATFORMS = true.
Proof.
  intros Hall Hf. rewrite Forall_forall in Hall. apply Hall.
  assert (Hin : In t (Store.fetch_entity_tokens rows e p h)) by (rewrite Hf; now left).
  unfold Store.fetch_entity_tokens in Hin. now apply filter_In in Hin.
Qed.

Lemma preserves_StoreEntityToken (request : Request) :
  preserves tokens_supported (StoreEntityToken request).
Proof.
  pose proof tokens_supported_token_only as Ptok.
  unfold StoreEntityToken. cbv zeta.
  apply preserves_try; [| intros e; now apply preserves_handle_exceptions].
  apply preserves_bind; [now apply preserves_validate |].
  intros [r |]; [apply preserves_ret |].
  apply preserves_bind; [now apply preserves_verify_llt |].
  intros [r | entity_obj]; [apply preserves_ret |].
  destruct (platform_supported request) eqn:Hs; cbn [negb]; [| apply preserves_raise].
  unfold fetch_entity_tokens. apply preserves_bind; [apply preserves_gets |].
  intros [| t ts]; [| now apply preserves_error_response].
  apply preserves_bind; [now apply preserves_call |]. intros ct1.
  apply preserves_bind; [now apply preserves_call |]. intros ct2.
  apply preserves_bind; [| intros _; keep Ptok].
  intros s H. unfold create_entity_token. ServiceFacts.mrun.
  unfold tokens_supported in *. cbn [tokens]. unfold Store.create_entity_token.
  apply Forall_app. split; [assumption |]. constructor; [| constructor].
  exact Hs.
Qed.

Lemma preserves_UpdateEntityToken (request : Request) :
  preserves tokens_supported (UpdateEntityToken request).
Proof.
  pose proof tokens_supported_token_only as Ptok.
  unfold UpdateEntityToken. cbv zeta.
  apply preserves_try; [| intros e; now apply preserves_internal_error].
  apply preserves_bind; [now apply preserves_validate |].
  intros [r |]; [apply preserves_ret |].
  unfold find_entity. apply preserves_bind; [apply preserves_gets |].
  intros [entity_obj |]; [| now apply preserves_error_response].
  unfold fetch_entity_tokens. apply preserves_bind_gets. intros s H.
  destruct (Store.fetch_entity_tokens (tokens s) entity_obj _ _) as [| t ts] eqn:Hf.
  { now apply preserves_error_response. }
  pose proof (fetch_supported _ _ _ _ _ _ H Hf) as Ht.
  ServiceFacts.mrun.
  destruct (encrypt_and_encode (ext s) (token request)) as [ct x].
  ServiceFacts.mrun. unfold tokens_supported in *. cbn [tokens].
  unfold Store.save_token. apply Forall_map.
  eapply Forall_impl; [| exact H]. intros r Hr. cbv beta.
  destruct (Nat.eqb (Store.tok_id r) _); [exact Ht | exact Hr].
Qed.

Lemma preserves_DeleteEntityToken (request : Request) :
  preserves tokens_supported (DeleteEntityToken request).
Proof.
  pose proof tokens_supported_token_only as Ptok.
  unfold DeleteEntityToken. cbv zeta.
  apply preserves_try; [| intros e; now apply preserves_handle_exceptions].
  apply preserves_bind; [now apply preserves_validate |].
  intros [r |]; [apply preserves_ret |].
  apply preserves_bind; [now apply preserves_verify_llt |].
  intros [r | entity_obj]; [apply preserves_ret |].
  destruct (platform_supported request); cbn [negb]; [| apply preserves_raise].
  unfold fetch_entity_tokens. apply preserves_bind; [apply preserves_gets |].
  intros [| t ts]; [now apply preserves_error_response |].
  apply preserves_bind; [| intros _; keep Ptok].
  intros s H. unfold delete_token_instance. ServiceFacts.mrun.
  unfold tokens_supported in *. cbn [tokens]. unfold Store.delete_token.
  rewrite Forall_forall in *. intros r Hr. apply filter_In in Hr. now apply H.
Qed.

Lemma serve_tokens_supported (m : Rpc) (request : Request) (s : State) :
  tokens_supported s -> tokens_supported (snd (serve m request s)).
Proof.
  intros H. unfold serve.
  assert (H0 : tokens_supported (with_context s fresh_context)) by exact H.
  pose proof tokens_supported_token_only as Ptok.
  destruct m; cbn [handler].
  - now apply preserves_CreateEntity.
  - now apply preserves_AuthenticateEntity.
  - now apply preserves_ListEntityStoredTokens.
  - now apply preserves_StoreEntityToken.
  - now apply preserves_DecryptPayload.
  - now apply preserves_GetEntityAccessToken.
  - now apply preserves_EncryptPayload.
  - now apply preserves_UpdateEntityToken.
  - now apply preserves_DeleteEntityToken.
  - now apply preserves_DeleteEntity.
Qed.

Lemma run_tokens_supported (calls : list (Rpc * Request)) (s : State) :
  tokens_supported s -> tokens_supported (run calls s).
Proof.
  revert s. induction calls as [| [m request] rest IH]; intros s H; [exact H |].
  cbn [run]. apply IH. now apply serve_tokens_supported.
Qed.

(** Only [StoreEntityToken] adds a token, and it adds it after the
    whitelist test: a reachable database holds whitelisted platforms. *)
Lemma reachable_tokens_supported (s : State) : reachable s -> tokens_supported s.
Proof.
  intros (x & calls & ->). apply run_tokens_supported. constructor.
Qed.

End WithCollaborators.
End Invariants.

(* ------------------------------------------------------------------ *)
(** ** UpdateEntityToken *)

Module UpdateEntityTokenFacts.
Import Grpc Effects Service Observations.

Section WithCollaborators.
Context {C : Collaborators}.

(** No whitelisted row carries a platform that fails the whitelist test. *)
Lemma no_row_for_unsupported (request : Request) (s : State) (e : Store.Entity)
    (h : option string) :
  tokens_supported s ->
  platform_supported request = false ->
  Store.fetch_entity_tokens (tokens s) e (Some (platform request)) h = [].
Proof.
  intros Hall Hu.
  destruct (Store.fetch_entity_tokens (tokens s) e (Some (platform request)) h)
    as [| t ts] eqn:Hf; [reflexivity | exfalso].
  pose proof (Invariants.fetch_supported _ _ _ _ _ _ Hall Hf) as Ht.
  assert (Hin : In t (Store.fetch_entity_tokens (tokens s) e (Some (platform request)) h))
    by (rewrite Hf; now left).
  unfold Store.fetch_entity_tokens in Hin. apply filter_In in Hin as [_ Hm].
  apply andb_prop in Hm as [Hm _]. apply andb_prop in Hm as [_ Hm].
  cbn [Store.opt_matches] in Hm. apply String.eqb_eq in Hm.
  unfold platform_supported in Hu. rewrite <- Hm, Ht in Hu. discriminate.
Qed.

(** C10. [UpdateEntityToken] has no whitelist test. In every state the
    service reaches, a request that passed its field validation and
    whose [device_id] is the one of an entity, for a platform that fails
    the whitelist test of the sibling handlers, finds no token row and
    answers NOT_FOUND, not UNIMPLEMENTED; nothing is written. *)
Theorem update_token_unsupported_not_found (request : Request) (s : State)
    (e : Store.Entity) :
  reachable s ->
  present request [F_device_id; F_token; F_platform; F_account_identifier] ->
  device_authenticates request s e ->
  platform_supported request = false ->
  rejected_with (UpdateEntityToken request s) UpdateEntityTokenResponse NOT_FOUND
    (no_token_found (account_identifier request) (platform request)) s.
Proof.
  intros Hr Hp Ha Hu. apply Invariants.reachable_tokens_supported in Hr.
  unfold UpdateEntityToken. ServiceFacts.mrun.
  pose proof (ServiceFacts.validate_present request UpdateEntityTokenResponse
                [F_device_id; F_token; F_platform; F_account_identifier] s Hp eq_refl)
    as Hv.
  cbn [map] in Hv. rewrite Hv. ServiceFacts.mrun.
  unfold device_authenticates in Ha. rewrite Ha.
  rewrite (no_row_for_unsupported request s e _ Hr Hu).
  unfold rejected_with. cbn [fst snd]. repeat split.
Qed.

End WithCollaborators.

(** The whitelist test lowercases the platform, the rows keep it as it was
    sent: a platform name that differs from a whitelisted one by case
    passes the test, is stored, and is then found by the update. *)
Example update_of_case_variant :
  Py.str_in "Gmail" SUPPORTED_PLATFORMS = false
  /\ platform_supported Scenario.update_capital = true
  /\ Scenario.response_of
       (Scenario.call RpcUpdateEntityToken Scenario.update_capital Scenario.s7)
     = mkResponse UpdateEntityTokenResponse "Token updated successfully." true false 0
         "" "" "" [] "" "" "".
Proof. split; [reflexivity | split; [reflexivity | vm_refl]]. Qed.

Lemma update_token_unsupported_not_found_witness :
  rejected_with (C := Demo.collaborators)
    (UpdateEntityToken Scenario.update_twitter Scenario.s3) UpdateEntityTokenResponse
    NOT_FOUND (no_token_found "a@x" "twitter") Scenario.s3.
Proof.
  apply (update_token_unsupported_not_found (C := Demo.collaborators)
           Scenario.update_twitter Scenario.s3 Scenario.entity_a).
  - exists [], Scenario.history. vm_refl.
  - repeat constructor.
  - vm_refl.
  - reflexivity.
Defined.

End UpdateEntityTokenFacts.

(* ------------------------------------------------------------------ *)
(** ** DeleteEntity *)

Module DeleteEntityFacts.
Import Grpc Effects Service Observations.

Lemma append_assoc (a b c : string) : ((a ++ b) ++ c = a ++ (b ++ c))%string.
Proof. induction a as [| x a IH]; cbn; [reflexivity | now rewrite IH]. Qed.

Lemma find_after_delete (rows : list Store.Entity) (e : Store.Entity) :
  Store.find_entity (Store.delete_entity rows e) (Store.by_eid (Store.eid e)) = None.
Proof.
  unfold Store.find_entity, Store.delete_entity.
  induction rows as [| r rows IH]; [reflexivity |].
  cbn [filter]. destruct (String.eqb (Store.eid r) (Store.eid e)) eqn:E; cbn [negb].
  - exact IH.
  - cbn [find Store.entity_matches]. now rewrite E.
Qed.

Section WithCollaborators.
Context {C : Collaborators}.

(** The text the handler builds for one stored token. *)
Lemma token_text_of_row (t : Store.Token) :
  Py.str_dict
    [("account_identifier",
      getitem (token_info_of (decrypt_fields ["account_identifier"]
                                (Store.project t ["account_identifier"; "platform"])))
              "account_identifier");
     ("platform",
      getitem (token_info_of (decrypt_fields ["account_identifier"]
                                (Store.project t ["account_identifier"; "platform"])))
              "platform")]
  = token_text t.
Proof.
  destruct t as [i ent pl h ai at']. unfold token_text, Py.str_dict.
  cbn -[Py.repr append].
  change (Py.repr "account_identifier") with "'account_identifier'".
  change (Py.repr "platform") with "'platform'".
  rewrite !append_assoc. reflexivity.
Qed.

Lemma token_details_text (toks : list Store.Token) :
  token_details_of
    (map token_info_of
         (map (decrypt_fields ["account_identifier"])
              (map (fun t => Store.project t ["account_identifier"; "platform"]) toks)))
  = Py.join "; " (map token_text toks).
Proof.
  unfold token_details_of. rewrite !map_map. f_equal.
  apply map_ext. intros t. apply token_text_of_row.
Qed.

(** C7. [DeleteEntity] with a long-lived token that verifies for entity
    [e]. When [e] has stored tokens the call answers FAILED_PRECONDITION,
    its message lists for each of them the decrypted account identifier
    and the platform, and no row of either table changes. When [e] has
    none, the entity row is deleted and the success response returned. *)
Theorem delete_entity_precondition (request : Request) (s : State) (e : Store.Entity) :
  llt_authenticates request DeleteEntityResponse s e ->
  let stored := Store.fetch_entity_tokens (tokens s) e None None in
  let o := DeleteEntity request s in
  (stored <> [] ->
   rejected_with o DeleteEntityResponse FAILED_PRECONDITION
     (cannot_delete (Py.join "; " (map token_text stored))) s)
  /\ (stored = [] ->
      fst o = Return (mkResponse DeleteEntityResponse "Entity deleted successfully."
                        true false 0 "" "" "" [] "" "" "")
      /\ entities (snd o) = Store.delete_entity (entities s) e
      /\ Store.find_entity (entities (snd o)) (Store.by_eid (Store.eid e)) = None
      /\ tokens (snd o) = tokens s
      /\ trace (snd o) = trace s ++ [EntityDeleted e]
      /\ context (snd o) = context s).
Proof.
  intros Ha stored o. subst o.
  assert (Hp : present request [F_long_lived_token]).
  { constructor; [| constructor].
    exact (ServiceFacts.llt_authenticates_present _ _ _ _ Ha). }
  unfold DeleteEntity. ServiceFacts.mrun.
  pose proof (ServiceFacts.validate_present request DeleteEntityResponse
                [F_long_lived_token] s Hp eq_refl) as Hv.
  cbn [map] in Hv. rewrite Hv. ServiceFacts.mrun. rewrite Ha. ServiceFacts.mrun.
  unfold fetch_stored_tokens. ServiceFacts.mrun.
  unfold Store.fetch_entity_tokens_json. fold stored.
  destruct stored as [| t ts] eqn:Es.
  - cbn [map]. ServiceFacts.mrun. split; [congruence | intros _].
    repeat split. apply find_after_delete.
  - split; [intros _ | discriminate].
    pose proof (token_details_text (t :: ts)) as Ht.
    cbn [map] in Ht |- *. ServiceFacts.mrun. rewrite Ht.
    unfold rejected_with. cbn [fst snd]. repeat split.
Qed.

End WithCollaborators.

Lemma delete_entity_precondition_witness :
  rejected_with (C := Demo.collaborators) (DeleteEntity Scenario.delete_a Scenario.s3)
    DeleteEntityResponse FAILED_PRECONDITION
    (cannot_delete "{'account_identifier': 'a@x', 'platform': 'gmail'}") Scenario.s3
  /\ Store.find_entity
       (entities (snd (DeleteEntity (C := Demo.collaborators) Scenario.delete_a Scenario.s2)))
       (Store.by_eid Scenario.eid_a) = None.
Proof.
  split.
  - destruct (delete_entity_precondition (C := Demo.collaborators) Scenario.delete_a
                Scenario.s3 Scenario.entity_a) as [H _].
    + vm_refl.
    + apply H. vm_compute. discriminate.
  - destruct (delete_entity_precondition (C := Demo.collaborators) Scenario.delete_a
                Scenario.s2 Scenario.entity_a) as [_ H].
    + vm_refl.
    + apply H. reflexivity.
Defined.

End DeleteEntityFacts.

(* ------------------------------------------------------------------ *)
(** ** GetEntityAccessToken *)

Module GetEntityAccessTokenFacts.
Import Grpc Effects Service Observations.

Section WithCollaborators.
Context {C : Collaborators}.

Lemma get_ignores_device_id (request : Request) (s : State) :
  Py.truthy (long_lived_token request) = true ->
  GetEntityAccessToken request s = GetEntityAccessToken (without_device_id request) s.
Proof.
  destruct request as [ph cc pw k1 k2 opr llt tk pl ai dev pc pp].
  cbn [long_lived_token]. intros Hl.
  destruct llt as [| c llt]; [discriminate |].
  destruct dev as [| d dev]; reflexivity.
Qed.

(** C6, amended. [GetEntityAccessToken] wants at least one of
    [long_lived_token] and [device_id]: with neither it answers
    INVALID_ARGUMENT and names the alternative as
    [(device_id or long_lived_token)]; with either one the validation of
    a request that has its platform and account identifier passes; and
    with both the long-lived token is the authenticator and the device
    id is not looked at. *)
Theorem get_token_authenticators (request : Request) (s : State) :
  (Py.truthy (device_id request) = false ->
   Py.truthy (long_lived_token request) = false ->
   rejected_with (GetEntityAccessToken request s) GetEntityAccessTokenResponse
     INVALID_ARGUMENT
     ("Missing required fields: "
      ++ Py.join ", " ("(device_id or long_lived_token)"
                       :: flat_map (missing_of request)
                            [One F_platform; One F_account_identifier])) s)
  /\ (Py.truthy (long_lived_token request) = true \/ Py.truthy (device_id request) = true ->
      present request [F_platform; F_account_identifier] ->
      validate_request_fields request GetEntityAccessTokenResponse
        [AnyOf [F_device_id; F_long_lived_token]; One F_platform; One F_account_identifier] s
      = (Return None, s))
  /\ (Py.truthy (long_lived_token request) = true ->
      GetEntityAccessToken request s
      = GetEntityAccessToken (without_device_id request) s).
Proof.
  split; [| split].
  - intros Hd Hl. unfold GetEntityAccessToken. ServiceFacts.mrun.
    destruct (ServiceFacts.validate_missing request GetEntityAccessTokenResponse
                [AnyOf [F_device_id; F_long_lived_token]; One F_platform;
                 One F_account_identifier] s
                "(device_id or long_lived_token)"
                (flat_map (missing_of request) [One F_platform; One F_account_identifier]))
      as (s' & E & Hc & Hq).
    { cbn [flat_map missing_of existsb getattr]. rewrite Hd, Hl. reflexivity. }
    rewrite E. ServiceFacts.mrun. unfold rejected_with. cbn [fst snd]. intuition auto.
  - apply PlatformFacts.get_validates.
  - apply get_ignores_device_id.
Qed.

End WithCollaborators.

(** With both authenticators the call proceeds and returns the token. *)
Example get_both_succeeds :
  Scenario.response_of (Scenario.call RpcGetEntityAccessToken Scenario.get_both Scenario.s3)
  = mkResponse GetEntityAccessTokenResponse "Successfully fetched tokens." true false 0
      "" "" "" [] "T" "" "".
Proof. vm_refl. Qed.

(** C6 as the specification words it, on that request: it fails. *)
Lemma exactly_one_authenticator_fails :
  ~ AsStated.exactly_one_authenticator (C := Demo.collaborators)
      Scenario.get_both Scenario.s3.
Proof.
  unfold AsStated.exactly_one_authenticator. intros H.
  specialize (H eq_refl eq_refl). vm_compute in H. discriminate H.
Qed.

Lemma get_token_authenticators_witness :
  GetEntityAccessToken (C := Demo.collaborators) Scenario.get_both Scenario.s3
  = GetEntityAccessToken (C := Demo.collaborators)
      (without_device_id Scenario.get_both) Scenario.s3
  /\ validate_request_fields (C := Demo.collaborators) Scenario.get_both
       GetEntityAccessTokenResponse
       [AnyOf [F_device_id; F_long_lived_token]; One F_platform; One F_account_identifier]
       Scenario.s3
     = (Return None, Scenario.s3)
  /\ code (context (snd (GetEntityAccessToken (C := Demo.collaborators)
                           Scenario.create1 Scenario.s3))) = INVALID_ARGUMENT.
Proof.
  destruct (get_token_authenticators (C := Demo.collaborators) Scenario.get_both
              Scenario.s3) as (_ & H2 & H3).
  destruct (get_token_authenticators (C := Demo.collaborators) Scenario.create1
              Scenario.s3) as (H1 & _ & _).
  split; [apply H3; reflexivity | split].
  - apply H2; [left; reflexivity | repeat constructor].
  - destruct (H1 eq_refl eq_refl) as (_ & Hc & _). rewrite Hc. reflexivity.
Defined.

End GetEntityAccessTokenFacts.

(* ------------------------------------------------------------------ *)
(** ** AuthenticateEntity *)

Module AuthenticateEntityFacts.
Import Grpc Effects Service Observations.

(** After [save], the lookup that found the entity finds the saved record. *)
Lemma find_after_save (rows : list Store.Entity) (h : string) (e e0 : Store.Entity) :
  Store.find_entity rows (Store.by_phone_number_hash h) = Some e ->
  Store.eid e0 = Store.eid e ->
  Store.phone_number_hash e0 = Store.phone_number_hash e ->
  Store.find_entity (Store.save_entity rows e0) (Store.by_phone_number_hash h) = Some e0.
Proof.
  unfold Store.find_entity, Store.save_entity. intros Hf He Hh.
  assert (Hm : String.eqb (Store.phone_number_hash e0) h = true).
  { apply find_some in Hf as [_ Hm]. cbn in Hm. now rewrite Hh. }
  induction rows as [| r rows IH]; [discriminate |].
  cbn [map find Store.entity_matches] in *.
  destruct (String.eqb (Store.eid r) (Store.eid e0)) eqn:Er.
  - now rewrite Hm.
  - destruct (String.eqb (Store.phone_number_hash r) h) eqn:Ehr.
    + injection Hf as ->. rewrite He, String.eqb_refl in Er. discriminate.
    + now apply IH.
Qed.

Section WithCollaborators.
Context {C : Collaborators}.

Lemma validate_one (request : Request) (f : Field) (s : State) :
  Py.truthy (getattr request f) = true ->
  existsb (field_eqb f) x25519_fields = false ->
  validate_request_fields request AuthenticateEntityResponse [One f] s = (Return None, s).
Proof.
  intros Ht Hx.
  apply (ServiceFacts.validate_present request AuthenticateEntityResponse [f] s).
  - now constructor.
  - unfold x25519_fields in *. cbn [existsb] in *.
    destruct (field_eqb f F_client_publish_pub_key) eqn:E1; [discriminate |].
    destruct (field_eqb f F_client_device_id_pub_key) eqn:E2; [discriminate |].
    destruct f; reflexivity || discriminate.
Qed.

(** Phase 1, once the password is verified: the OTP is sent first; the
    entity is cleared and saved only when the gateway reports success. *)
Lemma initiate_authentication_run (request : Request) (s : State) (e : Store.Entity)
    (ok : bool) (msg : string) (expires : Z) (x' : Ext) :
  let h := generate_hmac HASHING_KEY (phone_number request) in
  let o := AuthenticateEntity request s in
  let e0 := set_entity_server_state (set_entity_device_id e None) None in
  Py.truthy (phone_number request) = true ->
  Py.truthy (password request) = true ->
  Py.truthy (ownership_proof_response request) = false ->
  Store.find_entity (entities s) (Store.by_phone_number_hash h) = Some e ->
  verify_hmac HASHING_KEY (password request) (Store.password_hash e) = true ->
  send_otp (ext s) (phone_number request) = ((ok, msg, expires), x') ->
  if ok then
    trace (snd o) = trace s ++ [SendOtp (phone_number request); EntitySaved e0]
    /\ entities (snd o) = Store.save_entity (entities s) e0
    /\ Store.find_entity (entities (snd o)) (Store.by_phone_number_hash h) = Some e0
    /\ fst o = Return (mkResponse AuthenticateEntityResponse msg false true expires
                         "" "" "" [] "" "" "")
  else
    trace (snd o) = trace s ++ [SendOtp (phone_number request)]
    /\ entities (snd o) = entities s
    /\ code (context (snd o)) = INVALID_ARGUMENT.
Proof.
  intros h o e0 Hph Hpw Hopr Hf Hv Ho. subst o.
  unfold AuthenticateEntity. ServiceFacts.mrun.
  rewrite (validate_one request F_phone_number s Hph eq_refl). ServiceFacts.mrun.
  fold h. rewrite Hf, Hopr.
  unfold initiate_authentication. ServiceFacts.mrun.
  rewrite (validate_one request F_password s Hpw eq_refl). ServiceFacts.mrun.
  rewrite Hv. unfold handle_pow_initialization. ServiceFacts.mrun.
  rewrite Ho. destruct ok; ServiceFacts.mrun.
  - fold e0. rewrite <- app_assoc. cbn [app].
    split; [reflexivity | split; [reflexivity | split; [| reflexivity]]].
    now apply (find_after_save _ _ e).
  - repeat split.
Qed.

(** Phase 2, once the two public keys are validated: the entity is
    written only after the OTP is verified, with a new device id and the
    server state it had. *)
Lemma complete_authentication_run (request : Request) (s : State) (e : Store.Entity)
    (ok : bool) (msg : string) (x' : Ext) :
  let h := generate_hmac HASHING_KEY (phone_number request) in
  let o := AuthenticateEntity request s in
  Py.truthy (phone_number request) = true ->
  Py.truthy (ownership_proof_response request) = true ->
  Store.find_entity (entities s) (Store.by_phone_number_hash h) = Some e ->
  validate_request_fields request AuthenticateEntityResponse
    [One F_client_publish_pub_key; One F_client_device_id_pub_key] s = (Return None, s) ->
  verify_otp (ext s) (phone_number request) (ownership_proof_response request)
  = ((ok, msg), x') ->
  if ok then
    exists e' key,
      trace (snd o)
      = trace s ++ [VerifyOtp (phone_number request) (ownership_proof_response request);
                    EntitySaved e']
      /\ entities (snd o) = Store.save_entity (entities s) e'
      /\ Store.eid e' = Store.eid e
      /\ Store.device_id e'
         = Some (DeviceId.compute_device_id key (phone_number request)
                   (client_device_id_pub_key request))
      /\ Store.server_state e' = Store.server_state e
  else
    trace (snd o)
    = trace s ++ [VerifyOtp (phone_number request) (ownership_proof_response request)]
    /\ entities (snd o) = entities s
    /\ code (context (snd o)) = UNAUTHENTICATED.
Proof.
  intros h o Hph Hopr Hf Hk Ho. subst o.
  unfold AuthenticateEntity. ServiceFacts.mrun.
  rewrite (validate_one request F_phone_number s Hph eq_refl). ServiceFacts.mrun.
  fold h. rewrite Hf, Hopr.
  unfold complete_authentication. ServiceFacts.mrun.
  rewrite Hk. unfold handle_pow_verification. ServiceFacts.mrun.
  rewrite Ho. destruct ok; ServiceFacts.mrun.
  - destruct (generate_keypair_and_public_key x' _) as [[kp1 pk1] x1].
    ServiceFacts.mrun.
    destruct (generate_keypair_and_public_key x1 _) as [[kp2 pk2] x2].
    ServiceFacts.mrun.
    destruct (generate_llt x2 _ _) as [llt x3].
    ServiceFacts.mrun. rewrite <- app_assoc. cbn [app].
    eexists _, _. repeat split.
  - repeat split.
Qed.

(** C2, amended. In phase 1 of [AuthenticateEntity], after the password
    is verified, the OTP send call is made first; when the gateway
    reports success the stored [device_id] and [server_state] of the
    entity are then set to null, before the response is returned, and
    when it reports failure they stay as they were. In phase 2 the
    entity is written only after the OTP is verified: [device_id] is
    then set again and [server_state] is left as it is. *)
Theorem authenticate_clears_after_otp_send (request : Request) (s : State)
    (e : Store.Entity) :
  let h := generate_hmac HASHING_KEY (phone_number request) in
  let o := AuthenticateEntity request s in
  let e0 := set_entity_server_state (set_entity_device_id e None) None in
  Py.truthy (phone_number request) = true ->
  Store.find_entity (entities s) (Store.by_phone_number_hash h) = Some e ->
  (Py.truthy (ownership_proof_response request) = false ->
   Py.truthy (password request) = true ->
   verify_hmac HASHING_KEY (password request) (Store.password_hash e) = true ->
   forall ok msg expires x',
     send_otp (ext s) (phone_number request) = ((ok, msg, expires), x') ->
     if ok then
       trace (snd o) = trace s ++ [SendOtp (phone_number request); EntitySaved e0]
       /\ Store.device_id e0 = None /\ Store.server_state e0 = None
       /\ entities (snd o) = Store.save_entity (entities s) e0
       /\ Store.find_entity (entities (snd o)) (Store.by_phone_number_hash h) = Some e0
       /\ fst o = Return (mkResponse AuthenticateEntityResponse msg false true expires
                            "" "" "" [] "" "" "")
     else
       trace (snd o) = trace s ++ [SendOtp (phone_number request)]
       /\ entities (snd o) = entities s)
  /\ (Py.truthy (ownership_proof_response request) = true ->
      validate_request_fields request AuthenticateEntityResponse
        [One F_client_publish_pub_key; One F_client_device_id_pub_key] s
      = (Return None, s) ->
      forall ok msg x',
        verify_otp (ext s) (phone_number request) (ownership_proof_response request)
        = ((ok, msg), x') ->
        if ok then
          exists e' key,
            trace (snd o)
            = trace s ++ [VerifyOtp (phone_number request)
                            (ownership_proof_response request); EntitySaved e']
            /\ entities (snd o) = Store.save_entity (entities s) e'
            /\ Store.eid e' = Store.eid e
            /\ Store.device_id e'
               = Some (DeviceId.compute_device_id key (phone_number request)
                         (client_device_id_pub_key request))
            /\ Store.server_state e' = Store.server_state e
        else
          trace (snd o)
          = trace s ++ [VerifyOtp (phone_number request)
                          (ownership_proof_response request)]
          /\ entities (snd o) = entities s).
Proof.
  intros h o e0 Hph Hf. split.
  - intros Hopr Hpw Hv ok msg expires x' Ho.
    pose proof (initiate_authentication_run request s e ok msg expires x'
                  Hph Hpw Hopr Hf Hv Ho) as H.
    cbv zeta in H. fold h o e0 in H. destruct ok.
    + destruct H as (H1 & H2 & H3 & H4). repeat split; assumption.
    + destruct H as (H1 & H2 & _). split; assumption.
  - intros Hopr Hk ok msg x' Ho.
    pose proof (complete_authentication_run request s e ok msg x' Hph Hopr Hf Hk Ho)
      as H.
    cbv zeta in H. fold h o in H. destruct ok.
    + exact H.
    + destruct H as (H1 & H2 & _). split; assumption.
Qed.

(** What [AuthenticateEntity] answers to an unknown phone number and to
    a wrong password. *)
Lemma authenticate_unknown_phone (request : Request) (s : State) :
  Py.truthy (phone_number request) = true ->
  Store.find_entity (entities s)
    (Store.by_phone_number_hash (generate_hmac HASHING_KEY (phone_number request)))
  = None ->
  rejected_with (AuthenticateEntity request s) AuthenticateEntityResponse NOT_FOUND
    ("Entity with phone number `" ++ phone_number request ++ "` not found.") s.
Proof.
  intros Hph Hf. unfold AuthenticateEntity. ServiceFacts.mrun.
  rewrite (validate_one request F_phone_number s Hph eq_refl). ServiceFacts.mrun.
  rewrite Hf. unfold rejected_with. cbn [fst snd]. repeat split.
Qed.

Lemma authenticate_wrong_password (request : Request) (s : State) (e : Store.Entity) :
  Py.truthy (phone_number request) = true ->
  Py.truthy (password request) = true ->
  Py.truthy (ownership_proof_response request) = false ->
  Store.find_entity (entities s)
    (Store.by_phone_number_hash (generate_hmac HASHING_KEY (phone_number request)))
  = Some e ->
  verify_hmac HASHING_KEY (password request) (Store.password_hash e) = false ->
  rejected_with (AuthenticateEntity request s) AuthenticateEntityResponse UNAUTHENTICATED
    incorrect_credentials s.
Proof.
  intros Hph Hpw Hopr Hf Hv. unfold AuthenticateEntity. ServiceFacts.mrun.
  rewrite (validate_one request F_phone_number s Hph eq_refl). ServiceFacts.mrun.
  rewrite Hf, Hopr. unfold initiate_authentication. ServiceFacts.mrun.
  rewrite (validate_one request F_password s Hpw eq_refl). ServiceFacts.mrun.
  rewrite Hv. unfold rejected_with. cbn [fst snd]. repeat split.
Qed.

(** C9, amended. The failures of the long-lived-token check are not told
    apart: whether the signature, the expiry or the eid inside the
    payload fails, or no entity has the eid, the answer is the same
    empty response, the same status UNAUTHENTICATED and the same generic
    message. [AuthenticateEntity] does tell its two failures apart: an
    unknown phone number gives NOT_FOUND and a message that names the
    number, a wrong password gives UNAUTHENTICATED and the
    incorrect-credentials message. *)
Theorem failure_messages (response : ResponseClass) :
  (forall request1 request2 s1 s2 r1 r2 s1' s2',
      verify_long_lived_token request1 response s1 = (Return (inl r1), s1') ->
      verify_long_lived_token request2 response s2 = (Return (inl r2), s2') ->
      r1 = r2 /\ context s1' = context s2'
      /\ context s1' = mkContext (Some session_expired) UNAUTHENTICATED)
  /\ (forall request s,
         Py.truthy (phone_number request) = true ->
         Store.find_entity (entities s)
           (Store.by_phone_number_hash
              (generate_hmac HASHING_KEY (phone_number request))) = None ->
         rejected_with (AuthenticateEntity request s) AuthenticateEntityResponse
           NOT_FOUND
           ("Entity with phone number `" ++ phone_number request ++ "` not found.") s)
  /\ (forall request s e,
         Py.truthy (phone_number request) = true ->
         Py.truthy (password request) = true ->
         Py.truthy (ownership_proof_response request) = false ->
         Store.find_entity (entities s)
           (Store.by_phone_number_hash
              (generate_hmac HASHING_KEY (phone_number request))) = Some e ->
         verify_hmac HASHING_KEY (password request) (Store.password_hash e) = false ->
         rejected_with (AuthenticateEntity request s) AuthenticateEntityResponse
           UNAUTHENTICATED incorrect_credentials s).
Proof.
  split; [| split].
  - intros request1 request2 s1 s2 r1 r2 s1' s2' H1 H2.
    assert (K : forall request s r s',
               verify_long_lived_token request response s = (Return (inl r), s') ->
               r = empty_response response /\
               context s' = mkContext (Some session_expired) UNAUTHENTICATED).
    { intros request s r s' H.
      destruct (ServiceFacts.verify_long_lived_token_cases request response s)
        as [(e & eid & llt & p & err & Hv & _) | (t & E & Hc & _)].
      - rewrite Hv in H. discriminate.
      - rewrite E in H. injection H as <- <-. now split. }
    destruct (K _ _ _ _ H1) as [-> E1]. destruct (K _ _ _ _ H2) as [-> E2].
    rewrite E1, E2. repeat split.
  - apply authenticate_unknown_phone.
  - apply authenticate_wrong_password.
Qed.

End WithCollaborators.

(** The run of phase 1 on the small instance: the OTP is sent while the
    entity still has its device id and its server state. *)
Example phase1_events :
  new_events (C := Demo.collaborators) Scenario.s4
    (snd (Scenario.call RpcAuthenticateEntity Scenario.auth1 Scenario.s4))
  = [SendOtp Scenario.phone; EntitySaved Scenario.cleared_a].
Proof. vm_refl. Qed.

(** C2 as the specification words it, on that run: it fails. The entity
    has a device id and a server state when the call starts, and no save
    comes before the OTP is sent. *)
Lemma otp_sent_before_clearing :
  ~ AsStated.cleared_before_otp_send Scenario.entity_a4
      (new_events (C := Demo.collaborators) Scenario.s4
         (snd (Scenario.call RpcAuthenticateEntity Scenario.auth1 Scenario.s4))).
Proof.
  rewrite phase1_events. unfold AsStated.cleared_before_otp_send. intros H.
  destruct (H [] Scenario.phone [EntitySaved Scenario.cleared_a] eq_refl)
    as [[Hd _] | (e & Hin & _)].
  - discriminate Hd.
  - exact Hin.
Qed.

Lemma authenticate_clears_after_otp_send_witness :
  trace (snd (AuthenticateEntity (C := Demo.collaborators) Scenario.auth1 Scenario.s4))
  = trace Scenario.s4 ++ [SendOtp Scenario.phone; EntitySaved Scenario.cleared_a]
  /\ exists e' key,
       trace (snd (AuthenticateEntity (C := Demo.collaborators) Scenario.auth2 Scenario.s5))
       = trace Scenario.s5 ++ [VerifyOtp Scenario.phone "123456"; EntitySaved e']
       /\ Store.device_id e'
          = Some (DeviceId.compute_device_id key Scenario.phone Scenario.pub_a)
       /\ Store.server_state e' = None.
Proof.
  split.
  - destruct (authenticate_clears_after_otp_send (C := Demo.collaborators)
                Scenario.auth1 Scenario.s4 Scenario.entity_a4 eq_refl eq_refl)
      as [H _].
    exact (proj1 (H eq_refl eq_refl eq_refl true "OTP sent" 1700000600
                    [Scenario.phone] eq_refl)).
  - destruct (authenticate_clears_after_otp_send (C := Demo.collaborators)
                Scenario.auth2 Scenario.s5 Scenario.cleared_a eq_refl eq_refl)
      as [_ H].
    destruct (H eq_refl eq_refl true "OTP verified" [] eq_refl)
      as (e' & key & H1 & _ & _ & H4 & H5).
    exists e', key. repeat split; assumption.
Defined.

(** C9 as the specification words it, on two failing calls with one
    request: the wrong password of a known phone number and the unknown
    phone number are answered differently. *)
Lemma authenticate_reveals_failure_class :
  ~ AsStated.indistinguishable (C := Demo.collaborators)
      (Scenario.call RpcAuthenticateEntity Scenario.auth_wrong Scenario.s2)
      (Scenario.call RpcAuthenticateEntity Scenario.auth_wrong Scenario.s0).
Proof.
  unfold AsStated.indistinguishable. intros H. vm_compute in H. discriminate H.
Qed.

Lemma failure_messages_witness :
  context (snd (verify_long_lived_token (C := Demo.collaborators) Scenario.cross_pasted
                  DeleteEntityResponse Scenario.s2))
  = context (snd (verify_long_lived_token (C := Demo.collaborators)
                    (Scenario.with_llt Scenario.llt_a) DeleteEntityResponse Scenario.s0))
  /\ rejected_with (C := Demo.collaborators)
       (AuthenticateEntity Scenario.auth_wrong Scenario.s0) AuthenticateEntityResponse
       NOT_FOUND "Entity with phone number `+237600000001` not found." Scenario.s0
  /\ rejected_with (C := Demo.collaborators)
       (AuthenticateEntity Scenario.auth_wrong Scenario.s2) AuthenticateEntityResponse
       UNAUTHENTICATED incorrect_credentials Scenario.s2.
Proof.
  destruct (failure_messages (C := Demo.collaborators) DeleteEntityResponse)
    as (H1 & H2 & H3).
  split; [| split].
  - destruct (verify_long_lived_token Scenario.cross_pasted DeleteEntityResponse
                Scenario.s2) as [o1 t1] eqn:E1.
    destruct (verify_long_lived_token (Scenario.with_llt Scenario.llt_a)
                DeleteEntityResponse Scenario.s0) as [o2 t2] eqn:E2.
    assert (F1 : exists r, o1 = Return (inl r)).
    { apply (f_equal fst) in E1. vm_compute in E1. subst o1. eexists. reflexivity. }
    assert (F2 : exists r, o2 = Return (inl r)).
    { apply (f_equal fst) in E2. vm_compute in E2. subst o2. eexists. reflexivity. }
    destruct F1 as [r1 ->]. destruct F2 as [r2 ->].
    exact (proj1 (proj2 (H1 _ _ _ _ _ _ _ _ E1 E2))).
  - apply (H2 Scenario.auth_wrong Scenario.s0); reflexivity.
  - apply (H3 Scenario.auth_wrong Scenario.s2 Scenario.entity_a); reflexivity.
Defined.

End AuthenticateEntityFacts.

(* ------------------------------------------------------------------ *)
(** ** EncryptPayload *)

Module EncryptPayloadFacts.
Import Grpc Effects Service Observations.

Section WithCollaborators.
Context {C : Collaborators}.

(** C1. What [EncryptPayload] does for a request with a valid
    [device_id] and a non-empty [payload_plaintext]: it answers success
    with [payload_ciphertext] equal to the plaintext it was given, and
    the state is exactly what it was; no ratchet step is run and no
    [server_state] is saved. *)
Theorem encrypt_payload_returns_plaintext (request : Request) (s : State)
    (e : Store.Entity) :
  present request [F_device_id; F_payload_plaintext] ->
  device_authenticates request s e ->
  EncryptPayload request s
  = (Return (mkResponse EncryptPayloadResponse "Successfully encrypted payload."
               true false 0 "" "" "" [] "" "" (payload_plaintext request)),
     s).
Proof.
  intros Hp Ha. unfold EncryptPayload. ServiceFacts.mrun.
  pose proof (ServiceFacts.validate_present request EncryptPayloadResponse
                [F_device_id; F_payload_plaintext] s Hp eq_refl) as Hv.
  cbn [map] in Hv. rewrite Hv. ServiceFacts.mrun.
  unfold device_authenticates in Ha. rewrite Ha. reflexivity.
Qed.

End WithCollaborators.

Lemma encrypt_payload_returns_plaintext_witness :
  resp_payload_ciphertext
    (Scenario.response_of (EncryptPayload (C := Demo.collaborators) Scenario.encrypt_a
                             Scenario.s4)) = "hello"
  /\ snd (EncryptPayload (C := Demo.collaborators) Scenario.encrypt_a Scenario.s4)
     = Scenario.s4.
Proof.
  rewrite (encrypt_payload_returns_plaintext (C := Demo.collaborators) Scenario.encrypt_a
             Scenario.s4 Scenario.entity_a4).
  - split; reflexivity.
  - repeat constructor.
  - reflexivity.
Defined.

End EncryptPayloadFacts.

(* ------------------------------------------------------------------ *)
(** ** How every call ends *)

Module OutcomeFacts.
Import Grpc Effects Service Observations Outcomes.

(** Evaluates [Py.truthy] on a text whose first character is known. *)
Ltac known_truthy :=
  match goal with
  | |- context [Py.truthy ?m] =>
      let v := eval vm_compute in (Py.truthy m) in
      lazymatch v with
      | true => change (Py.truthy m) with true
      | false => change (Py.truthy m) with false
      end
  end.

(** Splits on the innermost value the run waits for. *)
Ltac break_scrutinee :=
  match goal with
  | |- context [match ?v with _ => _ end] =>
      lazymatch v with
      | context [match _ with _ => _ end] => fail
      | _ => destruct v eqn:?
      end
  end.

(** Follows every path of a handler. *)
Ltac all_paths :=
  repeat (ServiceFacts.mrun; repeat known_truthy; cbv beta iota;
          try break_scrutinee).

Ltac unfold_handlers :=
  unfold CreateEntity, complete_creation, initiate_creation,
    AuthenticateEntity, complete_authentication, initiate_authentication,
    ListEntityStoredTokens, StoreEntityToken, DecryptPayload, decode_message,
    decrypt_message, GetEntityAccessToken, fetch_tokens, EncryptPayload,
    UpdateEntityToken, DeleteEntityToken, DeleteEntity, fetch_stored_tokens,
    validate_request_fields, verify_long_lived_token, handle_pow_verification,
    handle_pow_initialization.

Ltac close_ends_well :=
  unfold ends_well, same_store; cbn [fst snd];
  eexists; split; [reflexivity |]; split; [reflexivity |];
  first
    [ left; reflexivity
    | right; split; [reflexivity |]; split; [discriminate |];
      split; [eexists; split; reflexivity | repeat split] ].

Section WithCollaborators.
Context {C : Collaborators}.

Lemma serve_ends_well (m : Rpc) (request : Request) (s : State) :
  ends_well m s (serve m request s).
Proof.
  unfold serve. destruct m; cbn [handler response_class]; unfold_handlers;
    all_paths; close_ends_well.
Qed.

(** X2. Status, details and response go together: a call that ends with
    a status other than OK returns the empty response of its class and
    has set non-empty details; a call that ends with OK has set no
    details. *)
Theorem status_details_response (m : Rpc) (request : Request) (s : State) :
  let o := serve m request s in
  (code (context (snd o)) <> OK ->
   fst o = Return (empty_response (response_class m)) /\
   exists msg, details (context (snd o)) = Some msg /\ Py.truthy msg = true)
  /\ (code (context (snd o)) = OK -> details (context (snd o)) = None).
Proof.
  intros o. subst o.
  destruct (serve_ends_well m request s) as (r & Hr & _ & [Hf | (-> & Hn & Hd & _)]).
  - rewrite Hf. split; [intros H; now elim H | reflexivity].
  - split; [intros _; now split | intros H; contradiction].
Qed.

(** X3. A call that ends with a status other than OK has written nothing:
    the entity table, the token table and the next token id are what
    they were. *)
Theorem failed_call_writes_nothing (m : Rpc) (request : Request) (s : State) :
  code (context (snd (serve m request s))) <> OK ->
  same_store s (snd (serve m request s)).
Proof.
  intros Hn.
  destruct (serve_ends_well m request s) as (r & _ & _ & [Hf | (_ & _ & _ & Hs)]).
  - rewrite Hf in Hn. now elim Hn.
  - exact Hs.
Qed.

Lemma reading_rpc_quiet (m : Rpc) (request : Request) (s : State) :
  reading_rpc m = true -> quiet s (snd (serve m request s)).
Proof.
  unfold serve. destruct m; intros H; try discriminate H; cbn [handler];
    unfold_handlers; all_paths; repeat split.
Qed.

(** X4. [ListEntityStoredTokens], [GetEntityAccessToken] and
    [EncryptPayload] only read: whatever the request, neither table
    changes, no collaborator that keeps state is called, and no write
    is traced. *)
Theorem reading_rpcs_write_nothing (request : Request) (s : State) :
  quiet s (snd (serve RpcListEntityStoredTokens request s))
  /\ quiet s (snd (serve RpcGetEntityAccessToken request s))
  /\ quiet s (snd (serve RpcEncryptPayload request s)).
Proof. repeat split; now apply reading_rpc_quiet. Qed.

Lemma tables_apart (m : Rpc) (request : Request) (s : State) :
  if token_rpc m then entities (snd (serve m request s)) = entities s
  else tokens (snd (serve m request s)) = tokens s /\
       next_token_id (snd (serve m request s)) = next_token_id s.
Proof.
  unfold serve. destruct m; cbn [handler token_rpc];
    unfold_handlers; all_paths; repeat split.
Qed.

(** X5. The token handlers never write the entity table, and the other
    handlers never write the token table; not even [DeleteEntity] does. *)
Theorem handlers_keep_to_their_table (m : Rpc) (request : Request) (s : State) :
  (token_rpc m = true -> entities (snd (serve m request s)) = entities s)
  /\ (token_rpc m = false ->
      tokens (snd (serve m request s)) = tokens s /\
      next_token_id (snd (serve m request s)) = next_token_id s).
Proof.
  pose proof (tables_apart m request s) as H.
  destruct (token_rpc m); split; intros E; try discriminate E; exact H.
Qed.

(** X6. Under the logging interceptor every call leaves exactly one
    access line, after whatever the handler logged; the line is an INFO
    line reading OK when the handler set no status, and otherwise an
    ERROR line with the name of the status the handler set. The response
    and the rest of the state are those of the handler. *)
Theorem interceptor_logs_the_status (m : Rpc) (request : Request)
    (method_name peer now : string) (s : State) :
  let o := serve m request s in
  Server.intercepted m request method_name peer now s
  = (fst o, with_log (snd o) (log (snd o) ++ [access_line method_name peer now (snd o)])).
Proof.
  intros o. subst o. unfold Server.intercepted, Server.intercept, access_line.
  pose proof (serve_ends_well m request s) as H. unfold serve in *.
  ServiceFacts.mrun.
  destruct (handler m request (with_context s fresh_context)) as [out s'].
  destruct H as (r & Hr & _ & H). cbn [fst snd] in *. subst out.
  destruct H as [Hf | (_ & Hn & (msg & Hd & Ht) & _)].
  - rewrite Hf. reflexivity.
  - rewrite Hd. cbn [Py.truthy_opt]. rewrite Ht. ServiceFacts.mrun.
    destruct (code (context s')); [now elim Hn | reflexivity ..].
Qed.

End WithCollaborators.

Lemma status_details_response_witness :
  fst (Scenario.call RpcAuthenticateEntity Scenario.auth_wrong Scenario.s0)
  = Return (empty_response AuthenticateEntityResponse)
  /\ details (context (snd (Scenario.call RpcCreateEntity Scenario.create1 Scenario.s0)))
     = None.
Proof.
  split.
  - apply (status_details_response (C := Demo.collaborators) RpcAuthenticateEntity
             Scenario.auth_wrong Scenario.s0).
    vm_compute. discriminate.
  - apply (status_details_response (C := Demo.collaborators) RpcCreateEntity
             Scenario.create1 Scenario.s0).
    vm_compute. reflexivity.
Defined.

Lemma failed_call_writes_nothing_witness :
  same_store (C := Demo.collaborators) Scenario.s2
    (snd (Scenario.call RpcAuthenticateEntity Scenario.auth_wrong Scenario.s2)).
Proof.
  apply (failed_call_writes_nothing (C := Demo.collaborators)).
  vm_compute. discriminate.
Defined.

Lemma handlers_keep_to_their_table_witness :
  entities (snd (Scenario.call RpcStoreEntityToken Scenario.store_gmail Scenario.s2))
  = entities Scenario.s2
  /\ tokens (snd (Scenario.call RpcDeleteEntity Scenario.delete_a Scenario.s2))
     = tokens Scenario.s2.
Proof.
  split.
  - apply (handlers_keep_to_their_table (C := Demo.collaborators) RpcStoreEntityToken).
    reflexivity.
  - apply (handlers_keep_to_their_table (C := Demo.collaborators) RpcDeleteEntity).
    reflexivity.
Defined.

End OutcomeFacts.

(* ------------------------------------------------------------------ *)
(** ** The verdict of the request validation *)

Module ValidationFacts.
Import Grpc Effects Service Observations Outcomes.

Lemma prefix_append (p x : string) : String.prefix p (p ++ x) = true.
Proof.
  induction p as [| c p IH]; [now destruct x |].
  cbn [append String.prefix]. now destruct (ascii_dec c c).
Qed.

Section WithCollaborators.
Context {C : Collaborators}.

Lemma missing_nil_iff (request : Request) (required : list Required) :
  flat_map (missing_of request) required = [] <-> all_supplied request required = true.
Proof.
  induction required as [| r rs IH]; [now split |].
  cbn [flat_map all_supplied forallb]. fold (all_supplied request rs).
  rewrite andb_true_iff, <- IH. split.
  - intros H. apply app_eq_nil in H as [H1 H2]. split; [| exact H2].
    destruct r; cbn [missing_of supplied] in *.
    + destruct (Py.truthy (getattr request f)); [reflexivity | discriminate H1].
    + destruct (existsb _ fs); [reflexivity | discriminate H1].
  - intros [H1 H2]. rewrite H2, app_nil_r.
    destruct r; cbn [missing_of supplied] in *; now rewrite H1.
Qed.

Lemma invalid_nil_iff (request : Request) (required : list Required) :
  flat_map (invalid_of request)
           (filter (fun f => is_required f required) x25519_fields) = []
  <-> keys_valid request required = true.
Proof.
  unfold keys_valid, x25519_fields, invalid_of. cbn [filter forallb].
  destruct (is_required F_client_publish_pub_key required),
           (is_required F_client_device_id_pub_key required);
    cbn [flat_map negb orb andb app];
    repeat match goal with
           | |- context [is_valid_x25519_public_key ?x] =>
               destruct (is_valid_x25519_public_key x) as [[|] ?]
           end;
    cbn [fst negb andb app]; split; intros H; try reflexivity; discriminate H.
Qed.

(** X7. [validate_request_fields] lets a request pass, and leaves the
    state alone, exactly when every required entry is supplied and every
    X25519 key required by name is valid. Otherwise it answers with the
    empty response and INVALID_ARGUMENT; what is missing is reported
    before any key is looked at. *)
Theorem validation_verdict (request : Request) (response : ResponseClass)
    (required : list Required) (s : State) :
  let o := validate_request_fields request response required s in
  if all_supplied request required && keys_valid request required
  then o = (Return None, s)
  else exists msg,
         fst o = Return (Some (empty_response response)) /\
         context (snd o) = mkContext (Some msg) INVALID_ARGUMENT /\
         quiet s (snd o) /\
         String.prefix (if all_supplied request required
                        then "Invalid fields: "
                        else "Missing required fields: ") msg = true.
Proof.
  intros o. subst o. unfold validate_request_fields.
  pose proof (missing_nil_iff request required) as Hm.
  pose proof (invalid_nil_iff request required) as Hi.
  destruct (flat_map (missing_of request) required) as [| m ms].
  - rewrite (proj1 Hm eq_refl). cbn [andb].
    destruct (flat_map (invalid_of request) _) as [| i is_].
    + now rewrite (proj1 Hi eq_refl).
    + destruct (keys_valid request required);
        [destruct Hi as [_ Hi]; discriminate (Hi eq_refl) |].
      ServiceFacts.mrun. eexists. cbn [fst snd].
      split; [reflexivity |]. split; [reflexivity |].
      split; [repeat split | apply prefix_append].
  - destruct (all_supplied request required);
      [destruct Hm as [_ Hm]; discriminate (Hm eq_refl) |].
    cbn [andb]. ServiceFacts.mrun. eexists. cbn [fst snd].
    split; [reflexivity |]. split; [reflexivity |].
    split; [repeat split | apply prefix_append].
Qed.

End WithCollaborators.
End ValidationFacts.

(* ------------------------------------------------------------------ *)
(** ** What holds of the database in every state the service reaches *)

Module StoreFacts.
Import Grpc Effects Service Observations Outcomes.

(** *** Lists *)

Lemma NoDup_snoc {A} (l : list A) (a : A) : NoDup l -> ~ In a l -> NoDup (l ++ [a]).
Proof.
  intros Hl Ha. apply NoDup_app; [exact Hl | repeat constructor; intros [] |].
  intros b Hb [<- | []]. now apply Ha.
Qed.

Lemma distinct_after_filter {A B} (key : A -> B) (keep : A -> bool) (rows : list A) :
  NoDup (map key rows) -> NoDup (map key (filter keep rows)).
Proof.
  induction rows as [| a rows IH]; cbn [map filter]; [easy |].
  intros H. inversion H as [| ? ? Hn Hl]; subst.
  destruct (keep a); cbn [map]; [| now apply IH].
  constructor; [| now apply IH].
  intros Hin. apply Hn. apply in_map_iff in Hin as (b & Hb & Hin).
  apply filter_In in Hin as [Hin _]. apply in_map_iff. now exists b.
Qed.

Lemma NoDup_map_same {A B} (f : A -> B) (l : list A) (a b : A) :
  NoDup (map f l) -> In a l -> In b l -> f a = f b -> a = b.
Proof.
  induction l as [| c l IH]; cbn [map]; [easy |].
  intros H Ha Hb E. inversion H as [| ? ? Hn Hl]; subst.
  destruct Ha as [-> | Ha], Hb as [-> | Hb]; [reflexivity | | |].
  - elim Hn. rewrite E. now apply in_map.
  - elim Hn. rewrite <- E. now apply in_map.
  - now apply IH.
Qed.

(** *** The store *)

Lemma fetch_in (rows : list Store.Token) (e : Store.Entity) (p h : option string)
    (t : Store.Token) :
  In t (Store.fetch_entity_tokens rows e p h) <->
  In t rows /\ Store.tok_entity t = Store.eid e /\
  Store.opt_matches p (Store.tok_platform t) = true /\
  Store.opt_matches h (Store.tok_account_identifier_hash t) = true.
Proof.
  unfold Store.fetch_entity_tokens. rewrite filter_In, !andb_true_iff, String.eqb_eq.
  tauto.
Qed.

Lemma fetch_key (rows : list Store.Token) (e : Store.Entity) (p h : string)
    (t : Store.Token) :
  In t (Store.fetch_entity_tokens rows e (Some p) (Some h)) <->
  In t rows /\ token_key t = (Store.eid e, p, h).
Proof.
  rewrite fetch_in. cbn [Store.opt_matches]. rewrite !String.eqb_eq. unfold token_key.
  split.
  - intros (H & -> & -> & ->). now split.
  - intros (H & E). injection E as -> -> ->. now repeat split.
Qed.

Lemma fetch_none_key (rows : list Store.Token) (e : Store.Entity) (p h : string) :
  Store.fetch_entity_tokens rows e (Some p) (Some h) = [] ->
  ~ In (Store.eid e, p, h) (map token_key rows).
Proof.
  intros H Hin. apply in_map_iff in Hin as (t & Hk & Ht).
  assert (Hf : In t (Store.fetch_entity_tokens rows e (Some p) (Some h)))
    by now apply fetch_key.
  now rewrite H in Hf.
Qed.

Lemma fetch_first (rows : list Store.Token) (e : Store.Entity) (p h : string)
    (t : Store.Token) (ts : list Store.Token) :
  Store.fetch_entity_tokens rows e (Some p) (Some h) = t :: ts ->
  In t rows /\ token_key t = (Store.eid e, p, h).
Proof. intros H. apply fetch_key. rewrite H. now left. Qed.

Lemma json_none (rows : list Store.Token) (e : Store.Entity) (p h : option string)
    (fields : list string) (f : Py.dict string -> Py.dict string) :
  map f (Store.fetch_entity_tokens_json rows e p h fields) = [] ->
  Store.fetch_entity_tokens rows e p h = [].
Proof.
  unfold Store.fetch_entity_tokens_json. intros H.
  apply map_eq_nil in H. now apply map_eq_nil in H.
Qed.

Lemma save_entity_eids (rows : list Store.Entity) (e : Store.Entity) :
  map Store.eid (Store.save_entity rows e) = map Store.eid rows.
Proof.
  unfold Store.save_entity. rewrite map_map. apply map_ext. intros r.
  destruct (String.eqb (Store.eid r) (Store.eid e)) eqn:E; [| reflexivity].
  apply String.eqb_eq in E. now symmetry.
Qed.

Lemma owner_iff (rows : list Store.Entity) (x : string) :
  (exists e, In e rows /\ Store.eid e = x) <-> In x (map Store.eid rows).
Proof.
  rewrite in_map_iff. split; intros (e & H1 & H2); exists e; tauto.
Qed.

Lemma save_token_map {B} (f : Store.Token -> B) (rows : list Store.Token)
    (t t' : Store.Token) :
  NoDup (map Store.tok_id rows) -> In t rows ->
  Store.tok_id t' = Store.tok_id t -> f t' = f t ->
  map f (Store.save_token rows t') = map f rows.
Proof.
  intros Hn Ht Hid Hf. unfold Store.save_token. rewrite map_map.
  apply map_ext_in. intros r Hr.
  destruct (Nat.eqb (Store.tok_id r) (Store.tok_id t')) eqn:E; [| reflexivity].
  apply Nat.eqb_eq in E. rewrite Hid in E.
  now rewrite (NoDup_map_same Store.tok_id rows r t Hn Hr Ht E).
Qed.

Section WithCollaborators.
Context {C : Collaborators}.

(** *** Each write keeps the database consistent *)

Lemma consistent_frame (s s' : State) :
  store_consistent s ->
  entities s' = entities s -> tokens s' = tokens s ->
  next_token_id s' = next_token_id s ->
  store_consistent s'.
Proof.
  unfold store_consistent, token_ids_fresh, one_token_per_account, tokens_owned.
  intros H -> -> ->. exact H.
Qed.

Lemma consistent_create_entity (s s' : State) (e : Store.Entity) :
  store_consistent s ->
  entities s' = Store.create_entity (entities s) e -> tokens s' = tokens s ->
  next_token_id s' = next_token_id s ->
  store_consistent s'.
Proof.
  unfold store_consistent, token_ids_fresh, one_token_per_account, tokens_owned.
  intros (H1 & H2 & H3) -> -> ->. split; [exact H1 |]. split; [exact H2 |].
  eapply Forall_impl; [| exact H3]. cbn beta. intros t (e0 & Hin & E).
  exists e0. split; [| exact E]. unfold Store.create_entity. apply in_or_app. now left.
Qed.

Lemma consistent_save_entity (s s' : State) (e : Store.Entity) :
  store_consistent s ->
  entities s' = Store.save_entity (entities s) e -> tokens s' = tokens s ->
  next_token_id s' = next_token_id s ->
  store_consistent s'.
Proof.
  unfold store_consistent, token_ids_fresh, one_token_per_account, tokens_owned.
  intros (H1 & H2 & H3) -> -> ->. split; [exact H1 |]. split; [exact H2 |].
  eapply Forall_impl; [| exact H3]. cbn beta. intros t Ht.
  apply owner_iff. rewrite save_entity_eids. now apply owner_iff.
Qed.

Lemma consistent_delete_entity (s s' : State) (e : Store.Entity)
    (f : Py.dict string -> Py.dict string) (fields : list string) :
  store_consistent s ->
  map f (Store.fetch_entity_tokens_json (tokens s) e None None fields) = [] ->
  entities s' = Store.delete_entity (entities s) e -> tokens s' = tokens s ->
  next_token_id s' = next_token_id s ->
  store_consistent s'.
Proof.
  unfold store_consistent, token_ids_fresh, one_token_per_account, tokens_owned.
  intros (H1 & H2 & H3) Hf -> -> ->. split; [exact H1 |]. split; [exact H2 |].
  apply json_none in Hf. rewrite Forall_forall in *. intros t Ht.
  destruct (H3 t Ht) as (e0 & Hin & E). exists e0. split; [| exact E].
  unfold Store.delete_entity. apply filter_In. split; [exact Hin |].
  apply negb_true_iff. apply not_true_is_false. intros Heq.
  apply String.eqb_eq in Heq.
  assert (Hx : In t (Store.fetch_entity_tokens (tokens s) e None None)).
  { apply fetch_in. cbn [Store.opt_matches]. repeat split; [exact Ht | congruence]. }
  now rewrite Hf in Hx.
Qed.

Lemma consistent_create_token (s s' : State) (e : Store.Entity) (k : Store.EntityKey)
    (p h a b : string) :
  store_consistent s ->
  Store.find_entity (entities s) k = Some e ->
  Store.fetch_entity_tokens (tokens s) e (Some p) (Some h) = [] ->
  entities s' = entities s ->
  tokens s' = Store.create_entity_token (tokens s)
                (Store.mkToken (next_token_id s) (Store.eid e) p h a b) ->
  next_token_id s' = S (next_token_id s) ->
  store_consistent s'.
Proof.
  unfold store_consistent, token_ids_fresh, one_token_per_account, tokens_owned.
  intros ((H1 & H1') & H2 & H3) Hfind Hnone -> -> ->.
  unfold Store.create_entity_token. rewrite !map_app. cbn [map].
  split; [split |]; [| | split].
  - apply Forall_app. split; [| repeat constructor; cbn; lia].
    eapply Forall_impl; [| exact H1]. cbn beta. intros; lia.
  - apply NoDup_snoc; [exact H1' |]. cbn [Store.tok_id]. intros Hin.
    apply in_map_iff in Hin as (t & E & Hin).
    rewrite Forall_forall in H1. specialize (H1 t Hin). lia.
  - apply NoDup_snoc; [exact H2 |]. now apply fetch_none_key.
  - apply Forall_app. split; [exact H3 |]. repeat constructor.
    exists e. cbn [Store.tok_entity]. split; [| reflexivity].
    unfold Store.find_entity in Hfind. now apply find_some in Hfind.
Qed.

Lemma consistent_save_token (s s' : State) (e : Store.Entity) (p h v : string)
    (t : Store.Token) (ts : list Store.Token) :
  store_consistent s ->
  Store.fetch_entity_tokens (tokens s) e (Some p) (Some h) = t :: ts ->
  entities s' = entities s ->
  tokens s' = Store.save_token (tokens s) (set_token_account_tokens t v) ->
  next_token_id s' = next_token_id s ->
  store_consistent s'.
Proof.
  unfold store_consistent, token_ids_fresh, one_token_per_account, tokens_owned.
  intros ((H1 & H1') & H2 & H3) Hf -> -> ->.
  apply fetch_first in Hf as [Hin _].
  pose proof (fun B (f : Store.Token -> B) =>
                save_token_map f (tokens s) t (set_token_account_tokens t v)
                  H1' Hin eq_refl) as Hm.
  split; [split |]; [| | split].
  - apply (Forall_map Store.tok_id (fun i => (i < next_token_id s)%nat)).
    rewrite Hm by reflexivity. now apply Forall_map.
  - now rewrite Hm.
  - now rewrite Hm.
  - apply (Forall_map Store.tok_entity
             (fun x => exists e0, In e0 (entities s) /\ Store.eid e0 = x)).
    rewrite Hm by reflexivity. now apply Forall_map.
Qed.

Lemma consistent_delete_token (s s' : State) (t : Store.Token) :
  store_consistent s ->
  entities s' = entities s ->
  tokens s' = Store.delete_token (tokens s) t ->
  next_token_id s' = next_token_id s ->
  store_consistent s'.
Proof.
  unfold store_consistent, token_ids_fresh, one_token_per_account, tokens_owned.
  intros ((H1 & H1') & H2 & H3) -> -> ->. unfold Store.delete_token.
  split; [split |]; [| | split].
  - rewrite Forall_forall in *. intros r Hr. apply filter_In in Hr. now apply H1.
  - now apply distinct_after_filter.
  - now apply distinct_after_filter.
  - rewrite Forall_forall in *. intros r Hr. apply filter_In in Hr. now apply H3.
Qed.

Ltac keep_consistent H :=
  first
    [ eapply consistent_frame; [exact H | reflexivity ..]
    | eapply consistent_create_entity; [exact H | reflexivity ..]
    | eapply consistent_save_entity; [exact H | reflexivity ..]
    | eapply consistent_delete_entity; [exact H | eassumption | reflexivity ..]
    | eapply consistent_create_token;
      [exact H | eassumption | eassumption | reflexivity ..]
    | eapply consistent_save_token; [exact H | eassumption | reflexivity ..]
    | eapply consistent_delete_token; [exact H | reflexivity ..] ].

Lemma serve_keeps_store (m : Rpc) (request : Request) (s : State) :
  store_consistent s -> store_consistent (snd (serve m request s)).
Proof.
  unfold serve. destruct m; cbn [handler]; OutcomeFacts.unfold_handlers;
    OutcomeFacts.all_paths; intros H; cbn [snd]; keep_consistent H.
Qed.

Lemma run_keeps_store (calls : list (Rpc * Request)) (s : State) :
  store_consistent s -> store_consistent (run calls s).
Proof.
  revert s. induction calls as [| [m request] rest IH]; intros s H; [exact H |].
  cbn [run]. apply IH. now apply serve_keeps_store.
Qed.

Lemma reachable_consistent (s : State) : reachable s -> store_consistent s.
Proof.
  intros (x & calls & ->). apply run_keeps_store.
  unfold store_consistent, token_ids_fresh, one_token_per_account, tokens_owned, initial.
  cbn. repeat split; constructor.
Qed.

(** X8. In every state the service reaches from an empty database, the
    rows of the token table have distinct ids below the next id, and no
    two of them are for the same entity, platform and account
    identifier hash. *)
Theorem reachable_one_token_per_account (s : State) :
  reachable s -> token_ids_fresh s /\ one_token_per_account s.
Proof.
  intros H. apply reachable_consistent in H as (H1 & H2 & _). now split.
Qed.

(** X9. In every state the service reaches from an empty database, each
    token belongs to an entity that is in the entity table:
    [DeleteEntity] goes through only for an entity without tokens, and
    no other handler removes an entity. *)
Theorem reachable_tokens_owned (s : State) : reachable s -> tokens_owned s.
Proof.
  intros H. now apply reachable_consistent in H as (_ & _ & H3).
Qed.

End WithCollaborators.


Lemma reachable_one_token_per_account_witness :
  token_ids_fresh (C := Demo.collaborators) Scenario.s3
  /\ one_token_per_account (C := Demo.collaborators) Scenario.s3.
Proof.
  apply (reachable_one_token_per_account (C := Demo.collaborators)).
  exists [], Scenario.history. vm_refl.
Defined.

Lemma reachable_tokens_owned_witness :
  tokens_owned (C := Demo.collaborators) Scenario.s3.
Proof.
  apply (reachable_tokens_owned (C := Demo.collaborators)).
  exists [], Scenario.history. vm_refl.
Defined.

End StoreFacts.

(* ------------------------------------------------------------------ *)
(** ** One call after another *)

Module LifecycleFacts.
Import Grpc Effects Service Observations Outcomes.

(** Settles the first premise of the goal once the run has decided it: a
    path on which it has become absurd ends, one on which it holds goes
    on without it. *)
Ltac settle_premise :=
  lazymatch goal with
  | |- forall x, x = ?t -> _ =>
      lazymatch t with
      | context [match _ with _ => _ end] => fail
      | _ => let y := fresh x in intros y ->
      end
  | |- (?a = ?a) -> _ => intros _
  | |- (?a <> ?a) -> _ => let H := fresh in intro H; now elim H
  | |- (?a = ?b) -> _ => let H := fresh in intro H; discriminate H
  | |- (?a <> ?b) -> _ =>
      let H := fresh in
      assert (H : a <> b) by discriminate; clear H; intros _
  end.

(** Uses what an earlier step of the run has found of a value it waits
    for. *)
Ltac use_known :=
  match goal with
  | H : ?x = _ |- context [match ?x with _ => _ end] => rewrite H
  end.

(** Opens the validation of a request on a given list of fields. *)
Ltac open_validation :=
  cbn [flat_map missing_of getattr app map field_name];
  repeat match goal with
         | |- context [filter ?f x25519_fields] =>
             let v := eval vm_compute in (filter f x25519_fields) in
             change (filter f x25519_fields) with v
         end;
  cbn [flat_map getattr app field_name existsb]; unfold orb, invalid_of.

Ltac paths_with hook :=
  repeat (open_validation; ServiceFacts.mrun; repeat OutcomeFacts.known_truthy;
          cbv beta iota; unfold platform_supported;
          cbn [code details fresh_context phone_number country_code password
               client_publish_pub_key client_device_id_pub_key
               ownership_proof_response long_lived_token token platform
               account_identifier device_id payload_ciphertext payload_plaintext];
          try first [ settle_premise | hook | use_known
                    | OutcomeFacts.break_scrutinee ]).

Lemma get_account_tokens (v : string) :
  Py.get [("account_tokens", v)] "account_tokens" = Some v.
Proof. reflexivity. Qed.

Section WithCollaborators.
Context {C : Collaborators}.

Lemma fetch_json_after_create (rows : list Store.Token) (e : Store.Entity)
    (n : nat) (p h a b : string) :
  Store.fetch_entity_tokens rows e (Some p) (Some h) = [] ->
  map (decrypt_fields ["account_tokens"])
      (Store.fetch_entity_tokens_json
         (Store.create_entity_token rows (Store.mkToken n (Store.eid e) p h a b))
         e (Some p) (Some h) ["account_tokens"])
  = [[("account_tokens", decrypt_and_decode b)]].
Proof.
  intros H. unfold Store.fetch_entity_tokens_json, Store.create_entity_token,
    Store.fetch_entity_tokens in *.
  rewrite filter_app, H. cbn [filter app Store.tok_entity Store.tok_platform
    Store.tok_account_identifier_hash Store.opt_matches].
  now rewrite !String.eqb_refl.
Qed.

(** X10. What [StoreEntityToken] stores, [GetEntityAccessToken] gives
    back. After a store that ended with OK, a request with the same
    long-lived token, platform and account identifier, if the token is
    still accepted, is answered with the token that was stored, provided
    decryption undoes encryption. The call writes nothing. *)
Theorem stored_token_is_returned (store get : Request) (s : State) :
  (forall x p, decrypt_and_decode (fst (encrypt_and_encode x p)) = p) ->
  long_lived_token get = long_lived_token store ->
  platform get = platform store ->
  account_identifier get = account_identifier store ->
  let s' := snd (serve RpcStoreEntityToken store s) in
  let o := serve RpcGetEntityAccessToken get s' in
  code (context s') = OK ->
  code (context (snd o)) <> UNAUTHENTICATED ->
  fst o = Return (mkResponse GetEntityAccessTokenResponse
                    "Successfully fetched tokens." true false 0 "" "" "" []
                    (token store) "" "")
  /\ context (snd o) = fresh_context
  /\ quiet s' (snd o).
Proof.
  intros Hinv Hl Hp Ha. cbv zeta. intros Hok Hna.
  remember (snd (serve RpcStoreEntityToken store s)) as s1 eqn:E1.
  remember (serve RpcGetEntityAccessToken get s1) as o2 eqn:E2.
  revert o2 E2 Hna. revert s1 E1 Hok.
  unfold serve. cbn [handler]. OutcomeFacts.unfold_handlers.
  destruct get. cbn [long_lived_token platform account_identifier] in *. subst.
  paths_with ltac:(
    idtac; match goal with
    | H : Store.fetch_entity_tokens _ _ _ _ = [] |- _ =>
        rewrite (fetch_json_after_create _ _ _ _ _ _ _ H)
    end).
  all: try rewrite get_account_tokens in *.
  all: try match goal with
           | H : Some _ = None |- _ => discriminate H
           | H : Some _ = Some _ |- _ => injection H as <-
           end.
  all: try (split; [| split; [reflexivity | repeat split]]).
  all: try match goal with
           | H : encrypt_and_encode ?x (token ?r) = _ |- _ =>
               rewrite <- (Hinv x (token r)), H; reflexivity
           end.
Qed.

Lemma fetch_after_create (rows : list Store.Token) (e : Store.Entity)
    (n : nat) (p h a b : string) :
  Store.fetch_entity_tokens rows e (Some p) (Some h) = [] ->
  Store.fetch_entity_tokens
    (Store.create_entity_token rows (Store.mkToken n (Store.eid e) p h a b))
    e (Some p) (Some h)
  = [Store.mkToken n (Store.eid e) p h a b].
Proof.
  intros H. unfold Store.create_entity_token, Store.fetch_entity_tokens in *.
  rewrite filter_app, H. cbn [filter app Store.tok_entity Store.tok_platform
    Store.tok_account_identifier_hash Store.opt_matches].
  now rewrite !String.eqb_refl.
Qed.

(** X11. A second token for the same account is refused. After a store
    that ended with OK, a store with the same long-lived token, platform
    and account identifier, whatever its token, ends with ALREADY_EXISTS
    and writes nothing, if the long-lived token is still accepted. *)
Theorem second_store_already_exists (store again : Request) (s : State) :
  long_lived_token again = long_lived_token store ->
  platform again = platform store ->
  account_identifier again = account_identifier store ->
  Py.truthy (token again) = true ->
  let s' := snd (serve RpcStoreEntityToken store s) in
  let o := serve RpcStoreEntityToken again s' in
  code (context s') = OK ->
  code (context (snd o)) <> UNAUTHENTICATED ->
  rejected_with o StoreEntityTokenResponse ALREADY_EXISTS
    ("Entity already has a token associated with account identifier "
     ++ account_identifier store ++ " for " ++ platform store) s'.
Proof.
  intros Hl Hp Ha Ht. cbv zeta. unfold rejected_with. intros Hok Hna.
  remember (snd (serve RpcStoreEntityToken store s)) as s1 eqn:E1.
  remember (serve RpcStoreEntityToken again s1) as o2 eqn:E2.
  revert o2 E2 Hna. revert s1 E1 Hok.
  unfold serve. cbn [handler]. OutcomeFacts.unfold_handlers.
  destruct again. cbn [long_lived_token platform account_identifier token] in *. subst.
  paths_with ltac:(
    idtac; match goal with
    | H : Store.fetch_entity_tokens _ _ _ _ = [] |- _ =>
        rewrite (fetch_after_create _ _ _ _ _ _ _ H)
    end).
  all: try congruence.
  all: repeat split.
Qed.

Lemma fetch_after_delete (rows : list Store.Token) (e : Store.Entity)
    (p h : string) (t : Store.Token) (ts : list Store.Token) :
  NoDup (map token_key rows) ->
  Store.fetch_entity_tokens rows e (Some p) (Some h) = t :: ts ->
  Store.fetch_entity_tokens (Store.delete_token rows t) e (Some p) (Some h) = [].
Proof.
  intros Hn Hf. destruct (StoreFacts.fetch_first _ _ _ _ _ _ Hf) as [Hin Hk].
  destruct (Store.fetch_entity_tokens (Store.delete_token rows t) e (Some p) (Some h))
    as [| u us] eqn:E; [reflexivity | exfalso].
  assert (Hu : In u (u :: us)) by now left.
  rewrite <- E in Hu. apply StoreFacts.fetch_key in Hu as [Hu Hku].
  unfold Store.delete_token in Hu. apply filter_In in Hu as [Hu Hid].
  assert (u = t) by (apply (StoreFacts.NoDup_map_same token_key rows); congruence).
  subst u. now rewrite Nat.eqb_refl in Hid.
Qed.

Lemma fetch_json_after_delete (rows : list Store.Token) (e : Store.Entity)
    (p h : string) (t : Store.Token) (ts : list Store.Token)
    (f : Py.dict string -> Py.dict string) (fields : list string) :
  NoDup (map token_key rows) ->
  Store.fetch_entity_tokens rows e (Some p) (Some h) = t :: ts ->
  map f (Store.fetch_entity_tokens_json (Store.delete_token rows t) e (Some p) (Some h)
           fields) = [].
Proof.
  intros Hn Hf. unfold Store.fetch_entity_tokens_json.
  now rewrite (fetch_after_delete _ _ _ _ _ _ Hn Hf).
Qed.

(** X12. A deleted token is gone. In a state the service reaches, after
    a [DeleteEntityToken] that ended with OK, the same request sent
    again, or sent to [GetEntityAccessToken], ends with NOT_FOUND and
    writes nothing. *)
Theorem deleted_token_is_gone (request : Request) (s : State) :
  reachable s ->
  let s' := snd (serve RpcDeleteEntityToken request s) in
  code (context s') = OK ->
  rejected_with (serve RpcDeleteEntityToken request s') DeleteEntityTokenResponse
    NOT_FOUND (no_token_found (account_identifier request) (platform request)) s'
  /\ rejected_with (serve RpcGetEntityAccessToken request s')
       GetEntityAccessTokenResponse NOT_FOUND
       (no_token_found (account_identifier request) (platform request)) s'.
Proof.
  intros Hr. apply StoreFacts.reachable_consistent in Hr as (_ & Hn & _).
  unfold one_token_per_account in Hn.
  cbv zeta. unfold rejected_with. intros Hok.
  remember (snd (serve RpcDeleteEntityToken request s)) as s1 eqn:E1.
  remember (serve RpcDeleteEntityToken request s1) as o2 eqn:E2.
  remember (serve RpcGetEntityAccessToken request s1) as o3 eqn:E3.
  revert o3 E3. revert o2 E2. revert s1 E1 Hok.
  unfold serve. cbn [handler]. OutcomeFacts.unfold_handlers.
  paths_with ltac:(
    idtac; match goal with
    | H : Store.fetch_entity_tokens _ _ _ _ = _ :: _ |- _ =>
        first [ rewrite (fetch_after_delete _ _ _ _ _ _ Hn H)
              | rewrite (fetch_json_after_delete _ _ _ _ _ _ _ _ Hn H) ]
    end).
  all: repeat split.
Qed.

Lemma find_after_delete_by (rows : list Store.Entity) (e : Store.Entity) (x : string) :
  Store.find_entity rows (Store.by_eid x) = Some e ->
  Store.find_entity (Store.delete_entity rows e) (Store.by_eid x) = None.
Proof.
  intros H. unfold Store.find_entity in H. apply find_some in H as [_ H].
  cbn [Store.entity_matches] in H. apply String.eqb_eq in H. subst x.
  apply DeleteEntityFacts.find_after_delete.
Qed.

(** X13. The long-lived token of a deleted entity opens nothing. After a
    [DeleteEntity] that ended with OK, the same request sent again, or
    sent to [ListEntityStoredTokens], ends with UNAUTHENTICATED and the
    message of an expired session, and writes nothing. *)
Theorem deleted_entity_is_locked_out (request : Request) (s : State) :
  let s' := snd (serve RpcDeleteEntity request s) in
  code (context s') = OK ->
  rejected_with (serve RpcDeleteEntity request s') DeleteEntityResponse
    UNAUTHENTICATED session_expired s'
  /\ rejected_with (serve RpcListEntityStoredTokens request s')
       ListEntityStoredTokenResponse UNAUTHENTICATED session_expired s'.
Proof.
  cbv zeta. unfold rejected_with. intros Hok.
  remember (snd (serve RpcDeleteEntity request s)) as s1 eqn:E1.
  remember (serve RpcDeleteEntity request s1) as o2 eqn:E2.
  remember (serve RpcListEntityStoredTokens request s1) as o3 eqn:E3.
  revert o3 E3. revert o2 E2. revert s1 E1 Hok.
  unfold serve. cbn [handler]. OutcomeFacts.unfold_handlers.
  paths_with ltac:(
    idtac; match goal with
    | H : Store.find_entity _ (Store.by_eid _) = Some _ |- _ =>
        rewrite (find_after_delete_by _ _ _ H)
    end).
  all: repeat split.
Qed.

Lemma find_after_create (rows : list Store.Entity) (e : Store.Entity) (h : string) :
  Store.find_entity rows (Store.by_phone_number_hash h) = None ->
  Store.phone_number_hash e = h ->
  Store.find_entity (Store.create_entity rows e) (Store.by_phone_number_hash h)
  = Some e.
Proof.
  unfold Store.find_entity, Store.create_entity. intros H <-.
  induction rows as [| r rows IH]; cbn [app find Store.entity_matches] in *.
  - now rewrite String.eqb_refl.
  - destruct (String.eqb (Store.phone_number_hash r) (Store.phone_number_hash e));
      [discriminate H | now apply IH].
Qed.

(** X14. A phone number is registered once. After a [CreateEntity] that
    added an entity, a [CreateEntity] for the same phone number,
    whatever else it carries, ends with ALREADY_EXISTS and writes
    nothing. *)
Theorem created_phone_is_taken (request again : Request) (s : State) :
  phone_number again = phone_number request ->
  let s' := snd (serve RpcCreateEntity request s) in
  entities s' <> entities s ->
  rejected_with (serve RpcCreateEntity again s') CreateEntityResponse ALREADY_EXISTS
    ("Entity with phone number `" ++ phone_number request ++ "` already exists.") s'.
Proof.
  intros Hp. cbv zeta. unfold rejected_with. intros Hw.
  remember (snd (serve RpcCreateEntity request s)) as s1 eqn:E1.
  remember (serve RpcCreateEntity again s1) as o2 eqn:E2.
  revert o2 E2. revert s1 E1 Hw.
  unfold serve. cbn [handler]. OutcomeFacts.unfold_handlers.
  destruct again. cbn [phone_number] in *. subst.
  paths_with ltac:(
    idtac; match goal with
    | H : Store.find_entity _ (Store.by_phone_number_hash _) = None |- _ =>
        rewrite (find_after_create _ _ _ H) by reflexivity
    | |- (Store.create_entity _ _ <> _) -> _ => intros _
    end).
  all: repeat split.
Qed.

End WithCollaborators.

(** The small instance decrypts what it encrypts. *)
Lemma substring_prefix (p q : string) : substring 0 (String.length p) (p ++ q) = p.
Proof.
  induction p as [| c p IH]; cbn [String.length append substring].
  - now destruct q.
  - now rewrite IH.
Qed.

Lemma length_snoc (p q : string) :
  String.length (p ++ q) = (String.length p + String.length q)%nat.
Proof. induction p as [| c p IH]; cbn [String.length append Nat.add]; congruence. Qed.

Lemma demo_decrypts_encrypted (x : list string) (p : string) :
  decrypt_and_decode (Collaborators := Demo.collaborators)
    (fst (encrypt_and_encode (Collaborators := Demo.collaborators) x p)) = p.
Proof.
  cbn [decrypt_and_decode encrypt_and_encode Demo.collaborators fst].
  cbn [append String.length]. rewrite length_snoc. cbn [String.length].
  replace (S (S (S (S (String.length p + 1)))) - 5)%nat with (String.length p) by lia.
  cbn [substring]. apply substring_prefix.
Qed.

Lemma stored_token_is_returned_witness :
  let s' := snd (serve (C := Demo.collaborators) RpcStoreEntityToken
                   Scenario.store_gmail Scenario.s2) in
  let o := serve RpcGetEntityAccessToken Scenario.store_gmail s' in
  fst o = Return (mkResponse GetEntityAccessTokenResponse
                    "Successfully fetched tokens." true false 0 "" "" "" []
                    "T" "" "")
  /\ context (snd o) = fresh_context
  /\ quiet s' (snd o).
Proof.
  apply (stored_token_is_returned (C := Demo.collaborators)
           Scenario.store_gmail Scenario.store_gmail Scenario.s2).
  - exact demo_decrypts_encrypted.
  - reflexivity.
  - reflexivity.
  - reflexivity.
  - vm_compute. reflexivity.
  - vm_compute. discriminate.
Defined.

Lemma second_store_already_exists_witness :
  let s' := snd (serve (C := Demo.collaborators) RpcStoreEntityToken
                   Scenario.store_gmail Scenario.s2) in
  rejected_with (serve RpcStoreEntityToken Scenario.store_gmail s')
    StoreEntityTokenResponse ALREADY_EXISTS
    "Entity already has a token associated with account identifier a@x for gmail" s'.
Proof.
  apply (second_store_already_exists (C := Demo.collaborators)
           Scenario.store_gmail Scenario.store_gmail Scenario.s2).
  - reflexivity.
  - reflexivity.
  - reflexivity.
  - reflexivity.
  - vm_compute. reflexivity.
  - vm_compute. discriminate.
Defined.

Lemma deleted_token_is_gone_witness :
  let s' := snd (serve (C := Demo.collaborators) RpcDeleteEntityToken
                   Scenario.store_gmail Scenario.s3) in
  rejected_with (serve RpcDeleteEntityToken Scenario.store_gmail s')
    DeleteEntityTokenResponse NOT_FOUND (no_token_found "a@x" "gmail") s'
  /\ rejected_with (serve RpcGetEntityAccessToken Scenario.store_gmail s')
       GetEntityAccessTokenResponse NOT_FOUND (no_token_found "a@x" "gmail") s'.
Proof.
  apply (deleted_token_is_gone (C := Demo.collaborators) Scenario.store_gmail Scenario.s3).
  - exists [], Scenario.history. vm_refl.
  - vm_compute. reflexivity.
Defined.

Lemma deleted_entity_is_locked_out_witness :
  let s' := snd (serve (C := Demo.collaborators) RpcDeleteEntity
                   Scenario.delete_a Scenario.s2) in
  rejected_with (serve RpcDeleteEntity Scenario.delete_a s') DeleteEntityResponse
    UNAUTHENTICATED session_expired s'
  /\ rejected_with (serve RpcListEntityStoredTokens Scenario.delete_a s')
       ListEntityStoredTokenResponse UNAUTHENTICATED session_expired s'.
Proof.
  apply (deleted_entity_is_locked_out (C := Demo.collaborators)
           Scenario.delete_a Scenario.s2).
  vm_compute. reflexivity.
Defined.

Lemma created_phone_is_taken_witness :
  let s' := snd (serve (C := Demo.collaborators) RpcCreateEntity
                   Scenario.create2 Scenario.s1) in
  rejected_with (serve RpcCreateEntity Scenario.create1 s') CreateEntityResponse
    ALREADY_EXISTS "Entity with phone number `+237600000001` already exists." s'.
Proof.
  apply (created_phone_is_taken (C := Demo.collaborators)
           Scenario.create2 Scenario.create1 Scenario.s1).
  - reflexivity.
  - vm_compute. discriminate.
Defined.

End LifecycleFacts.

(* ------------------------------------------------------------------ *)
(** ** What a call needs, and what it leaves *)

Module FootprintFacts.
Import Grpc Effects Service Observations Outcomes.

Ltac give_events :=
  first
    [ exists []; split; [symmetry; apply app_nil_r | reflexivity]
    | eexists [_]; split; [reflexivity | cbn; rewrite ?String.eqb_refl; reflexivity]
    | eexists; split;
      [rewrite <- app_assoc; reflexivity | cbn; rewrite ?String.eqb_refl; reflexivity] ].

Section WithCollaborators.
Context {C : Collaborators}.

(** X15. What a call leaves behind. Every call adds to the trace
    nothing, one event, or a gateway call followed by one write; the
    gateway is called by [CreateEntity] and [AuthenticateEntity] alone,
    for the phone number of the request, and each handler makes the one
    kind of write that is its own. *)
Theorem call_footprint (m : Rpc) (request : Request) (s : State) :
  exists evs,
    added s (snd (serve m request s)) evs /\ footprint m request evs = true.
Proof.
  unfold serve, added. destruct m; cbn [handler]; OutcomeFacts.unfold_handlers;
    OutcomeFacts.all_paths; give_events.
Qed.

(** X16. An entity is created only on an accepted proof. When
    [CreateEntity] adds to the entity table, the gateway has accepted
    the proof of the request for its phone number, no entity had the
    phone number, both keys of the request are valid X25519 keys, and one
    row was added: it is keyed by the HMAC of the phone number, carries
    the HMAC of the password and no ratchet state. *)
Theorem entity_created_only_on_proof (request : Request) (s : State) :
  let s' := snd (serve RpcCreateEntity request s) in
  let h := generate_hmac HASHING_KEY (phone_number request) in
  entities s' <> entities s ->
  fst (fst (verify_otp (ext s) (phone_number request)
              (ownership_proof_response request))) = true
  /\ Store.find_entity (entities s) (Store.by_phone_number_hash h) = None
  /\ fst (is_valid_x25519_public_key (client_publish_pub_key request)) = true
  /\ fst (is_valid_x25519_public_key (client_device_id_pub_key request)) = true
  /\ exists e,
       entities s' = entities s ++ [e]
       /\ Store.phone_number_hash e = h
       /\ Store.eid e = generate_eid h
       /\ Store.password_hash e = generate_hmac HASHING_KEY (password request)
       /\ Store.server_state e = None.
Proof.
  cbv zeta. intros Hw.
  remember (snd (serve RpcCreateEntity request s)) as s1 eqn:E1.
  revert s1 E1 Hw.
  unfold serve. cbn [handler]. OutcomeFacts.unfold_handlers.
  LifecycleFacts.paths_with ltac:(
    idtac; match goal with
    | |- (Store.create_entity _ _ <> _) -> _ => intros _
    end).
  repeat match goal with
         | H : ?x = _ |- context [?x] => rewrite H
         end.
  cbn [fst]. repeat split. eexists. repeat split.
Qed.

(** X17. What [AuthenticateEntity] needs to end with OK: an entity with
    the phone number of the request, and then, without a proof, a
    password that verifies against the stored hash and a gateway that
    sent the code; with a proof, two valid X25519 keys and a gateway that
    accepted the proof. *)
Theorem authenticate_ok_needs (request : Request) (s : State) :
  let s' := snd (serve RpcAuthenticateEntity request s) in
  let h := generate_hmac HASHING_KEY (phone_number request) in
  code (context s') = OK ->
  exists e,
    Store.find_entity (entities s) (Store.by_phone_number_hash h) = Some e
    /\ if Py.truthy (ownership_proof_response request)
       then fst (is_valid_x25519_public_key (client_publish_pub_key request)) = true
            /\ fst (is_valid_x25519_public_key (client_device_id_pub_key request))
               = true
            /\ fst (fst (verify_otp (ext s) (phone_number request)
                           (ownership_proof_response request))) = true
       else verify_hmac HASHING_KEY (password request) (Store.password_hash e) = true
            /\ fst (fst (fst (send_otp (ext s) (phone_number request)))) = true.
Proof.
  cbv zeta. intros Hok.
  remember (snd (serve RpcAuthenticateEntity request s)) as s1 eqn:E1.
  revert s1 E1 Hok.
  unfold serve. cbn [handler]. OutcomeFacts.unfold_handlers.
  LifecycleFacts.paths_with ltac:(fail).
  all: eexists; split; [reflexivity |].
  all: repeat match goal with
              | H : ?x = _ |- context [?x] => rewrite H
              end.
  all: cbn [fst negb] in *; repeat split; try assumption.
  all: match goal with
       | H : negb ?b = false |- ?b = true => now destruct b
       end.
Qed.

(** X18. The second phase of [AuthenticateEntity] does not look at the
    password: with a proof in the request, the call ends the same way
    and in the same state whatever the password field holds. *)
Theorem authenticate_with_proof_ignores_password (request : Request) (pw : string)
    (s : State) :
  Py.truthy (ownership_proof_response request) = true ->
  serve RpcAuthenticateEntity (with_password request pw) s
  = serve RpcAuthenticateEntity request s.
Proof.
  intros Hp. unfold serve, with_password. cbn [handler].
  OutcomeFacts.unfold_handlers.
  LifecycleFacts.paths_with ltac:(fail).
  all: reflexivity.
Qed.

(** X19. [DeleteEntity] and [ListEntityStoredTokens] agree. On the same
    request and state, when the listing fails, the deletion fails with
    the same status and details; when the listing succeeds, the deletion
    ends with OK if the list is empty and with FAILED_PRECONDITION
    otherwise. *)
Theorem delete_entity_agrees_with_listing (request : Request) (s : State) :
  let l := serve RpcListEntityStoredTokens request s in
  let d := serve RpcDeleteEntity request s in
  match code (context (snd l)) with
  | OK =>
      exists r, fst l = Return r /\
                code (context (snd d))
                = match resp_stored_tokens r with
                  | [] => OK
                  | _ :: _ => FAILED_PRECONDITION
                  end
  | _ => context (snd d) = context (snd l)
  end.
Proof.
  cbv zeta.
  remember (serve RpcListEntityStoredTokens request s) as l eqn:E1.
  remember (serve RpcDeleteEntity request s) as d eqn:E2.
  revert d E2. revert l E1.
  unfold serve. cbn [handler]. OutcomeFacts.unfold_handlers.
  LifecycleFacts.paths_with ltac:(fail).
  all: cbn [fst snd context code].
  all: try reflexivity.
  all: eexists; split; reflexivity.
Qed.

Lemma save_token_keeps (rows : list Store.Token) (t' r : Store.Token) :
  In r rows -> Store.tok_id r <> Store.tok_id t' -> In r (Store.save_token rows t').
Proof.
  intros Hr Hn. unfold Store.save_token. apply in_map_iff. exists r.
  split; [| exact Hr]. destruct (Nat.eqb (Store.tok_id r) (Store.tok_id t')) eqn:E;
    [apply Nat.eqb_eq in E; contradiction | reflexivity].
Qed.

Lemma save_token_has (rows : list Store.Token) (t t' : Store.Token) :
  In t rows -> Store.tok_id t' = Store.tok_id t -> In t' (Store.save_token rows t').
Proof.
  intros Ht E. unfold Store.save_token. apply in_map_iff. exists t.
  split; [| exact Ht]. now rewrite E, Nat.eqb_refl.
Qed.

(** X20. [UpdateEntityToken] rewrites one row. In a state the service
    reaches, an update that ended with OK has replaced the account
    tokens of the row of the entity for the platform and the account
    identifier hash of the request by the encrypted token of the
    request; every other row, the number of rows, the keys and ids of
    the rows, and the entity table are as before. *)
Theorem update_rewrites_one_row (request : Request) (s : State) :
  reachable s ->
  let s' := snd (serve RpcUpdateEntityToken request s) in
  code (context s') = OK ->
  exists e t,
    device_authenticates request s e
    /\ In t (tokens s)
    /\ token_key t = requested_key request e
    /\ In (set_token_account_tokens t
             (fst (encrypt_and_encode (ext s) (token request)))) (tokens s')
    /\ (forall r, In r (tokens s) -> r <> t -> In r (tokens s'))
    /\ map token_key (tokens s') = map token_key (tokens s)
    /\ map Store.tok_id (tokens s') = map Store.tok_id (tokens s)
    /\ entities s' = entities s.
Proof.
  intros Hr. apply StoreFacts.reachable_consistent in Hr as ((_ & Hid) & _ & _).
  cbv zeta. intros Hok.
  remember (snd (serve RpcUpdateEntityToken request s)) as s1 eqn:E1.
  revert s1 E1 Hok.
  unfold serve, device_authenticates, requested_key. cbn [handler].
  OutcomeFacts.unfold_handlers.
  LifecycleFacts.paths_with ltac:(fail).
  match goal with
  | H : Store.fetch_entity_tokens _ _ _ _ = ?t :: _ |- _ =>
      apply StoreFacts.fetch_first in H as [Hin Hk]; exists e, t
  end.
  split; [reflexivity |]. split; [exact Hin |]. split; [exact Hk |].
  split; [now apply (save_token_has _ t) |].
  split.
  { intros r Hrin Hne. apply save_token_keeps; [exact Hrin |].
    cbn [set_token_account_tokens Store.tok_id]. intros E. apply Hne.
    now apply (StoreFacts.NoDup_map_same Store.tok_id (tokens s)). }
  split; [now apply (StoreFacts.save_token_map token_key (tokens s) t) |].
  split; [now apply (StoreFacts.save_token_map Store.tok_id (tokens s) t) | reflexivity].
Qed.

(** X21. What [ListEntityStoredTokens] shows. A listing that ended with
    OK has, for the entity the long-lived token names, one entry for
    each of its rows of the token table, in the order of the table; an
    entry holds the decrypted account identifier and the platform, and
    nothing of the account tokens. The call writes nothing. *)
Theorem listing_shows_identifier_and_platform (request : Request) (s : State) :
  let o := serve RpcListEntityStoredTokens request s in
  code (context (snd o)) = OK ->
  exists e eid llt,
    Py.split_colon (long_lived_token request) = Some (eid, llt)
    /\ Store.find_entity (entities s) (Store.by_eid eid) = Some e
    /\ fst o
       = Return (mkResponse ListEntityStoredTokenResponse
                   "Tokens retrieved successfully." false false 0 "" "" ""
                   (map (fun t =>
                           [("account_identifier",
                             decrypt_and_decode (Store.tok_account_identifier t));
                            ("platform", Store.tok_platform t)])
                        (Store.fetch_entity_tokens (tokens s) e None None))
                   "" "" "").
Proof.
  cbv zeta. intros Hok.
  remember (serve RpcListEntityStoredTokens request s) as o eqn:E1.
  revert o E1 Hok.
  unfold serve. cbn [handler]. OutcomeFacts.unfold_handlers.
  LifecycleFacts.paths_with ltac:(fail).
  do 3 eexists. split; [reflexivity |]. split; [eassumption |].
  cbn [fst]. unfold Store.fetch_entity_tokens_json. rewrite map_map.
  do 2 f_equal.
Qed.

End WithCollaborators.

#[local] Existing Instance Demo.collaborators.

Lemma entity_created_only_on_proof_witness :
  fst (fst (verify_otp (Collaborators := Demo.collaborators)
              (ext (C := Demo.collaborators) Scenario.s1)
              (phone_number Scenario.create2)
              (ownership_proof_response Scenario.create2))) = true.
Proof.
  refine (proj1 (entity_created_only_on_proof (C := Demo.collaborators)
                   Scenario.create2 Scenario.s1 _)).
  vm_compute. discriminate.
Defined.

Lemma authenticate_ok_needs_witness :
  exists e,
    Store.find_entity (entities (C := Demo.collaborators) Scenario.s4)
      (Store.by_phone_number_hash
         (generate_hmac (Collaborators := Demo.collaborators) HASHING_KEY
            (phone_number Scenario.auth1))) = Some e.
Proof.
  destruct (authenticate_ok_needs (C := Demo.collaborators) Scenario.auth1 Scenario.s4)
    as (e & He & _).
  - vm_compute. reflexivity.
  - exists e. exact He.
Defined.

Lemma authenticate_with_proof_ignores_password_witness :
  serve (C := Demo.collaborators) RpcAuthenticateEntity
    (with_password Scenario.auth2 "letmein") Scenario.s5
  = serve RpcAuthenticateEntity Scenario.auth2 Scenario.s5.
Proof.
  apply (authenticate_with_proof_ignores_password (C := Demo.collaborators)).
  reflexivity.
Defined.

Lemma update_rewrites_one_row_witness :
  entities (snd (serve (C := Demo.collaborators) RpcUpdateEntityToken
                   (mkRequest "" "" "" "" "" "" "" "T2" "gmail" "a@x"
                      Scenario.device_id_a "" "")
                   Scenario.s3))
  = entities (C := Demo.collaborators) Scenario.s3.
Proof.
  destruct (update_rewrites_one_row (C := Demo.collaborators)
              (mkRequest "" "" "" "" "" "" "" "T2" "gmail" "a@x"
                 Scenario.device_id_a "" "")
              Scenario.s3)
    as (e & t & _ & _ & _ & _ & _ & _ & _ & H).
  - exists [], Scenario.history. vm_refl.
  - vm_compute. reflexivity.
  - exact H.
Defined.

Lemma listing_shows_identifier_and_platform_witness :
  exists e eid llt,
    Py.split_colon (long_lived_token Scenario.delete_a) = Some (eid, llt)
    /\ Store.find_entity (entities (C := Demo.collaborators) Scenario.s3)
         (Store.by_eid eid) = Some e.
Proof.
  destruct (listing_shows_identifier_and_platform (C := Demo.collaborators)
              Scenario.delete_a Scenario.s3)
    as (e & eid & llt & H1 & H2 & _).
  - vm_compute. reflexivity.
  - exists e, eid, llt. split; [exact H1 | exact H2].
Defined.

(** X22. The device id sees the phone number and the public key through
    their concatenation alone: characters moved from the end of the one to
    the front of the other leave the id as it is. *)
Theorem device_id_of_concatenation (sk : Bytes.bytes) (p x pub : string) :
  DeviceId.compute_device_id sk (p ++ x) pub
  = DeviceId.compute_device_id sk p (x ++ pub).
Proof.
  unfold DeviceId.compute_device_id. cbv zeta.
  now rewrite DeleteEntityFacts.append_assoc.
Qed.

End FootprintFacts.

(* ------------------------------------------------------------------ *)
(** ** What a successful read or decryption has done *)

Module AnswerFacts.
Import Grpc Effects Service Observations Outcomes.

Section WithCollaborators.
Context {C : Collaborators}.

Lemma fetched_account_tokens (rows : list Store.Token) (e : Store.Entity)
    (p h : option string) :
  map (decrypt_fields ["account_tokens"])
      (Store.fetch_entity_tokens_json rows e p h ["account_tokens"])
  = map (fun t => [("account_tokens", decrypt_and_decode (Store.tok_account_tokens t))])
        (Store.fetch_entity_tokens rows e p h).
Proof. unfold Store.fetch_entity_tokens_json. now rewrite map_map. Qed.

(** X23. What [GetEntityAccessToken] returns. A call that ended with OK
    has found the entity by the eid in front of the long-lived token
    when the request has one, and by the device id otherwise; the
    platform is supported; and the token returned is the decrypted
    account tokens of the first row of that entity for the platform and
    the HMAC of the account identifier of the request. *)
Theorem get_returns_first_match (request : Request) (s : State) :
  let o := serve RpcGetEntityAccessToken request s in
  code (context (snd o)) = OK ->
  exists e t ts,
    (if Py.truthy (long_lived_token request)
     then exists eid llt,
            Py.split_colon (long_lived_token request) = Some (eid, llt)
            /\ Store.find_entity (entities s) (Store.by_eid eid) = Some e
     else Store.find_entity (entities s) (Store.by_device_id (device_id request))
          = Some e)
    /\ platform_supported request = true
    /\ Store.fetch_entity_tokens (tokens s) e (Some (platform request))
         (Some (generate_hmac HASHING_KEY (account_identifier request))) = t :: ts
    /\ fst o = Return (mkResponse GetEntityAccessTokenResponse
                         "Successfully fetched tokens." true false 0 "" "" "" []
                         (decrypt_and_decode (Store.tok_account_tokens t)) "" "").
Proof.
  cbv zeta. intros Hok.
  remember (serve RpcGetEntityAccessToken request s) as o eqn:E1.
  revert o E1 Hok.
  unfold serve. cbn [handler]. OutcomeFacts.unfold_handlers.
  LifecycleFacts.paths_with ltac:(
    idtac; match goal with
    | |- context [map (decrypt_fields ["account_tokens"]) _] =>
        rewrite fetched_account_tokens
    end).
  all: match goal with
       | H : map _ (Store.fetch_entity_tokens ?rows ?e ?p ?h) = _ :: _ |- _ =>
           destruct (Store.fetch_entity_tokens rows e p h) as [| t ts] eqn:Hf;
           [discriminate H | cbn [map] in H; injection H as <- <-]
       end.
  all: match goal with
       | H : Py.get _ _ = Some _ |- _ => cbn in H; injection H as <-
       end.
  all: exists e, t, ts.
  all: repeat match goal with
              | H : ?x = _ |- context [?x] => rewrite H
              end.
  all: unfold platform_supported.
  all: repeat split; try assumption; try (do 2 eexists; split; [reflexivity | assumption]).
Qed.

(** X24. What a successful [DecryptPayload] has done. A call that ended
    with OK has found the entity by the device id, decoded the payload
    without error, and decrypted it with the stored ratchet state and the
    publish key pair of the entity without error; the plaintext returned
    is the one the decryption gave, and the entity is saved with the new
    ratchet state and nothing else changed. *)
Theorem decrypt_ok_needs (request : Request) (s : State) :
  let o := serve RpcDecryptPayload request s in
  code (context (snd o)) = OK ->
  exists e header ct pt st x,
    Store.find_entity (entities s) (Store.by_device_id (device_id request)) = Some e
    /\ decode_relay_sms_payload (payload_ciphertext request) = (header, ct, None)
    /\ (let kp := load_keypair_object (Store.publish_keypair e) in
        decrypt_payload (ext s) (Store.server_state e)
          (agree kp (b64decode (Store.client_publish_pub_key e))) kp header ct
          (get_public_key kp) = (pt, st, None, x))
    /\ fst o = Return (mkResponse DecryptPayloadResponse "Successfully decrypted payload"
                         true false 0 "" "" "" [] "" pt "")
    /\ entities (snd o)
       = Store.save_entity (entities s)
           (set_entity_server_state e (Some (state_serialize st)))
    /\ ext (snd o) = x.
Proof.
  cbv zeta. intros Hok.
  remember (serve RpcDecryptPayload request s) as o eqn:E1.
  revert o E1 Hok.
  unfold serve. cbn [handler]. OutcomeFacts.unfold_handlers.
  LifecycleFacts.paths_with ltac:(fail).
  do 6 eexists. split; [reflexivity |]. split; [reflexivity |].
  split; [eassumption |]. repeat split.
Qed.

End WithCollaborators.

#[local] Existing Instance Demo.collaborators.

Lemma get_returns_first_match_witness :
  exists e t ts,
    Store.fetch_entity_tokens (tokens (C := Demo.collaborators) Scenario.s3) e
      (Some "gmail") (Some (generate_hmac HASHING_KEY "a@x")) = t :: ts.
Proof.
  destruct (get_returns_first_match (C := Demo.collaborators)
              Scenario.get_both Scenario.s3)
    as (e & t & ts & _ & _ & H & _).
  - vm_compute. reflexivity.
  - exists e, t, ts. exact H.
Defined.

Lemma decrypt_ok_needs_witness :
  exists e,
    Store.find_entity (entities (C := Demo.collaborators) Scenario.s2)
      (Store.by_device_id (device_id Scenario.decrypt_a)) = Some e.
Proof.
  destruct (decrypt_ok_needs (C := Demo.collaborators) Scenario.decrypt_a Scenario.s2)
    as (e & header & ct & pt & st & x & H & _).
  - vm_compute. reflexivity.
  - exists e. exact H.
Defined.

End AnswerFacts.
